(** * BART summarization distiller: layer selection, freezing and loss blending

    A shallow embedding of [examples/summarization/bart/finetune.py]
    (classes [SummarizationTrainer] and [SummarizationDistiller]) together
    with the properties of the distillation core.

    Part I holds the embedding, Part II the lemmas and theorems. *)

From Stdlib Require Import ZArith List Bool Lia.
From Stdlib Require Import Floats.SpecFloat.
From stdpp Require Import gmap list strings.

Import ListNotations.
Local Open Scope Z_scope.

(* ===================================================================== *)
(** * Part I: the embedding                                              *)
(* ===================================================================== *)

(** ** Python integers and list slicing *)

Module Py.

(** [a // b] on Python integers is floor division, which is [Z.div]. *)
Definition floordiv (a b : Z) : Z := a / b.

(** [list(range(n))]: the integers [0 .. n-1], empty when [n <= 0]. *)
Definition range (n : Z) : list Z := map Z.of_nat (seq 0 (Z.to_nat n)).

(** [l[::2]]: every second element, starting with the first. *)
Fixpoint stride2 {A : Type} (l : list A) : list A :=
  match l with
  | [] => []
  | x :: tl => x :: match tl with
                    | [] => []
                    | _ :: rest => stride2 rest
                    end
  end.

(** [l[:-1]]: all but the last element (empty stays empty). *)
Definition drop_last {A : Type} (l : list A) : list A := removelast l.

(** [l[1:]]: all but the first element (empty stays empty). *)
Definition drop_first {A : Type} (l : list A) : list A := tl l.

End Py.

(** ** Layer selector ([SummarizationDistiller.__init__], lines 212-216) *)

Module LayerSelector.

(** [student_updates = {"decoder_layers": teacher.config.decoder_layers // 2}] *)
Definition student_decoder_layers (teacher_decoder_layers : Z) : Z :=
  Py.floordiv teacher_decoder_layers 2.

(** The hand-tuned index set used when the student has six layers. *)
Definition six_layer_indices : list Z := [0; 2; 4; 7; 9; 11].

(** [if student_updates["decoder_layers"] == 6: ... else: ...] *)
Definition layers_to_copy (teacher_decoder_layers : Z) : list Z :=
  if student_decoder_layers teacher_decoder_layers =? 6
  then six_layer_indices
  else Py.stride2 (Py.range teacher_decoder_layers).

(** The list the specification describes for the fallback: the even
    indices [0, 2, 4, ...] below the teacher depth, in increasing order. *)
Definition even_indices_below (n : Z) : list Z :=
  map (fun k => 2 * Z.of_nat k) (seq 0 (Z.to_nat ((n + 1) / 2))).

End LayerSelector.

(** ** Single-precision scalars

    Losses and logits are [torch.float32] values.  They are modelled with
    the IEEE 754 specification of the standard library at precision 24 and
    maximal exponent 128, rounding to nearest even.  A Python [float] that
    meets a float32 tensor in an arithmetic operation is first converted to
    float32; the hyper-parameters below are the converted values. *)

Module F32.

Definition prec : Z := 24.
Definition emax : Z := 128.

Definition float : Type := spec_float.

Definition valid (x : float) : bool := valid_binary prec emax x.

Definition add (x y : float) : float := SFadd prec emax x y.
Definition mul (x y : float) : float := SFmul prec emax x y.
Definition div (x y : float) : float := SFdiv prec emax x y.

(** Conversion of a Python [int] to float32. *)
Definition of_Z (n : Z) : float := binary_normalize prec emax n 0 false.

Definition zero : float := S754_zero false.
Definition one : float := S754_finite false 8388608 (-23).
Definition two : float := S754_finite false 8388608 (-22).
Definition inf : float := S754_infinity false.
Definition nan : float := S754_nan.

Definition is_finite (x : float) : bool :=
  match x with
  | S754_zero _ | S754_finite _ _ _ => true
  | _ => false
  end.

Definition is_zero (x : float) : bool :=
  match x with
  | S754_zero _ => true
  | _ => false
  end.

(** The same number: identical, or zeros that differ in sign only. *)
Definition same_value (x y : float) : Prop :=
  x = y \/ (is_zero x = true /\ is_zero y = true).

End F32.

(** ** Tensors

    A tensor is its shape and its elements in row-major order. *)

Record tensor (A : Type) : Type := Tensor { shape : list nat; data : list A }.
Arguments Tensor {A} _ _.
Arguments shape {A} _.
Arguments data {A} _.

Module T.

Definition numel (sh : list nat) : nat := fold_right Nat.mul 1%nat sh.

(** Shape and data agree. *)
Definition wf {A : Type} (t : tensor A) : Prop :=
  length (data t) = numel (shape t).

(** [t.size(-1)]; a zero-dimensional tensor has no last dimension. *)
Definition size_last {A : Type} (t : tensor A) : option nat :=
  match rev (shape t) with
  | [] => None
  | v :: _ => Some v
  end.

(** [t.size(0)]. *)
Definition size_first {A : Type} (t : tensor A) : option nat :=
  match shape t with
  | [] => None
  | n :: _ => Some n
  end.

(** [t / c] for a scalar [c]. *)
Definition div_scalar (t : tensor F32.float) (c : F32.float) : tensor F32.float :=
  Tensor (shape t) (map (fun x => F32.div x c) (data t)).

(** Index into a dimension of size [n_src] that is being expanded: a
    dimension of size one is repeated. *)
Definition bidx (n_src i : nat) : nat := if (n_src =? 1)%nat then 0%nat else i.

(** [mask[:, :, None].expand_as(target)] for a two-dimensional [mask] and
    a three-dimensional [target]: each mask entry is repeated along the
    last dimension; a dimension of the mask must equal that of the target
    or be one.  Other ranks raise. *)
Definition unsqueeze_expand_as {A B : Type} (dflt : A)
    (mask : tensor A) (target : tensor B) : option (tensor A) :=
  match shape mask, shape target with
  | [b; s], [B'; S'; V] =>
      if (((b =? B') || (b =? 1)) && ((s =? S') || (s =? 1)))%nat
      then Some (Tensor [B'; S'; V]
             (flat_map (fun i =>
                flat_map (fun j =>
                  repeat (nth (bidx b i * s + bidx s j) (data mask) dflt) V)
                  (seq 0 S'))
                (seq 0 B')))
      else None
  | _, _ => None
  end.

(** The elements of [xs] at which [ms] is true, in order. *)
Fixpoint select {A : Type} (xs : list A) (ms : list bool) : list A :=
  match xs, ms with
  | x :: xs', m :: ms' => if m then x :: select xs' ms' else select xs' ms'
  | _, _ => []
  end.

(** [torch.masked_select(t, mask)]: a one-dimensional tensor.  The model
    covers a mask of the shape of [t]; torch broadcasts other shapes
    where it can and raises where it cannot, the model reports both as
    [None]. *)
Definition masked_select {A : Type} (t : tensor A) (mask : tensor bool)
  : option (tensor A) :=
  if decide (shape t = shape mask)
  then let sel := select (data t) (data mask) in
       Some (Tensor [length sel] sel)
  else None.

(** [t.view(-1, v)]: the first dimension is inferred; raises when the
    number of elements is not a multiple of [v] (or [v] is zero). *)
Definition view_rows {A : Type} (t : tensor A) (v : nat) : option (tensor A) :=
  if ((v =? 0) || negb (length (data t) mod v =? 0))%nat
  then None
  else Some (Tensor [(length (data t) / v)%nat; v] (data t)).

End T.

(** ** Library functions

    [torch.nn.functional.softmax], [log_softmax] (both along the last
    dimension) and the summed pointwise Kullback-Leibler term of
    [torch.nn.functional.kl_div(input, target, reduction="sum")] belong to
    the tensor library; they are parameters of the development. *)

Class Torch : Type := {
  softmax : tensor F32.float -> tensor F32.float;
  log_softmax : tensor F32.float -> tensor F32.float;
  kl_div_sum : tensor F32.float -> tensor F32.float -> F32.float;
  (** both normalizations keep the shape of their argument *)
  softmax_shape : forall t, shape (softmax t) = shape t;
  log_softmax_shape : forall t, shape (log_softmax t) = shape t
}.

(** [nn.KLDivLoss(reduction="batchmean")(input, target)]: the summed loss
    divided by [input.size(0)]. *)
Definition KLDivLoss_batchmean `{Torch} (input target : tensor F32.float)
  : option F32.float :=
  match T.size_first input with
  | Some n => Some (F32.div (kl_div_sum input target) (F32.of_Z (Z.of_nat n)))
  | None => None
  end.

(** [transformers.modeling_bart.invert_mask].

    Modelled from the spec: the source of [invert_mask] is not part of the
    files at hand; it turns a mask that is true at padding positions into
    one that is true at real-token positions. *)
Definition invert_mask (mask : tensor bool) : tensor bool :=
  Tensor (shape mask) (map negb (data mask)).

(** ** Distillation loss engine ([SummarizationDistiller.calc_ce_loss]) *)

Module LossEngine.
Section WithTorch.
Context `{Torch}.

(** [calc_ce_loss(self, mask, s_logits, t_logits)], lines 263-288.
    [temperature] is [self.temperature], a float32 value, for which
    [temperature ** 2] is the float32 product; [None] stands for a raised
    exception (a failed [expand_as], [view] or [assert]), and for teacher
    logits whose shape is not that of the student logits, which the model
    of [masked_select] does not cover. *)
Definition calc_ce_loss (temperature : F32.float) (mask : option (tensor bool))
    (s_logits t_logits : tensor F32.float)
  : option (F32.float * tensor F32.float * tensor F32.float) :=
  '(s_logits_slct, t_logits_slct) ←
    match mask with
    | Some mask =>
        (* mask has True at padding_idx *)
        let mask := invert_mask mask in
        sel_mask ← T.unsqueeze_expand_as false mask s_logits;
        s_logits_slct ← T.masked_select s_logits sel_mask;
        t_logits_slct ← T.masked_select t_logits sel_mask;
        Some (s_logits_slct, t_logits_slct)
    | None => Some (s_logits, t_logits)
    end;
  v ← T.size_last s_logits;
  s_logits_slct ← T.view_rows s_logits_slct v;
  t_logits_slct ← T.view_rows t_logits_slct v;
  if decide (shape t_logits_slct = shape s_logits_slct)
  then
    kl ← KLDivLoss_batchmean
           (log_softmax (T.div_scalar s_logits_slct temperature))
           (softmax (T.div_scalar t_logits_slct temperature));
    Some (F32.mul kl (F32.mul temperature temperature),
          s_logits_slct, t_logits_slct)
  else None.

(** The soft-target loss in the words of the specification: [T^2] times
    the batch-averaged Kullback-Leibler divergence with
    [softmax(teacher / T)] as the target distribution and
    [log_softmax(student / T)] as the distribution under optimization.
    Batch-averaged: the divergence summed over all entries is divided by
    the number of rows of the selected logits, one row for each selected
    position. *)
Definition spec_soft_target_loss (temperature : F32.float)
    (student teacher : tensor F32.float) : option F32.float :=
  match shape student with
  | [rows; _] =>
      let target := softmax (T.div_scalar teacher temperature) in
      let optimized := log_softmax (T.div_scalar student temperature) in
      let kl_batch_averaged :=
        F32.div (kl_div_sum optimized target) (F32.of_Z (Z.of_nat rows)) in
      Some (F32.mul (F32.mul temperature temperature) kl_batch_averaged)
  | _ => None
  end.

(** The rows of a (batch x sequence x vocabulary) tensor that stand at
    real-token positions: [padding] is true at padding positions, [v] is
    the vocabulary size. *)
Fixpoint real_token_entries {A : Type} (v : nat) (padding : list bool)
    (xs : list A) : list A :=
  match padding with
  | [] => []
  | p :: padding' =>
      (if p then [] else firstn v xs) ++ real_token_entries v padding' (skipn v xs)
  end.

End WithTorch.
End LossEngine.

(** ** Decoder inputs and labels (lines 83-85 and 248-250) *)

Module Labels.

(** Token-id matrices are lists of rows. *)
Definition ids : Type := list (list Z).

(** The value [nn.CrossEntropyLoss] ignores. *)
Definition ignore_index : Z := -100.

(** [y_ids = y[:, :-1].contiguous()] *)
Definition y_ids (y : ids) : ids := map Py.drop_last y.

(** A row shifted left by one position: entry [i] of the result is entry
    [i + 1] of the row. *)
Definition shifted_left (row result : list Z) : Prop :=
  forall i : nat, (i < length result)%nat -> nth_error result i = nth_error row (S i).

(** A row shifted right by one position: entry [i + 1] of the result is
    entry [i] of the row. *)
Definition shifted_right (row result : list Z) : Prop :=
  forall i : nat, (S i < length result)%nat -> nth_error result (S i) = nth_error row i.

(** [row[row == pad_token_id] = -100] *)
Definition fill_ignore (pad_token_id : Z) (row : list Z) : list Z :=
  map (fun tok => if tok =? pad_token_id then ignore_index else tok) row.

(** [lm_labels = y[:, 1:].clone(); lm_labels[y[:, 1:] == pad_token_id] = -100] *)
Definition lm_labels (pad_token_id : Z) (y : ids) : ids :=
  map (fill_ignore pad_token_id) (map Py.drop_first y).

(** The construction as the specification words it: for every row of the
    target ids, the decoder input is the row shifted left by one position
    and the labels are the row, padding replaced by the ignored value,
    shifted right by one position. *)
Definition spec_construction (pad_token_id : Z) (y : ids) : Prop :=
  forall (i : nat) (row : list Z), nth_error y i = Some row ->
    exists dec lab,
      nth_error (y_ids y) i = Some dec /\
      nth_error (lm_labels pad_token_id y) i = Some lab /\
      shifted_left row dec /\
      shifted_right (fill_ignore pad_token_id row) lab.

End Labels.

(** ** Models, parameters and the world

    A [torch.nn.Parameter] is an object with an identity; two modules may
    hold the same parameter (BART ties its token embeddings).  The store
    maps the identity of each parameter to its value and its
    [requires_grad] flag; a module is the list of identities its
    [parameters()] yields. *)

Record BartConfig : Type := {
  decoder_layers : Z;
  encoder_layers : Z;
  d_model : Z;
  vocab_size : Z
}.

(** [kw = teacher.config.to_diff_dict(); kw.update(student_updates)] and
    the configuration built from [kw].

    Modelled from the spec: [to_diff_dict] and the constructor of
    [BartConfig] are not part of the files at hand.  The student
    configuration is derived from the teacher configuration by overriding
    only [decoder_layers]. *)
Definition with_decoder_layers (cfg : BartConfig) (n : Z) : BartConfig :=
  {| decoder_layers := n;
     encoder_layers := encoder_layers cfg;
     d_model := d_model cfg;
     vocab_size := vocab_size cfg |}.

Record Param : Type := { value : tensor F32.float; requires_grad : bool }.

Definition set_requires_grad (b : bool) (p : Param) : Param :=
  {| value := value p; requires_grad := b |}.

Definition set_value (v : tensor F32.float) (p : Param) : Param :=
  {| value := v; requires_grad := requires_grad p |}.

Definition module : Type := list positive.

Record BartDecoder : Type := {
  embed_positions : module;
  embed_tokens : module;
  layers : list module;
  decoder_other : module
}.

Record BartModel : Type := {
  config : BartConfig;
  shared : module;
  encoder : module;
  decoder : BartDecoder
}.

(** [model.parameters()] *)
Definition decoder_parameters (d : BartDecoder) : module :=
  embed_positions d ++ embed_tokens d ++ concat (layers d) ++ decoder_other d.

Definition parameters (m : BartModel) : module :=
  shared m ++ encoder m ++ decoder_parameters (decoder m).

(** The tensors of a model, as a checkpoint or a state dict holds them. *)
Record Weights : Type := {
  w_shared : list (tensor F32.float);
  w_encoder : list (tensor F32.float);
  w_positions : list (tensor F32.float);
  w_layers : list (list (tensor F32.float));
  w_decoder_other : list (tensor F32.float)
}.

Record Checkpoint : Type := { ck_config : BartConfig; ck_weights : Weights }.

Inductive Who : Type := Student | Teacher.

Inductive Event : Type :=
| EvFromPretrained (path : string)
| EvConstruct (cfg : BartConfig)
| EvInitStudent
| EvCopyDecoderLayers (l2copy : list Z)
| EvMkdir (path : string)
| EvSavePretrained (path : string)
| EvForward (who : Who) (grad_enabled : bool).

Inductive Error : Type :=
| AssertionError | ShapeMismatch | IndexError | KeyError | OSError | RuntimeError.

Record World : Type := {
  store : gmap positive Param;
  next_id : positive;
  storage : gmap string Checkpoint;
  grad_enabled : bool;
  trace : list Event
}.

Definition with_store (f : gmap positive Param -> gmap positive Param) (w : World) : World :=
  {| store := f (store w); next_id := next_id w; storage := storage w;
     grad_enabled := grad_enabled w; trace := trace w |}.

Definition with_grad_enabled (b : bool) (w : World) : World :=
  {| store := store w; next_id := next_id w; storage := storage w;
     grad_enabled := b; trace := trace w |}.

(** ** The monad of the embedding: state and exceptions

    A computation takes the world and either returns a value or raises;
    the world is threaded through both outcomes. *)

Inductive Result (A : Type) : Type :=
| Ok (a : A) (w : World)
| Raise (e : Error) (w : World).
Arguments Ok {A} _ _.
Arguments Raise {A} _ _.

Definition M (A : Type) : Type := World -> Result A.

#[global] Instance M_ret : MRet M := fun A a w => Ok a w.

#[global] Instance M_bind : MBind M := fun A B f m w =>
  match m w with
  | Ok a w' => f a w'
  | Raise e w' => Raise e w'
  end.

Definition raise {A : Type} (e : Error) : M A := fun w => Raise e w.

Definition get_world : M World := fun w => Ok w w.

Definition modify_store (f : gmap positive Param -> gmap positive Param) : M unit :=
  fun w => Ok tt (with_store f w).

(** The world with further events at the end of its trace. *)
Definition add_events (evs : list Event) (w : World) : World :=
  {| store := store w; next_id := next_id w; storage := storage w;
     grad_enabled := grad_enabled w; trace := trace w ++ evs |}.

Definition emit (e : Event) : M unit := fun w => Ok tt (add_events [e] w).

Definition from_option {A : Type} (e : Error) (o : option A) : M A :=
  match o with
  | Some a => mret a
  | None => raise e
  end.

Definition world_of {A : Type} (r : Result A) : World :=
  match r with
  | Ok _ w => w
  | Raise _ w => w
  end.

(** A computation that leaves the world as it found it, whether it
    returns or raises. *)
Definition read_only {A : Type} (m : M A) : Prop :=
  forall w : World, world_of (m w) = w.

(** A computation whose only effect is on the parameter store: saved
    checkpoints, gradient mode and trace are as before. *)
Definition store_only {A : Type} (m : M A) : Prop :=
  forall w : World,
    storage (world_of (m w)) = storage w /\
    grad_enabled (world_of (m w)) = grad_enabled w /\
    trace (world_of (m w)) = trace w.

(** [for x in l: body(x)], collecting the results. *)
Fixpoint for_each {A B : Type} (body : A -> M B) (l : list A) : M (list B) :=
  match l with
  | [] => mret []
  | x :: l' => y ← body x; ys ← for_each body l'; mret (y :: ys)
  end.

(** [with torch.no_grad(): body]: gradient tracking is switched off for
    the body and set back to its previous mode on the way out, also when
    the body raises. *)
Definition no_grad {A : Type} (body : M A) : M A := fun w =>
  match body (with_grad_enabled false w) with
  | Ok a w' => Ok a (with_grad_enabled (grad_enabled w) w')
  | Raise e w' => Raise e (with_grad_enabled (grad_enabled w) w')
  end.

(** A new [nn.Parameter]: a fresh identity, [requires_grad] is true. *)
Definition alloc (t : tensor F32.float) : M positive := fun w =>
  Ok (next_id w)
     {| store := <[next_id w := {| value := t; requires_grad := true |}]> (store w);
        next_id := Pos.succ (next_id w); storage := storage w;
        grad_enabled := grad_enabled w; trace := trace w |}.

(** What a run of allocations from [w] to [w'] leaves: the identities [ids]
    lie between the two counters, the new parameters are trainable, and
    the parameters that existed are untouched. *)
Definition allocated (w w' : World) (ids : list positive) : Prop :=
  (next_id w <= next_id w')%positive /\
  Forall (fun id => (next_id w <= id < next_id w')%positive) ids /\
  (forall id, id ∈ ids -> requires_grad <$> store w' !! id = Some true) /\
  (forall id, (id < next_id w)%positive -> store w' !! id = store w !! id).

(** A computation that allocates nothing and changes no [requires_grad]
    flag. *)
Definition keeps_flags {A : Type} (m : M A) : Prop :=
  forall w : World,
    next_id (world_of (m w)) = next_id w /\
    forall id, requires_grad <$> store (world_of (m w)) !! id
               = requires_grad <$> store w !! id.

Definition read_value (id : positive) : M (tensor F32.float) :=
  w ← get_world; from_option RuntimeError (value <$> store w !! id).

Definition read_values (m : module) : M (list (tensor F32.float)) :=
  for_each read_value m.

(** The values a store holds for the parameters of a module, and for a
    whole model; [None] when a parameter is missing. *)
Definition values_of (st : gmap positive Param) (m : module)
  : option (list (tensor F32.float)) :=
  mapM (fun id => value <$> st !! id) m.

Definition weights_of (st : gmap positive Param) (m : BartModel) : option Weights :=
  sh ← values_of st (shared m);
  enc ← values_of st (encoder m);
  pos ← values_of st (embed_positions (decoder m));
  lys ← mapM (values_of st) (layers (decoder m));
  oth ← values_of st (decoder_other (decoder m));
  Some {| w_shared := sh; w_encoder := enc; w_positions := pos;
          w_layers := lys; w_decoder_other := oth |}.

(** ** The model library

    The BART implementation itself (the constructor with its random
    initial values, the forward pass) and the tokenizer are used through
    their interface. *)

Record ForwardArgs : Type := {
  arg_input_ids : Labels.ids;
  arg_attention_mask : Labels.ids;
  arg_decoder_input_ids : Labels.ids;
  arg_lm_labels : Labels.ids
}.

(** [(loss, logits, ...)] of a forward pass, and the padding mask the
    inner model keeps in [last_padding_mask]. *)
Record ForwardOut : Type := {
  out_loss : F32.float;
  out_logits : tensor F32.float;
  out_last_padding_mask : option (tensor bool)
}.

Class BartLib : Type := {
  init_shared : BartConfig -> list (tensor F32.float);
  init_encoder : BartConfig -> list (tensor F32.float);
  init_positions : BartConfig -> list (tensor F32.float);
  init_layer : BartConfig -> nat -> list (tensor F32.float);
  init_decoder_other : BartConfig -> list (tensor F32.float);
  bart_forward : BartConfig -> Weights -> ForwardArgs -> ForwardOut;
  tokenizer_pad_token_id : Z
}.

Module Bart.
Section WithLib.
Context `{BartLib}.

(** [BartForConditionalGeneration(cfg)].

    Modelled from the spec: the constructor is not part of the files at
    hand.  A model is a parameter container of shared embeddings, an
    encoder and a decoder, the decoder an ordered sequence of
    [decoder_layers] layers; the token embeddings of encoder and decoder
    are the shared table. *)
Definition construct (cfg : BartConfig) : M BartModel :=
  emit (EvConstruct cfg);;
  sh ← for_each alloc (init_shared cfg);
  enc ← for_each alloc (init_encoder cfg);
  pos ← for_each alloc (init_positions cfg);
  lys ← for_each (fun i => for_each alloc (init_layer cfg i))
                 (seq 0 (Z.to_nat (decoder_layers cfg)));
  oth ← for_each alloc (init_decoder_other cfg);
  mret {| config := cfg; shared := sh; encoder := sh ++ enc;
          decoder := {| embed_positions := pos; embed_tokens := sh;
                        layers := lys; decoder_other := oth |} |}.

(** Writing a tensor into a parameter; the shapes must agree. *)
Definition load_param (id : positive) (v : tensor F32.float) : M unit :=
  w ← get_world;
  p ← from_option RuntimeError (store w !! id);
  if decide (shape (value p) = shape v)
  then modify_store (<[id := set_value v p]>)
  else raise ShapeMismatch.

Fixpoint load_module (vs : list (tensor F32.float)) (m : module) : M unit :=
  match vs, m with
  | [], [] => mret tt
  | v :: vs', id :: m' => load_param id v;; load_module vs' m'
  | _, _ => raise ShapeMismatch
  end.

(** A deep copy of the values of [src] into the parameters of [dst]. *)
Definition copy_module (src dst : module) : M unit :=
  vs ← read_values src; load_module vs dst.

Fixpoint load_layers (vss : list (list (tensor F32.float))) (ls : list module) : M unit :=
  match vss, ls with
  | [], [] => mret tt
  | vs :: vss', l :: ls' => load_module vs l;; load_layers vss' ls'
  | _, _ => raise ShapeMismatch
  end.

Definition load_state_dict (ws : Weights) (m : BartModel) : M unit :=
  load_module (w_shared ws) (shared m);;
  load_module (w_encoder ws) (encoder m);;
  load_module (w_positions ws) (embed_positions (decoder m));;
  load_layers (w_layers ws) (layers (decoder m));;
  load_module (w_decoder_other ws) (decoder_other (decoder m)).

Definition state_dict (m : BartModel) : M Weights :=
  sh ← read_values (shared m);
  enc ← read_values (encoder m);
  pos ← read_values (embed_positions (decoder m));
  lys ← for_each read_values (layers (decoder m));
  oth ← read_values (decoder_other (decoder m));
  mret {| w_shared := sh; w_encoder := enc; w_positions := pos;
          w_layers := lys; w_decoder_other := oth |}.

(** [BartForConditionalGeneration.from_pretrained(path)].

    Modelled from the spec: the loader is not part of the files at hand.
    A model is loaded from a named location: it is constructed for the
    stored configuration and takes the stored tensors. *)
Definition from_pretrained (path : string) : M BartModel :=
  w ← get_world;
  ck ← from_option OSError (storage w !! path);
  m ← construct (ck_config ck);
  load_state_dict (ck_weights ck) m;;
  emit (EvFromPretrained path);;
  mret m.

(** [model.save_pretrained(path)].

    Modelled from the spec: the function is not part of the files at hand.
    The configuration and the tensors of the model are saved to a named
    location. *)
Definition save_pretrained (m : BartModel) (path : string) : M unit :=
  ws ← state_dict m;
  (fun w => Ok tt {| store := store w; next_id := next_id w;
                     storage := <[path := {| ck_config := config m; ck_weights := ws |}]> (storage w);
                     grad_enabled := grad_enabled w; trace := trace w |});;
  emit (EvSavePretrained path).

(** [bart_distiller.init_student(student, teacher)].

    Modelled from the spec: the helper is not part of the files at hand.
    The parameters that are not decoder layers (shared embeddings,
    encoder, positional and token embeddings of the decoder, the other
    decoder submodules) are deep copies of the teacher's; a differing
    shape is a [ShapeMismatch]. *)
Definition init_student (student teacher : BartModel) : M BartModel :=
  emit EvInitStudent;;
  copy_module (shared teacher) (shared student);;
  copy_module (encoder teacher) (encoder student);;
  copy_module (embed_positions (decoder teacher)) (embed_positions (decoder student));;
  copy_module (embed_tokens (decoder teacher)) (embed_tokens (decoder student));;
  copy_module (decoder_other (decoder teacher)) (decoder_other (decoder student));;
  mret student.

(** [bart_distiller.copy_decoder_layers(teacher, student, l2copy)].

    Modelled from the spec: the helper is not part of the files at hand.
    The decoder layer at position [i] of the student becomes a deep copy
    of the teacher's decoder layer at index [l2copy[i]]. *)
Definition copy_decoder_layers (teacher student : BartModel) (l2copy : list Z) : M unit :=
  emit (EvCopyDecoderLayers l2copy);;
  for_each (fun '(i, student_layer) =>
              idx ← from_option IndexError (l2copy !! i);
              teacher_layer ← from_option IndexError
                (if idx <? 0 then None else layers (decoder teacher) !! Z.to_nat idx);
              copy_module teacher_layer student_layer)
           (zip (seq 0 (length (layers (decoder student)))) (layers (decoder student)));;
  mret tt.

(** The forward pass of a model,
    [forward(input_ids, attention_mask, decoder_input_ids, labels)
     -> (loss, logits, ...)].

    Modelled from the spec: the forward pass is not part of the files at
    hand.  It reads the parameters of the model and writes none; the
    randomness of dropout is not modelled.  Of the errors a forward pass
    can raise only that of a parameter missing from the store is
    represented; nothing is concluded from the absence of the others. *)
Definition forward (who : Who) (m : BartModel) (args : ForwardArgs) : M ForwardOut :=
  ws ← state_dict m;
  w ← get_world;
  emit (EvForward who (grad_enabled w));;
  mret (bart_forward (config m) ws args).

End WithLib.
End Bart.

(** ** [freeze_part] (lines 202-204) *)

(** [for par in model.parameters(): par.requires_grad = False], on the store. *)
Definition freeze_store (m : module) (st : gmap positive Param) : gmap positive Param :=
  fold_left (fun st id => alter (set_requires_grad false) id st) m st.

Definition freeze_part (m : module) : M unit := modify_store (freeze_store m).

(** ** [SummarizationTrainer] *)

Module SummarizationTrainer.
Section WithLib.
Context `{BartLib}.

Record self_t : Type := { model : BartModel; pad_token_id : Z }.

(** [_step(self, batch)], lines 80-90; the result is the one-element
    tuple [(loss,)]. *)
Definition _step (self : self_t) (batch : gmap string Labels.ids) : M F32.float :=
  let pad_token_id := pad_token_id self in
  source_ids ← from_option KeyError (batch !! "source_ids"%string);
  source_mask ← from_option KeyError (batch !! "source_mask"%string);
  y ← from_option KeyError (batch !! "target_ids"%string);
  let y_ids := Labels.y_ids y in
  let lm_labels := Labels.lm_labels pad_token_id y in
  outputs ← Bart.forward Student (model self)
              {| arg_input_ids := source_ids; arg_attention_mask := source_mask;
                 arg_decoder_input_ids := y_ids; arg_lm_labels := lm_labels |};
  mret (out_loss outputs).

End WithLib.
End SummarizationTrainer.

(** ** [SummarizationDistiller] *)

Module SummarizationDistiller.
Section WithLib.
Context `{Torch} `{BartLib}.

Record hparams_t : Type := {
  hp_teacher : string;
  hp_model_name_or_path : string;
  hp_alpha_mlm : F32.float;
  hp_alpha_ce : F32.float
}.

(** The distiller object: [self.model] is the student, [self.model.teacher]
    the teacher attached to it. *)
Record self_t : Type := {
  model : BartModel;
  teacher : BartModel;
  pad_token_id : Z;
  temperature : F32.float;
  alpha_mlm : F32.float;
  alpha_ce : F32.float
}.

(** [freeze_stuff(self)], lines 237-243. *)
Definition freeze_stuff (self : self_t) : M unit :=
  freeze_part (encoder (model self));;
  freeze_part (parameters (teacher self));;
  freeze_part (shared (model self));;
  let d := decoder (model self) in
  freeze_part (embed_positions d);;
  freeze_part (embed_tokens d).

(** The parameters [freeze_stuff] names. *)
Definition frozen_parameters (self : self_t) : module :=
  encoder (model self) ++ parameters (teacher self) ++ shared (model self)
    ++ embed_positions (decoder (model self)) ++ embed_tokens (decoder (model self)).

(** [__init__(self, hparams)], lines 208-235.  The base class keeps the
    model it is given as [self.model]. *)
Definition __init__ (hparams : hparams_t) : M self_t :=
  teacher ← Bart.from_pretrained (hp_teacher hparams);
  let student_updates := LayerSelector.student_decoder_layers (decoder_layers (config teacher)) in
  let layers_to_copy := LayerSelector.layers_to_copy (decoder_layers (config teacher)) in
  let student_cfg := with_decoder_layers (config teacher) student_updates in
  student_model ← Bart.construct student_cfg;
  student_model ← Bart.init_student student_model teacher;
  Bart.copy_decoder_layers teacher student_model layers_to_copy;;
  emit (EvMkdir (hp_model_name_or_path hparams));;
  Bart.save_pretrained student_model (hp_model_name_or_path hparams);;
  let self_model := student_model in
  (if decide (length (layers (decoder self_model)) = length layers_to_copy)
   then mret tt else raise AssertionError);;
  let self := {| model := self_model; teacher := teacher;
                 pad_token_id := tokenizer_pad_token_id;
                 temperature := F32.two;
                 alpha_mlm := hp_alpha_mlm hparams;
                 alpha_ce := hp_alpha_ce hparams |} in
  freeze_stuff self;;
  mret self.

(** [_step(self, batch)], lines 245-261. *)
Definition _step (self : self_t) (batch : gmap string Labels.ids)
  : M (F32.float * F32.float * F32.float) :=
  let pad_token_id := pad_token_id self in
  source_ids ← from_option KeyError (batch !! "input_ids"%string);
  source_mask ← from_option KeyError (batch !! "attention_mask"%string);
  y ← from_option KeyError (batch !! "decoder_input_ids"%string);
  let y_ids := Labels.y_ids y in
  let lm_labels := Labels.lm_labels pad_token_id y in
  let args := {| arg_input_ids := source_ids; arg_attention_mask := source_mask;
                 arg_decoder_input_ids := y_ids; arg_lm_labels := lm_labels |} in
  s_out ← Bart.forward Student (model self) args;
  let sloss := out_loss s_out in
  let slogits := out_logits s_out in
  t_out ← no_grad (Bart.forward Teacher (teacher self) args);
  let tlogits := out_logits t_out in
  '(loss_ce, s_logits_slct, t_logits_slct) ←
    from_option RuntimeError
      (LossEngine.calc_ce_loss (temperature self) (out_last_padding_mask s_out) slogits tlogits);
  let blended_loss := F32.add (F32.mul loss_ce (alpha_ce self)) (F32.mul (alpha_mlm self) sloss) in
  mret (blended_loss, loss_ce, sloss).

(** The blend in the words of the specification. *)
Definition spec_blend (alpha_ce alpha_mlm soft_target_loss supervised_loss : F32.float)
  : F32.float :=
  F32.add (F32.mul alpha_ce soft_target_loss) (F32.mul alpha_mlm supervised_loss).

End WithLib.
End SummarizationDistiller.

(** The distiller [__init__] returns for a teacher and a student. *)
Definition built_self `{BartLib} (hparams : SummarizationDistiller.hparams_t)
    (teacher student : BartModel) : SummarizationDistiller.self_t :=
  {| SummarizationDistiller.model := student;
     SummarizationDistiller.teacher := teacher;
     SummarizationDistiller.pad_token_id := tokenizer_pad_token_id;
     SummarizationDistiller.temperature := F32.two;
     SummarizationDistiller.alpha_mlm := SummarizationDistiller.hp_alpha_mlm hparams;
     SummarizationDistiller.alpha_ce := SummarizationDistiller.hp_alpha_ce hparams |}.

(** ** Order of events *)

(** [e1] stands before [e2] in a trace. *)
Definition occurs_before (e1 e2 : Event) (tr : list Event) : Prop :=
  exists i j : nat, (i < j)%nat /\ tr !! i = Some e1 /\ tr !! j = Some e2.

(** The order the specification describes for the initializer: the student
    is saved before the weight-copy operations. *)
Definition save_precedes_weight_copy (path : string) (l2copy : list Z)
    (tr : list Event) : Prop :=
  occurs_before (EvSavePretrained path) EvInitStudent tr /\
  occurs_before (EvSavePretrained path) (EvCopyDecoderLayers l2copy) tr.

(** ** A small instance

    A two-layer teacher with one tensor per module, used to run the
    embedding on concrete inputs. *)

Module Toy.

Definition f (m : positive) (e : Z) : F32.float := S754_finite false m e.
Definition three : F32.float := f 12582912 (-22).
Definition four : F32.float := f 8388608 (-21).
Definition five : F32.float := f 10485760 (-21).

Definition scalar (x : F32.float) : tensor F32.float := Tensor [1%nat] [x].

(** Stand-ins for the tensor library: they have the types of the real
    functions and none of their mathematics. *)
#[local] Instance torch : Torch := {|
  softmax := fun t => t;
  log_softmax := fun t => t;
  kl_div_sum := fun input target =>
    fold_right F32.add F32.zero (zip_with F32.mul (data target) (data input));
  softmax_shape := fun t => eq_refl;
  log_softmax_shape := fun t => eq_refl
|}.

(** A model library whose forward pass reports the given loss, logits
    made of the decoder weights, and a mask that marks the second of two
    positions as padding. *)
Definition lib (loss : F32.float) : BartLib := {|
  init_shared := fun _ => [scalar F32.zero];
  init_encoder := fun _ => [scalar F32.zero];
  init_positions := fun _ => [scalar F32.zero];
  init_layer := fun _ _ => [scalar F32.zero];
  init_decoder_other := fun _ => [scalar F32.zero];
  bart_forward := fun _ ws _ =>
    let x := match w_layers ws with
             | [Tensor _ [x]] :: _ => x
             | _ => F32.one
             end in
    {| out_loss := loss;
       out_logits := Tensor [1%nat; 2%nat; 2%nat] [x; F32.one; F32.two; x];
       out_last_padding_mask := Some (Tensor [1%nat; 2%nat] [false; true]) |};
  tokenizer_pad_token_id := 1
|}.

Definition teacher_config : BartConfig :=
  {| decoder_layers := 2; encoder_layers := 2; d_model := 1; vocab_size := 2 |}.

(** Logits of one sequence of two positions over a vocabulary of two,
    the second position being padding; the primed tensors differ from the
    others at the padded position only. *)
Definition padding_mask : tensor bool := Tensor [1%nat; 2%nat] [false; true].
Definition s_logits : tensor F32.float :=
  Tensor [1%nat; 2%nat; 2%nat] [four; F32.one; F32.two; four].
Definition t_logits : tensor F32.float :=
  Tensor [1%nat; 2%nat; 2%nat] [three; F32.one; F32.two; five].
Definition s_logits' : tensor F32.float :=
  Tensor [1%nat; 2%nat; 2%nat] [four; F32.one; five; F32.nan].
Definition t_logits' : tensor F32.float :=
  Tensor [1%nat; 2%nat; 2%nat] [three; F32.one; F32.inf; three].

Definition teacher_checkpoint : Checkpoint :=
  {| ck_config := teacher_config;
     ck_weights := {| w_shared := [scalar F32.one];
                      w_encoder := [scalar F32.one; scalar F32.two];
                      w_positions := [scalar three];
                      w_layers := [[scalar four]; [scalar five]];
                      w_decoder_other := [scalar F32.two] |} |}.

Definition world0 : World :=
  {| store := ∅; next_id := 1%positive;
     storage := {[ "teacher"%string := teacher_checkpoint ]};
     grad_enabled := true; trace := [] |}.

Definition hparams (alpha_ce alpha_mlm : F32.float) : SummarizationDistiller.hparams_t :=
  {| SummarizationDistiller.hp_teacher := "teacher";
     SummarizationDistiller.hp_model_name_or_path := "student";
     SummarizationDistiller.hp_alpha_mlm := alpha_mlm;
     SummarizationDistiller.hp_alpha_ce := alpha_ce |}.

Definition batch : gmap string Labels.ids :=
  {[ "input_ids"%string := [[0; 7; 8; 2]];
     "attention_mask"%string := [[1; 1; 1; 1]];
     "decoder_input_ids"%string := [[0; 5; 2; 1]] ]}.

Definition teacher_model : BartModel :=
  {| config := teacher_config; shared := [1%positive];
     encoder := [1%positive; 2%positive];
     decoder := {| embed_positions := [3%positive]; embed_tokens := [1%positive];
                   layers := [[4%positive]; [5%positive]];
                   decoder_other := [6%positive] |} |}.

Definition student_model : BartModel :=
  {| config := with_decoder_layers teacher_config 1; shared := [7%positive];
     encoder := [7%positive; 8%positive];
     decoder := {| embed_positions := [9%positive]; embed_tokens := [7%positive];
                   layers := [[10%positive]];
                   decoder_other := [11%positive] |} |}.

(** The distiller that [__init__] builds from [world0]. *)
Definition self1 (alpha_ce alpha_mlm : F32.float) : SummarizationDistiller.self_t :=
  {| SummarizationDistiller.model := student_model;
     SummarizationDistiller.teacher := teacher_model;
     SummarizationDistiller.pad_token_id := 1;
     SummarizationDistiller.temperature := F32.two;
     SummarizationDistiller.alpha_mlm := alpha_mlm;
     SummarizationDistiller.alpha_ce := alpha_ce |}.

(** The world [__init__] leaves behind. *)
Definition world1 : World :=
  let L := lib F32.one in
  world_of (SummarizationDistiller.__init__ (hparams F32.one F32.zero) world0).

(** [world1] with every parameter trainable again. *)
Definition world_unfrozen : World :=
  with_store (fmap (set_requires_grad true)) world1.

Definition step (loss alpha_ce alpha_mlm : F32.float)
  : Result (F32.float * F32.float * F32.float) :=
  let L := lib loss in
  SummarizationDistiller._step (self1 alpha_ce alpha_mlm) batch world1.

(** A teacher of three decoder layers. *)
Definition odd_checkpoint : Checkpoint :=
  {| ck_config := {| decoder_layers := 3; encoder_layers := 2; d_model := 1; vocab_size := 2 |};
     ck_weights := {| w_shared := [scalar F32.one];
                      w_encoder := [scalar F32.one; scalar F32.two];
                      w_positions := [scalar three];
                      w_layers := [[scalar four]; [scalar five]; [scalar three]];
                      w_decoder_other := [scalar F32.two] |} |}.

Definition odd_world0 : World :=
  {| store := ∅; next_id := 1%positive;
     storage := {[ "teacher"%string := odd_checkpoint ]};
     grad_enabled := true; trace := [] |}.

Definition odd_teacher_model : BartModel :=
  {| config := ck_config odd_checkpoint; shared := [1%positive];
     encoder := [1%positive; 2%positive];
     decoder := {| embed_positions := [3%positive]; embed_tokens := [1%positive];
                   layers := [[4%positive]; [5%positive]; [6%positive]];
                   decoder_other := [7%positive] |} |}.

Definition odd_student_model : BartModel :=
  {| config := with_decoder_layers (ck_config odd_checkpoint) 1; shared := [8%positive];
     encoder := [8%positive; 9%positive];
     decoder := {| embed_positions := [10%positive]; embed_tokens := [8%positive];
                   layers := [[11%positive]];
                   decoder_other := [12%positive] |} |}.

(** The worlds between the operations of the initializer on [odd_world0]. *)
Definition odd_w1 : World :=
  world_of (@Bart.from_pretrained (lib F32.one) "teacher" odd_world0).
Definition odd_w2 : World :=
  world_of (@Bart.construct (lib F32.one) (config odd_student_model) odd_w1).
Definition odd_w3 : World :=
  world_of (Bart.init_student odd_student_model odd_teacher_model odd_w2).
Definition odd_w4 : World :=
  world_of (Bart.copy_decoder_layers odd_teacher_model odd_student_model [0; 2] odd_w3).
Definition odd_w5 : World :=
  world_of (Bart.save_pretrained odd_student_model "student"
              (add_events [EvMkdir "student"] odd_w4)).

End Toy.

(** ** Python floats

    A Python [float] is an IEEE 754 double: precision 53, maximal
    exponent 1024. *)

Module F64.

Definition prec : Z := 53.
Definition emax : Z := 1024.

Definition float : Type := spec_float.

Definition mul (x y : float) : float := SFmul prec emax x y.

(** Conversion of a Python [int]; an infinite result stands for an
    integer too large to convert. *)
Definition of_Z (n : Z) : float := binary_normalize prec emax n 0 false.

Definition is_infinity (x : float) : bool :=
  match x with
  | S754_infinity _ => true
  | _ => false
  end.

End F64.

(** ** Exceptions and outcomes of the reporting code *)

Inductive Exn : Type :=
| KeyErr (key : string)
| RuntimeErr
| TypeErr
| ZeroDivisionErr
| OverflowErr.

Inductive outcome (A : Type) : Type :=
| Returns (a : A)
| Raises (e : Exn).
Arguments Returns {A} _.
Arguments Raises {A} _.

Definition outcome_bind {A B : Type} (o : outcome A) (k : A -> outcome B) : outcome B :=
  match o with
  | Returns a => k a
  | Raises e => Raises e
  end.

(** [for x in l: body(x)], collecting the results; the first exception
    ends the loop. *)
Fixpoint outcome_for {A B : Type} (body : A -> outcome B) (l : list A) : outcome (list B) :=
  match l with
  | [] => Returns []
  | x :: l' =>
      outcome_bind (body x) (fun y =>
      outcome_bind (outcome_for body l') (fun ys => Returns (y :: ys)))
  end.

(** A dict built entry by entry: a later entry replaces an earlier one of
    the same key. *)
Definition dict_of_pairs {V : Type} (kvs : list (string * V)) : gmap string V :=
  fold_left (fun d kv => <[kv.1 := kv.2]> d) kvs ∅.

(** ** The number of training steps ([train_dataloader], lines 152-156) *)

Module Schedule.

(** [(len(dataloader.dataset) // (train_batch_size * max(1, n_gpu)))
     // gradient_accumulation_steps]: the integer factor of [t_total]. *)
Definition steps_per_epoch (dataset_len : nat)
    (train_batch_size n_gpu gradient_accumulation_steps : Z) : outcome Z :=
  let effective := train_batch_size * Z.max 1 n_gpu in
  if effective =? 0 then Raises ZeroDivisionErr
  else
    let per_batch := Py.floordiv (Z.of_nat dataset_len) effective in
    if gradient_accumulation_steps =? 0 then Raises ZeroDivisionErr
    else Returns (Py.floordiv per_batch gradient_accumulation_steps).

(** [t_total]: the integer factor times [float(num_train_epochs)];
    [epochs] is the converted number of epochs. *)
Definition t_total (dataset_len : nat)
    (train_batch_size n_gpu gradient_accumulation_steps : Z) (epochs : F64.float)
  : outcome F64.float :=
  outcome_bind
    (steps_per_epoch dataset_len train_batch_size n_gpu gradient_accumulation_steps)
    (fun steps =>
       if F64.is_infinity (F64.of_Z steps) then Raises OverflowErr
       else Returns (F64.mul (F64.of_Z steps) epochs)).

End Schedule.

(** ** Metrics

    The values of the dicts that the steps return: loss tensors, Python
    floats and lists of text lines. *)

Inductive metric : Type :=
| MTensor (x : F32.float)
| MFloat (x : F64.float)
| MLines (lines : list string).

(** [SummarizationTrainer.loss_names] and [ROUGE_KEYS]. *)
Definition loss_names : list string := ["loss"; "ce_loss"; "mlm_loss"]%string.
Definition ROUGE_KEYS : list string := ["rouge1"; "rouge2"; "rougeL"]%string.

(** [{name: loss for name, loss in zip(self.loss_names, loss_tensors)}] *)
Definition named_losses (loss_tensors : list F32.float) : gmap string F32.float :=
  dict_of_pairs (zip loss_names loss_tensors).

(** What [training_step] returns: [{"loss": ..., "log": ...}]. *)
Record training_output : Type := {
  to_loss : F32.float;
  to_log : gmap string F32.float
}.

(** The body of [training_step] (lines 92-95) after [self._step(batch)]. *)
Definition training_output_of (loss_tensors : list F32.float) : M training_output :=
  let tensorboard_logs := named_losses loss_tensors in
  first ← from_option IndexError (loss_tensors !! 0%nat);
  mret {| to_loss := first; to_log := tensorboard_logs |}.

Module TrainerMethods.
Section WithLib.
Context `{BartLib}.

(** [SummarizationTrainer.training_step]: its [_step] returns [(loss,)]. *)
Definition training_step (self : SummarizationTrainer.self_t)
    (batch : gmap string Labels.ids) : M training_output :=
  loss ← SummarizationTrainer._step self batch;
  training_output_of [loss].

End WithLib.
End TrainerMethods.

Module DistillerMethods.
Section WithLib.
Context `{Torch} `{BartLib}.

(** [training_step] as the distiller inherits it: its [_step] returns
    [(blended_loss, loss_ce, sloss)]. *)
Definition training_step (self : SummarizationDistiller.self_t)
    (batch : gmap string Labels.ids) : M training_output :=
  '(blended_loss, loss_ce, sloss) ← SummarizationDistiller._step self batch;
  training_output_of [blended_loss; loss_ce; sloss].

End WithLib.
End DistillerMethods.

(** ** Evaluation: scores, generated summaries and reports *)

(** The libraries behind the evaluation code: the scorer and the aggregator
    of [rouge_score], batch trimming, generation and decoding, and the
    means of [torch] and [numpy].

    [rouge_score reference_ln output_ln] is [scorer.score(reference_ln,
    output_ln)]; [aggregate_fmeasure] is the aggregate of the scores added
    in order, each entry reduced to [mid.fmeasure]; a scorer built for
    [ROUGE_KEYS] reports no other key.

    [generate_summaries cfg ws batch pad] stands for lines 110-117 of
    [_generative_step]: the batch is trimmed, summaries are generated with
    the weights [ws], the time is taken, and generated and target ids are
    decoded; it gives [(preds, target, gen_time)] or the error raised on the
    way.

    [tensor_mean] is [torch.stack(xs).mean().item()] on a non-empty list of
    scalar tensors; [np_mean] is [np.array(xs).mean()], which on Python
    floats is [float_mean] and raises nothing. *)
Class EvalLib : Type := {
  Scores : Type;
  rouge_score : string -> string -> Scores;
  aggregate_fmeasure : list Scores -> gmap string F64.float;
  aggregate_keys : forall (l : list Scores) (k : string),
      is_Some (aggregate_fmeasure l !! k) -> k ∈ ROUGE_KEYS;
  generate_summaries : BartConfig -> Weights -> gmap string Labels.ids -> Z ->
                       Error + (list string * list string * F64.float);
  tensor_mean : list F32.float -> F64.float;
  float_mean : list F64.float -> F64.float;
  np_mean : list metric -> outcome F64.float;
  np_mean_floats : forall xs : list F64.float,
      np_mean (map MFloat xs) = Returns (float_mean xs)
}.

Definition from_sum {A : Type} (r : Error + A) : M A :=
  match r with
  | inl e => raise e
  | inr a => mret a
  end.

(** [f"{prefix}_{k}"] *)
Definition prefixed (prefix k : string) : string := prefix +:+ "_" +:+ k.

(** The line feed that [test_epoch_end] appends to every line. *)
Definition newline : string :=
  String (Ascii.Ascii false true false true false false false false) EmptyString.

(** [self.metrics] and the pickle file at [self.metrics_save_path]
    ([None]: nothing was written). *)
Record Reports : Type := {
  metrics : gmap string (list (gmap string F64.float));
  metrics_file : option (gmap string (list (gmap string F64.float)))
}.

(** [self.metrics = {'train': [], 'val': [], 'test': []}] (line 61). *)
Definition initial_reports : Reports :=
  {| metrics := {[ "train"%string := []; "val"%string := []; "test"%string := [] ]};
     metrics_file := None |}.

(** What [validation_end] returns: the dict [{"log": metrics, ...losses}],
    as the entry under "log" and the other entries. *)
Record validation_result : Type := {
  vr_log : gmap string F64.float;
  vr_losses : gmap string F64.float
}.

(** The two files that [test_epoch_end] opens with mode "w+", each as the
    list of the strings written to it. *)
Record TestFiles : Type := {
  test_predictions : list string;
  test_targets : list string
}.

Module Report.
Section WithLib.
Context `{EvalLib}.

(** [calculate_rouge] (lines 37-47): the pairs of [zip(reference_lns,
    output_lns)] are scored in order and the scores aggregated. *)
Definition calculate_rouge (output_lns reference_lns : list string)
  : gmap string F64.float :=
  aggregate_fmeasure
    (map (fun '(reference_ln, output_ln) => rouge_score reference_ln output_ln)
         (zip reference_lns output_lns)).

(** [[x[k] for x in outputs]] *)
Definition gather (k : string) (outputs : list (gmap string metric))
  : outcome (list metric) :=
  outcome_for (fun x => match x !! k with
                        | Some v => Returns v
                        | None => Raises (KeyErr k)
                        end) outputs.

(** The tensors, and the Python floats, that the outputs hold under [k]:
    what the two means of [validation_end] are taken of. *)
Definition tensors_at (k : string) (outputs : list (gmap string metric))
  : list F32.float :=
  flat_map (fun x => match x !! k with
                     | Some (MTensor t) => [t]
                     | _ => []
                     end) outputs.

Definition floats_at (k : string) (outputs : list (gmap string metric))
  : list F64.float :=
  flat_map (fun x => match x !! k with
                     | Some (MFloat v) => [v]
                     | _ => []
                     end) outputs.

Definition has_tensor (k : string) (x : gmap string metric) : Prop :=
  exists t, x !! k = Some (MTensor t).

Definition has_float (k : string) (x : gmap string metric) : Prop :=
  exists v, x !! k = Some (MFloat v).

(** An output that holds a tensor under every loss name and a Python
    float under every score key and under "gen_time". *)
Definition complete (x : gmap string metric) : Prop :=
  (forall k, k ∈ loss_names -> has_tensor k x) /\
  (forall k, k ∈ ROUGE_KEYS ++ ["gen_time"%string] -> has_float k x).

(** The means of the tensors under the loss names, followed by the means
    of the floats under the score keys and "gen_time": the entries of
    [losses] after the update when the outputs are complete. *)
Definition mean_entries (outputs : list (gmap string metric))
  : list (string * F64.float) :=
  map (fun k => (k, tensor_mean (tensors_at k outputs))) loss_names
  ++ map (fun k => (k, float_mean (floats_at k outputs)))
         (ROUGE_KEYS ++ ["gen_time"%string]).

(** [torch.stack(vs).mean().item()]: an empty list is refused with a
    [RuntimeError], an element that is no tensor with a [TypeError]. *)
Definition torch_stack_mean (vs : list metric) : outcome F64.float :=
  match vs with
  | [] => Raises RuntimeErr
  | _ =>
      outcome_bind
        (outcome_for (fun v => match v with
                               | MTensor t => Returns t
                               | _ => Raises TypeErr
                               end) vs)
        (fun ts => Returns (tensor_mean ts))
  end.

(** The dict comprehension of line 101, as the list of its entries. *)
Definition mean_losses (outputs : list (gmap string metric))
  : outcome (list (string * F64.float)) :=
  outcome_for (fun k =>
                 outcome_bind (gather k outputs) (fun vs =>
                 outcome_bind (torch_stack_mean vs) (fun m => Returns (k, m))))
              loss_names.

(** The dict comprehension of line 102, as the list of its entries. *)
Definition mean_rouges (outputs : list (gmap string metric))
  : outcome (list (string * F64.float)) :=
  outcome_for (fun k =>
                 outcome_bind (gather k outputs) (fun vs =>
                 outcome_bind (np_mean vs) (fun m => Returns (k, m))))
              (ROUGE_KEYS ++ ["gen_time"%string]).

(** [validation_end] (lines 100-107).  The entries of [losses] after the
    update are listed in insertion order; their keys are distinct. *)
Definition validation_end (outputs : list (gmap string metric)) (prefix : string)
    (self : Reports) : outcome (validation_result * Reports) :=
  outcome_bind (mean_losses outputs) (fun losses =>
  outcome_bind (mean_rouges outputs) (fun rouges =>
  let entries := losses ++ rouges in
  let log := dict_of_pairs (map (fun kx => (prefixed prefix kx.1, kx.2)) entries) in
  match metrics self !! prefix with
  | None => Raises (KeyErr prefix)
  | Some history =>
      let metrics' := <[prefix := history ++ [log]]> (metrics self) in
      Returns ({| vr_log := log; vr_losses := dict_of_pairs entries |},
               {| metrics := metrics'; metrics_file := Some metrics' |})
  end)).

(** [test_end] (lines 127-128). *)
Definition test_end (outputs : list (gmap string metric)) (self : Reports)
  : outcome (validation_result * Reports) :=
  validation_end outputs "test" self.

(** [output_batch[k]] iterated as lines of text. *)
Definition lines_of (k : string) (output_batch : gmap string metric)
  : outcome (list string) :=
  match output_batch !! k with
  | None => Raises (KeyErr k)
  | Some (MLines lines) => Returns lines
  | Some _ => Raises TypeErr
  end.

(** The loop of [test_epoch_end] (lines 135-137): what both files hold
    when the loop ends, and the exception that ended it, if any. *)
Fixpoint write_batches (outputs : list (gmap string metric)) (files : TestFiles)
  : TestFiles * option Exn :=
  match outputs with
  | [] => (files, None)
  | output_batch :: rest =>
      match lines_of "preds" output_batch with
      | Raises e => (files, Some e)
      | Returns preds =>
          let p := test_predictions files ++ map (fun s => s +:+ newline) preds in
          match lines_of "target" output_batch with
          | Raises e => ({| test_predictions := p; test_targets := test_targets files |},
                         Some e)
          | Returns target =>
              write_batches rest
                {| test_predictions := p;
                   test_targets := test_targets files
                                   ++ map (fun s => s +:+ newline) target |}
          end
      end
  end.

(** [test_epoch_end] (lines 130-141): both files are opened with "w+",
    which empties them; an exception in the loop leaves what was written
    and skips [test_end]. *)
Definition test_epoch_end (outputs : list (gmap string metric)) (self : Reports)
  : TestFiles * outcome (validation_result * Reports) :=
  let opened := {| test_predictions := []; test_targets := [] |} in
  match write_batches outputs opened with
  | (files, Some e) => (files, Raises e)
  | (files, None) => (files, test_end outputs self)
  end.

Section WithBart.
Context `{BartLib}.

(** [_generative_step] (lines 109-122) around the [_step] of the class. *)
Definition generative_step_of (model : BartModel) (pad_token_id : Z)
    (step : M (list F32.float)) (batch : gmap string Labels.ids)
  : M (gmap string metric) :=
  ws ← Bart.state_dict model;
  '(preds, target, gen_time) ←
    from_sum (generate_summaries (config model) ws batch pad_token_id);
  loss_tensors ← step;
  let base_metrics := dict_of_pairs (zip loss_names (map MTensor loss_tensors)) in
  let rouge := calculate_rouge preds target in
  mret ((MFloat <$> rouge) ∪ <["gen_time"%string := MFloat gen_time]> base_metrics).

(** [_generative_step], [validation_step] and [test_step] of the plain
    trainer. *)
Definition trainer_generative_step (self : SummarizationTrainer.self_t)
    (batch : gmap string Labels.ids) : M (gmap string metric) :=
  generative_step_of (SummarizationTrainer.model self)
    (SummarizationTrainer.pad_token_id self)
    (loss ← SummarizationTrainer._step self batch; mret [loss]) batch.

Definition trainer_validation_step := trainer_generative_step.
Definition trainer_test_step := trainer_generative_step.

Section WithTorch.
Context `{Torch}.

(** The same methods as the distiller inherits them. *)
Definition distiller_generative_step (self : SummarizationDistiller.self_t)
    (batch : gmap string Labels.ids) : M (gmap string metric) :=
  generative_step_of (SummarizationDistiller.model self)
    (SummarizationDistiller.pad_token_id self)
    ('(blended_loss, loss_ce, sloss) ← SummarizationDistiller._step self batch;
     mret [blended_loss; loss_ce; sloss]) batch.

Definition distiller_validation_step := distiller_generative_step.
Definition distiller_test_step := distiller_generative_step.

End WithTorch.
End WithBart.
End WithLib.
End Report.

(** ** Further sample inputs *)

Module Samples.

(** A trainer around the toy student. *)
Definition trainer_self : SummarizationTrainer.self_t :=
  {| SummarizationTrainer.model := Toy.student_model;
     SummarizationTrainer.pad_token_id := 1 |}.

(** The toy batch under the keys the trainer reads. *)
Definition trainer_batch : gmap string Labels.ids :=
  {[ "source_ids"%string := [[0; 7; 8; 2]];
     "source_mask"%string := [[1; 1; 1; 1]];
     "target_ids"%string := [[0; 5; 2; 1]] ]}.

Definition trainer_step : Result F32.float :=
  @SummarizationTrainer._step (Toy.lib Toy.three) trainer_self trainer_batch Toy.world1.

Definition trainer_training : Result training_output :=
  @TrainerMethods.training_step (Toy.lib Toy.three) trainer_self trainer_batch Toy.world1.

Definition distiller_training : Result training_output :=
  @DistillerMethods.training_step Toy.torch (Toy.lib Toy.three)
    (Toy.self1 F32.one F32.zero) Toy.batch Toy.world1.

(** What a computation returned, if it returned. *)
Definition value_of {A : Type} (r : Result A) : option A :=
  match r with
  | Ok a _ => Some a
  | Raise _ _ => None
  end.

(** Stand-ins for the evaluation libraries: a score is one for equal
    lines and zero otherwise, the aggregate reports the first score under
    every key, the means are those of numbers that are all equal, and the
    generated summary is one fixed line. *)
Definition eval : EvalLib := {|
  Scores := F64.float;
  rouge_score := fun reference_ln output_ln =>
    if String.eqb reference_ln output_ln then F64.of_Z 1 else F64.of_Z 0;
  aggregate_fmeasure := fun l =>
    match l with
    | [] => ∅
    | s :: _ => {[ "rouge1"%string := s; "rouge2"%string := s; "rougeL"%string := s ]}
    end;
  aggregate_keys := ltac:(
    intros [|s l] k [v Hv];
    [ rewrite lookup_empty in Hv; discriminate Hv
    | unfold ROUGE_KEYS;
      apply lookup_insert_Some in Hv; destruct Hv as [[<- _]|[_ Hv]];
      [ apply list_elem_of_here |];
      apply lookup_insert_Some in Hv; destruct Hv as [[<- _]|[_ Hv]];
      [ apply list_elem_of_further, list_elem_of_here |];
      apply lookup_singleton_Some in Hv; destruct Hv as [<- _];
      apply list_elem_of_further, list_elem_of_further, list_elem_of_here ]);
  generate_summaries := fun _ _ _ _ =>
    inr (["a summary"%string], ["a summary"%string], F64.of_Z 1);
  tensor_mean := fun ts => hd S754_nan ts;
  float_mean := fun fs => hd S754_nan fs;
  np_mean := fun vs =>
    outcome_bind
      (outcome_for (fun v => match v with
                             | MFloat x => Returns x
                             | _ => Raises TypeErr
                             end) vs)
      (fun fs => Returns (hd S754_nan fs));
  np_mean_floats := ltac:(
    intros xs;
    assert (Hfor : outcome_for (fun v => match v with
                                         | MFloat x => Returns x
                                         | _ => Raises TypeErr
                                         end) (map MFloat xs) = Returns xs)
      by (induction xs as [|x xs IH]; [reflexivity | cbn; rewrite IH; reflexivity]);
    cbv beta; rewrite Hfor; reflexivity)
|}.

Definition trainer_output : Result (gmap string metric) :=
  @Report.trainer_generative_step eval (Toy.lib Toy.three) trainer_self trainer_batch
    Toy.world1.

Definition distiller_output : Result (gmap string metric) :=
  @Report.distiller_generative_step eval (Toy.lib Toy.three) Toy.torch
    (Toy.self1 F32.one F32.zero) Toy.batch Toy.world1.

(** What the two steps above return. *)
Definition trainer_metrics : gmap string metric :=
  {[ "loss"%string := MTensor Toy.three;
     "rouge1"%string := MFloat (F64.of_Z 1); "rouge2"%string := MFloat (F64.of_Z 1);
     "rougeL"%string := MFloat (F64.of_Z 1); "gen_time"%string := MFloat (F64.of_Z 1) ]}.

Definition distiller_metrics : gmap string metric :=
  {[ "loss"%string := MTensor (Toy.f 8912896 (-19));
     "ce_loss"%string := MTensor (Toy.f 8912896 (-19));
     "mlm_loss"%string := MTensor Toy.three;
     "rouge1"%string := MFloat (F64.of_Z 1); "rouge2"%string := MFloat (F64.of_Z 1);
     "rougeL"%string := MFloat (F64.of_Z 1); "gen_time"%string := MFloat (F64.of_Z 1) ]}.

(** Outputs that carry lines of text, as [test_epoch_end] reads them. *)
Definition text_outputs : list (gmap string metric) :=
  [ {[ "preds"%string := MLines ["a"; "b"]%string;
       "target"%string := MLines ["c"; "d"]%string ]};
    {[ "preds"%string := MLines ["e"]%string;
       "target"%string := MLines ["f"]%string ]} ].

(** An output with all seven entries, and one with the loss alone. *)
Definition complete_output : gmap string metric :=
  {[ "loss"%string := MTensor Toy.three; "ce_loss"%string := MTensor Toy.four;
     "mlm_loss"%string := MTensor Toy.five;
     "rouge1"%string := MFloat (F64.of_Z 1); "rouge2"%string := MFloat (F64.of_Z 0);
     "rougeL"%string := MFloat (F64.of_Z 1); "gen_time"%string := MFloat (F64.of_Z 2) ]}.

Definition loss_only_output : gmap string metric :=
  {[ "loss"%string := MTensor Toy.three ]}.

End Samples.

(* ===================================================================== *)
(** * Part II: lemmas and theorems                                       *)
(* ===================================================================== *)

(** ** Single-precision arithmetic *)

Lemma F32_mul_comm (x y : F32.float) : F32.mul x y = F32.mul y x.
Proof.
  destruct x as [sx|sx| |sx mx ex], y as [sy|sy| |sy my ey]; cbn;
    rewrite ?(xorb_comm sx sy); try reflexivity.
  rewrite (Pos.mul_comm mx my), (Z.add_comm ex ey). reflexivity.
Qed.

Lemma digits2_pos_shift23 (m : positive) :
  Zpos (digits2_pos (m * 8388608)) = Zpos (digits2_pos m) + 23.
Proof. rewrite Pos.mul_comm. cbv [Pos.mul]. cbn [digits2_pos]. lia. Qed.

(** Multiplying a float32 value by [1.0] is exact. *)
Lemma F32_mul_one_r (x : F32.float) : F32.valid x = true -> F32.mul x F32.one = x.
Proof.
  destruct x as [s|s| |s m e]; cbn; intros Hv; rewrite ?xorb_false_r; try reflexivity.
  unfold bounded, canonical_mantissa in Hv.
  apply andb_true_iff in Hv. destruct Hv as [Hc Hb].
  apply Z.eqb_eq in Hc.
  unfold binary_round_aux, shr_fexp.
  cbn [Zdigits2 shr_record_of_loc].
  rewrite digits2_pos_shift23.
  replace (Z.pos (digits2_pos m) + 23 + (e + -23)) with (Z.pos (digits2_pos m) + e) by lia.
  rewrite Hc.
  replace (e - (e + -23)) with 23 by lia.
  rewrite (Pos.mul_comm m). cbv [Pos.mul].
  cbn [shr SpecFloat.iter_pos shr_1 shr_m loc_of_shr_record orb round_nearest_even].
  replace (e + -23 + 23) with e by lia.
  cbn [Zdigits2]. rewrite Hc, Z.sub_diag. cbn [shr shr_m shr_record_of_loc].
  rewrite Hb. reflexivity.
Qed.

Lemma F32_mul_one_l (x : F32.float) : F32.valid x = true -> F32.mul F32.one x = x.
Proof. intros Hv. rewrite F32_mul_comm. apply F32_mul_one_r, Hv. Qed.

(** The product of zero and a finite number is a zero. *)
Lemma F32_mul_zero_finite (x : F32.float) :
  F32.is_finite x = true -> F32.is_zero (F32.mul F32.zero x) = true.
Proof. destruct x; cbn; intros Hf; try reflexivity; discriminate Hf. Qed.

(** Adding a zero does not change the value. *)
Lemma F32_add_zero_r (x z : F32.float) :
  F32.is_zero z = true -> F32.same_value (F32.add x z) x.
Proof.
  destruct z as [sz| | |]; try discriminate. intros _.
  destruct x as [sx|sx| |sx mx ex]; cbn; try (left; reflexivity).
  destruct sx, sz; cbn; (left; reflexivity) || (right; split; reflexivity).
Qed.

Lemma F32_add_zero_l (x z : F32.float) :
  F32.is_zero z = true -> F32.same_value (F32.add z x) x.
Proof.
  destruct z as [sz| | |]; try discriminate. intros _.
  destruct x as [sx|sx| |sx mx ex]; cbn; try (left; reflexivity).
  destruct sx, sz; cbn; (left; reflexivity) || (right; split; reflexivity).
Qed.

(** ** The monad *)

Lemma bind_Ok {A B : Type} (m : M A) (k : A -> M B) (w w' : World) (b : B) :
  (m ≫= k) w = Ok b w' -> exists a w1, m w = Ok a w1 /\ k a w1 = Ok b w'.
Proof.
  unfold mbind, M_bind. destruct (m w) as [a w1|e w1]; [eauto | discriminate].
Qed.

Lemma from_option_Ok {A : Type} (e : Error) (o : option A) (w w' : World) (a : A) :
  from_option e o w = Ok a w' -> o = Some a /\ w' = w.
Proof.
  destruct o; cbn; intros Heq; inversion Heq; auto.
Qed.

Lemma ret_Ok {A : Type} (a b : A) (w w' : World) :
  (mret a : M A) w = Ok b w' -> b = a /\ w' = w.
Proof. cbn. unfold mret, M_ret. intros Heq; inversion Heq; auto. Qed.

(** Peel the binds of a computation that returned. *)
Ltac inv_run H :=
  repeat match type of H with
  | (_ ≫= _) _ = Ok _ _ =>
      let a := fresh "a" in let w := fresh "w" in
      let H1 := fresh "Hrun" in
      apply bind_Ok in H; destruct H as (a & w & H1 & H)
  end.


(** ** Slicing lemmas *)

Lemma stride2_cons2 {A : Type} (x y : A) (l : list A) :
  Py.stride2 (x :: y :: l) = x :: Py.stride2 l.
Proof. reflexivity. Qed.

Lemma stride2_length {A : Type} (l : list A) :
  length (Py.stride2 l) = Nat.div2 (S (length l)).
Proof.
  enough (H : length (Py.stride2 l) = Nat.div2 (S (length l)) /\
              forall x, length (Py.stride2 (x :: l)) = Nat.div2 (S (S (length l))))
    by apply H.
  induction l as [|y l [IH1 IH2]]; split; intros; try reflexivity.
  - apply IH2.
  - rewrite stride2_cons2. cbn [length]. rewrite IH1. reflexivity.
Qed.

(** [range] shifted: the stride of [a, a+1, ..., a+n-1] lists [a, a+2, ...]. *)
Lemma stride2_seq (n a : nat) :
  Py.stride2 (seq a n) = map (fun k => (a + 2 * k)%nat) (seq 0 (Nat.div2 (S n))).
Proof.
  revert a. induction n as [n IH] using (well_founded_induction lt_wf). intros a.
  destruct n as [|[|n]]; try reflexivity.
  - cbn. f_equal. lia.
  - cbn [seq]. rewrite stride2_cons2. rewrite IH by lia.
    change (Nat.div2 (S (S (S n)))) with (S (Nat.div2 (S n))).
    cbn [seq map]. f_equal; [lia|].
    rewrite <- seq_shift, map_map. apply map_ext. intros k. lia.
Qed.

Lemma stride2_range (n : Z) :
  Py.stride2 (Py.range n) = LayerSelector.even_indices_below n.
Proof.
  unfold Py.range, LayerSelector.even_indices_below.
  assert (Hmap : forall (l : list nat),
             Py.stride2 (map Z.of_nat l) = map Z.of_nat (Py.stride2 l)).
  { fix IH 1. intros [|x [|y l]]; try reflexivity.
    cbn [map]. rewrite !stride2_cons2. cbn [map]. f_equal. apply IH. }
  rewrite Hmap, stride2_seq, map_map.
  replace (Z.to_nat ((n + 1) / 2)) with (Nat.div2 (S (Z.to_nat n))).
  - apply map_ext. intros k. lia.
  - rewrite Nat.div2_div. destruct (Z_lt_le_dec n 0) as [Hn|Hn].
    + replace (Z.to_nat n) with 0%nat by lia.
      assert ((n + 1) / 2 <= 0) by (apply Z.div_le_upper_bound; lia).
      cbn. lia.
    + apply Nat2Z.inj. rewrite Nat2Z.inj_div. rewrite Z2Nat.id.
      * f_equal. lia.
      * apply Z.div_pos; lia.
Qed.

(** ** C1 *)

(** C1: for every teacher decoder depth the selector computes the student
    depth as [teacher_decoder_layers // 2]; it returns [[0, 2, 4, 7, 9, 11]]
    when that depth is 6 and otherwise the even indices [0, 2, 4, ...] of the
    teacher's layer range; depth 12 gives [[0, 2, 4, 7, 9, 11]] and depth 16
    gives [[0, 2, 4, 6, 8, 10, 12, 14]]. *)
Theorem layer_selector_policy :
  (forall n : Z,
      LayerSelector.student_decoder_layers n = n / 2 /\
      (n / 2 = 6 -> LayerSelector.layers_to_copy n = [0; 2; 4; 7; 9; 11]) /\
      (n / 2 <> 6 ->
       LayerSelector.layers_to_copy n = Py.stride2 (Py.range n) /\
       LayerSelector.layers_to_copy n = LayerSelector.even_indices_below n)) /\
  LayerSelector.layers_to_copy 12 = [0; 2; 4; 7; 9; 11] /\
  LayerSelector.layers_to_copy 16 = [0; 2; 4; 6; 8; 10; 12; 14].
Proof.
  split; [|split; reflexivity].
  intros n. unfold LayerSelector.layers_to_copy, LayerSelector.student_decoder_layers, Py.floordiv.
  split; [reflexivity|]. split; intros H.
  - rewrite H. reflexivity.
  - apply Z.eqb_neq in H. rewrite H. split; [reflexivity | apply stride2_range].
Qed.

(** ** C2: the blend *)

Example toy_init_result :
  @SummarizationDistiller.__init__ (Toy.lib F32.one)
    (Toy.hparams F32.one F32.zero) Toy.world0
  = Ok (Toy.self1 F32.one F32.zero) Toy.world1.
Proof. vm_compute. reflexivity. Qed.

(** What a completed step has done, in order. *)
Lemma step_inversion `{Torch} `{BartLib} (self : SummarizationDistiller.self_t)
    (batch : gmap string Labels.ids) (w w' : World) (blended loss_ce sloss : F32.float) :
  SummarizationDistiller._step self batch w = Ok (blended, loss_ce, sloss) w' ->
  exists source_ids source_mask y s_out t_out w1 ss ts,
    batch !! "input_ids"%string = Some source_ids /\
    batch !! "attention_mask"%string = Some source_mask /\
    batch !! "decoder_input_ids"%string = Some y /\
    let args := {| arg_input_ids := source_ids; arg_attention_mask := source_mask;
                   arg_decoder_input_ids := Labels.y_ids y;
                   arg_lm_labels := Labels.lm_labels (SummarizationDistiller.pad_token_id self) y |} in
    Bart.forward Student (SummarizationDistiller.model self) args w = Ok s_out w1 /\
    no_grad (Bart.forward Teacher (SummarizationDistiller.teacher self) args) w1 = Ok t_out w' /\
    LossEngine.calc_ce_loss (SummarizationDistiller.temperature self)
      (out_last_padding_mask s_out) (out_logits s_out) (out_logits t_out)
      = Some (loss_ce, ss, ts) /\
    sloss = out_loss s_out /\
    blended = F32.add (F32.mul loss_ce (SummarizationDistiller.alpha_ce self))
                      (F32.mul (SummarizationDistiller.alpha_mlm self) sloss).
Proof.
  unfold SummarizationDistiller._step. intros Hrun. inv_run Hrun.
  repeat match goal with
         | Hx : from_option _ _ _ = Ok _ _ |- _ =>
             apply from_option_Ok in Hx; destruct Hx as [? ?]; subst
         end.
  match type of Hrun with
  | context [match ?x with _ => _ end] => destruct x as [[lce ss] ts]
  end.
  apply ret_Ok in Hrun. destruct Hrun as [Heq ->]. inversion Heq; subst.
  eexists _, _, _, _, _, _, _, _. repeat split; eauto.
Qed.

Lemma step_result `{Torch} `{BartLib} (self : SummarizationDistiller.self_t)
    (batch : gmap string Labels.ids) (w w' : World) (blended loss_ce sloss : F32.float) :
  SummarizationDistiller._step self batch w = Ok (blended, loss_ce, sloss) w' ->
  blended = F32.add (F32.mul loss_ce (SummarizationDistiller.alpha_ce self))
                    (F32.mul (SummarizationDistiller.alpha_mlm self) sloss).
Proof.
  intros Hrun. apply step_inversion in Hrun.
  destruct Hrun as (? & ? & ? & ? & ? & ? & ? & ? & _ & _ & _ & _ & _ & _ & _ & Hb).
  exact Hb.
Qed.

(** C2 (as the code has it): the blended loss a step returns is
    [alpha_ce * soft_target_loss + alpha_mlm * supervised_loss] in float32
    arithmetic.  With [alpha_ce = 1.0], [alpha_mlm = 0.0] and a finite
    supervised loss the total is the soft-target loss, and with
    [alpha_ce = 0.0], [alpha_mlm = 1.0] and a finite soft-target loss it is
    the supervised loss (the same number; a zero may change its sign). *)
Theorem blended_loss_formula `{Torch} `{BartLib} (self : SummarizationDistiller.self_t)
    (batch : gmap string Labels.ids) (w w' : World) (blended loss_ce sloss : F32.float) :
  SummarizationDistiller._step self batch w = Ok (blended, loss_ce, sloss) w' ->
  blended = SummarizationDistiller.spec_blend
              (SummarizationDistiller.alpha_ce self) (SummarizationDistiller.alpha_mlm self)
              loss_ce sloss /\
  (SummarizationDistiller.alpha_ce self = F32.one ->
   SummarizationDistiller.alpha_mlm self = F32.zero ->
   F32.valid loss_ce = true -> F32.is_finite sloss = true ->
   F32.same_value blended loss_ce) /\
  (SummarizationDistiller.alpha_ce self = F32.zero ->
   SummarizationDistiller.alpha_mlm self = F32.one ->
   F32.valid sloss = true -> F32.is_finite loss_ce = true ->
   F32.same_value blended sloss).
Proof.
  intros Hrun. apply step_result in Hrun. subst blended.
  unfold SummarizationDistiller.spec_blend. split; [|split].
  - rewrite (F32_mul_comm loss_ce). reflexivity.
  - intros -> -> Hv Hf. rewrite F32_mul_one_r by exact Hv.
    apply F32_add_zero_r, F32_mul_zero_finite, Hf.
  - intros -> -> Hv Hf. rewrite F32_mul_one_l by exact Hv.
    apply F32_add_zero_l. rewrite F32_mul_comm. apply F32_mul_zero_finite, Hf.
Qed.

Lemma blended_loss_formula_witness :
  Toy.step Toy.three F32.one F32.zero
  = Ok (Toy.f 8912896 (-19), Toy.f 8912896 (-19), Toy.three)
       (world_of (Toy.step Toy.three F32.one F32.zero)) /\
  Toy.f 8912896 (-19)
  = SummarizationDistiller.spec_blend F32.one F32.zero (Toy.f 8912896 (-19)) Toy.three /\
  F32.same_value (Toy.f 8912896 (-19)) (Toy.f 8912896 (-19)).
Proof.
  assert (Hrun : Toy.step Toy.three F32.one F32.zero
                 = Ok (Toy.f 8912896 (-19), Toy.f 8912896 (-19), Toy.three)
                      (world_of (Toy.step Toy.three F32.one F32.zero)))
    by (vm_compute; reflexivity).
  split; [exact Hrun|].
  destruct (@blended_loss_formula Toy.torch (Toy.lib Toy.three) _ _ _ _ _ _ _ Hrun)
    as (Hblend & Hce & _).
  split; [exact Hblend|].
  apply Hce; reflexivity.
Defined.

(** C2, counterexample: with [alpha_ce = 1.0] and [alpha_mlm = 0.0] a step
    whose supervised loss is infinite returns a total that is not a
    number, while its soft-target loss is finite. *)
Lemma blended_loss_not_soft_target_when_infinite :
  ~ (forall (T : Torch) (L : BartLib) (self : SummarizationDistiller.self_t)
       (batch : gmap string Labels.ids) (w w' : World) (blended loss_ce sloss : F32.float),
       SummarizationDistiller._step self batch w = Ok (blended, loss_ce, sloss) w' ->
       blended = SummarizationDistiller.spec_blend
                   (SummarizationDistiller.alpha_ce self)
                   (SummarizationDistiller.alpha_mlm self) loss_ce sloss /\
       (SummarizationDistiller.alpha_ce self = F32.one ->
        SummarizationDistiller.alpha_mlm self = F32.zero ->
        F32.same_value blended loss_ce) /\
       (SummarizationDistiller.alpha_ce self = F32.zero ->
        SummarizationDistiller.alpha_mlm self = F32.one ->
        F32.same_value blended sloss)).
Proof.
  intros Hclaim.
  assert (Hrun : Toy.step F32.inf F32.one F32.zero
                 = Ok (F32.nan, Toy.f 8912896 (-19), F32.inf)
                      (world_of (Toy.step F32.inf F32.one F32.zero)))
    by (vm_compute; reflexivity).
  destruct (Hclaim Toy.torch (Toy.lib F32.inf) _ _ _ _ _ _ _ Hrun) as (_ & Hce & _).
  destruct (Hce eq_refl eq_refl) as [Heq | [Hz _]]; discriminate.
Qed.

(** ** Selection of the real-token entries *)

Lemma select_nil_r {A : Type} (xs : list A) : T.select xs [] = [].
Proof. destruct xs; reflexivity. Qed.

Lemma select_repeat_true {A : Type} (v : nat) (xs : list A) (ms : list bool) :
  T.select xs (repeat true v ++ ms) = firstn v xs ++ T.select (skipn v xs) ms.
Proof.
  revert xs. induction v as [|v IH]; intros xs; [reflexivity|].
  destruct xs as [|x xs]; [reflexivity|].
  cbn. rewrite IH. reflexivity.
Qed.

Lemma select_repeat_false {A : Type} (v : nat) (xs : list A) (ms : list bool) :
  T.select xs (repeat false v ++ ms) = T.select (skipn v xs) ms.
Proof.
  revert xs. induction v as [|v IH]; intros xs; [reflexivity|].
  destruct xs as [|x xs]; [cbn; symmetry; apply (select_nil_r (A:=A)) || reflexivity|].
  cbn. apply IH.
Qed.

(** Selecting with the inverted mask, repeated along the vocabulary
    dimension, keeps the rows at real-token positions. *)
Lemma select_expanded {A : Type} (v : nat) (padding : list bool) (xs : list A) :
  T.select xs (flat_map (fun b => repeat b v) (map negb padding))
  = LossEngine.real_token_entries v padding xs.
Proof.
  revert xs. induction padding as [|p padding IH]; intros xs; cbn [map flat_map].
  - apply select_nil_r.
  - cbn [LossEngine.real_token_entries]. destruct p; cbn [negb].
    + rewrite select_repeat_false. apply IH.
    + rewrite select_repeat_true, IH. reflexivity.
Qed.

Lemma flat_map_seq_shift {A : Type} (g : nat -> list A) (a n : nat) :
  flat_map g (seq a n) = flat_map (fun j => g (a + j)%nat) (seq 0 n).
Proof.
  revert g a. induction n as [|n IH]; intros g a; [reflexivity|].
  cbn [seq flat_map]. rewrite Nat.add_0_r. f_equal.
  rewrite (IH g), (IH (fun j => g (a + j)%nat) 1%nat).
  apply flat_map_ext. intros j. f_equal. lia.
Qed.

Lemma flat_map_seq_rows {A : Type} (g : nat -> list A) (b s : nat) :
  flat_map (fun i => flat_map (fun j => g (i * s + j)%nat) (seq 0 s)) (seq 0 b)
  = flat_map g (seq 0 (b * s)).
Proof.
  induction b as [|b IH]; [reflexivity|].
  rewrite seq_S, flat_map_app, IH. cbn [flat_map]. rewrite app_nil_r.
  replace (S b * s)%nat with (b * s + s)%nat by lia.
  rewrite seq_app, flat_map_app. f_equal.
  rewrite (flat_map_seq_shift g (0 + b * s)). reflexivity.
Qed.

Lemma flat_map_nth_seq {A B : Type} (f : A -> list B) (d : list A) (dflt : A) :
  flat_map (fun k => f (nth k d dflt)) (seq 0 (length d)) = flat_map f d.
Proof.
  rewrite !flat_map_concat_map. f_equal.
  rewrite <- (map_map (fun k => nth k d dflt) f). f_equal.
  apply nth_ext with (d := dflt) (d' := dflt).
  - rewrite length_map, length_seq. reflexivity.
  - intros n Hn. rewrite length_map, length_seq in Hn.
    rewrite (nth_indep _ dflt (nth 0 d dflt)) by (rewrite length_map, length_seq; exact Hn).
    rewrite (map_nth (fun k => nth k d dflt)), seq_nth by exact Hn. reflexivity.
Qed.

Lemma bidx_lt (n i : nat) : (i < n)%nat -> T.bidx n i = i.
Proof.
  unfold T.bidx. destruct (Nat.eqb_spec n 1); [lia | reflexivity].
Qed.

Lemma flat_map_ext_seq {A : Type} (f g : nat -> list A) (n : nat) :
  (forall i, (i < n)%nat -> f i = g i) -> flat_map f (seq 0 n) = flat_map g (seq 0 n).
Proof.
  intros Hfg. rewrite !flat_map_concat_map. f_equal.
  apply map_ext_in. intros i Hi. apply in_seq in Hi. apply Hfg. lia.
Qed.

(** The expanded mask of a well-formed mask of the shape of the logits. *)
Lemma expanded_mask_data {A : Type} (dflt : A) (d : list A) (b s v : nat) :
  length d = (b * s)%nat ->
  flat_map (fun i => flat_map (fun j =>
      repeat (nth (T.bidx b i * s + T.bidx s j) d dflt) v) (seq 0 s)) (seq 0 b)
  = flat_map (fun x => repeat x v) d.
Proof.
  intros Hlen.
  rewrite <- (flat_map_nth_seq (fun x => repeat x v) d dflt), Hlen.
  rewrite <- (flat_map_seq_rows (fun k => repeat (nth k d dflt) v) b s).
  apply flat_map_ext_seq. intros i Hi. apply flat_map_ext_seq. intros j Hj.
  rewrite !bidx_lt by assumption. reflexivity.
Qed.

(** Rows that agree at the real-token positions give the same selection. *)
Lemma real_token_entries_agree {A : Type} (v : nat) (padding : list bool) (xs xs' : list A) :
  (forall p k : nat, padding !! p = Some false -> (k < v)%nat ->
                     xs !! (p * v + k)%nat = xs' !! (p * v + k)%nat) ->
  LossEngine.real_token_entries v padding xs = LossEngine.real_token_entries v padding xs'.
Proof.
  revert xs xs'. induction padding as [|b padding IH]; intros xs xs' Hagree; [reflexivity|].
  cbn [LossEngine.real_token_entries]. f_equal.
  - destruct b; [reflexivity|].
    apply list_eq. intros k. destruct (Nat.lt_ge_cases k v) as [Hk|Hk].
    + rewrite !lookup_take_lt by exact Hk. apply (Hagree 0%nat k eq_refl Hk).
    + rewrite !lookup_take_ge by exact Hk. reflexivity.
  - apply IH. intros p k Hp Hk. rewrite !lookup_drop.
    replace (v + (p * v + k))%nat with (S p * v + k)%nat by lia.
    apply Hagree; assumption.
Qed.

Lemma length_real_token_entries {A : Type} (v : nat) (padding : list bool) (xs : list A) :
  length xs = (length padding * v)%nat ->
  length (LossEngine.real_token_entries v padding xs)
  = (length (List.filter negb padding) * v)%nat.
Proof.
  revert xs. induction padding as [|b padding IH]; intros xs Hlen; [reflexivity|].
  cbn [LossEngine.real_token_entries length] in *. rewrite length_app, IH.
  - destruct b; cbn [List.filter negb length]; [reflexivity|].
    rewrite length_take_le by lia. lia.
  - rewrite length_drop. lia.
Qed.

(** [calc_ce_loss] sees the logits through their shape and the selected
    entries only. *)
Lemma calc_ce_loss_masked `{Torch} (temperature : F32.float) (mask : tensor bool)
    (s t : tensor F32.float) (b sq v : nat) :
  shape mask = [b; sq] -> length (data mask) = (b * sq)%nat ->
  shape s = [b; sq; v] -> shape t = [b; sq; v] ->
  LossEngine.calc_ce_loss temperature (Some mask) s t
  = LossEngine.calc_ce_loss temperature None
      (Tensor [length (LossEngine.real_token_entries v (data mask) (data s)); v]
              (LossEngine.real_token_entries v (data mask) (data s)))
      (Tensor [length (LossEngine.real_token_entries v (data mask) (data t)); v]
              (LossEngine.real_token_entries v (data mask) (data t))).
Proof.
  intros Hm Hlen Hs Ht. unfold LossEngine.calc_ce_loss.
  unfold T.unsqueeze_expand_as, invert_mask. cbn [shape data]. rewrite Hm, Hs.
  rewrite !Nat.eqb_refl. cbn [orb andb].
  rewrite expanded_mask_data by (rewrite length_map; exact Hlen).
  unfold T.masked_select. cbn [shape data mbind option_bind].
  rewrite Hs, Ht. rewrite !decide_True by reflexivity.
  cbn [mbind option_bind]. rewrite !select_expanded.
  unfold T.size_last. rewrite Hs. cbn [rev app shape mbind option_bind].
  reflexivity.
Qed.

(** ** C3: the soft-target loss *)

Lemma calc_ce_loss_Some `{Torch} (temperature : F32.float) (mask : option (tensor bool))
    (s t : tensor F32.float) (loss : F32.float) (ss ts : tensor F32.float) :
  LossEngine.calc_ce_loss temperature mask s t = Some (loss, ss, ts) ->
  shape ts = shape ss /\
  exists kl,
    KLDivLoss_batchmean (log_softmax (T.div_scalar ss temperature))
                        (softmax (T.div_scalar ts temperature)) = Some kl /\
    loss = F32.mul kl (F32.mul temperature temperature).
Proof.
  unfold LossEngine.calc_ce_loss. intros Hrun.
  destruct mask; simplify_option_eq; eauto.
Qed.

Lemma calc_ce_loss_unmasked `{Torch} (temperature : F32.float)
    (s t : tensor F32.float) (n v : nat) :
  T.size_last s = Some v -> v <> 0%nat ->
  length (data s) = (n * v)%nat -> length (data t) = (n * v)%nat ->
  let ss := Tensor [n; v] (data s) in
  let ts := Tensor [n; v] (data t) in
  LossEngine.calc_ce_loss temperature None s t
  = Some (F32.mul
            (F32.div (kl_div_sum (log_softmax (T.div_scalar ss temperature))
                                 (softmax (T.div_scalar ts temperature)))
                     (F32.of_Z (Z.of_nat n)))
            (F32.mul temperature temperature), ss, ts).
Proof.
  intros Hv Hv0 Hs Ht. unfold LossEngine.calc_ce_loss. cbn [mbind option_bind].
  rewrite Hv. cbn [mbind option_bind]. unfold T.view_rows. rewrite Hs, Ht.
  rewrite Nat.Div0.mod_mul, Nat.div_mul by exact Hv0.
  destruct (Nat.eqb_spec v 0) as [->|_]; [contradiction|].
  cbn [orb negb Nat.eqb mbind option_bind shape].
  rewrite decide_True by reflexivity.
  unfold KLDivLoss_batchmean, T.size_first. rewrite log_softmax_shape.
  cbn [T.div_scalar shape mbind option_bind]. reflexivity.
Qed.

Lemma calc_ce_loss_total `{Torch} (temperature : F32.float) (mask : option (tensor bool))
    (s t : tensor F32.float) (b sq v : nat) :
  v <> 0%nat -> shape s = [b; sq; v] -> shape t = [b; sq; v] -> T.wf s -> T.wf t ->
  match mask with
  | Some m => shape m = [b; sq] /\ T.wf m
  | None => True
  end ->
  exists loss ss ts, LossEngine.calc_ce_loss temperature mask s t = Some (loss, ss, ts).
Proof.
  intros Hv Hs Ht Hws Hwt Hm. unfold T.wf in *. rewrite ?Hs, ?Ht in *.
  cbn [T.numel fold_right] in *.
  destruct mask as [m|].
  - destruct Hm as [Hm Hwm]. rewrite Hm in Hwm. cbn [T.numel fold_right] in Hwm.
    rewrite (calc_ce_loss_masked temperature m s t b sq v) by (assumption || lia).
    eexists _, _, _.
    apply (calc_ce_loss_unmasked temperature _ _ (length (List.filter negb (data m))) v);
      cbn [data]; try exact Hv; try reflexivity;
      apply length_real_token_entries; lia.
  - eexists _, _, _.
    apply (calc_ce_loss_unmasked temperature s t (b * sq) v); try exact Hv; try lia.
    unfold T.size_last. rewrite Hs. reflexivity.
Qed.

Lemma view_rows_Some {A : Type} (t : tensor A) (v : nat) (r : tensor A) :
  T.view_rows t v = Some r ->
  v <> 0%nat /\ r = Tensor [(length (data t) / v)%nat; v] (data t).
Proof.
  unfold T.view_rows. destruct (Nat.eqb_spec v 0) as [->|Hv]; [discriminate|].
  cbn [orb]. destruct (negb _); [discriminate|].
  intros Heq. injection Heq as <-. auto.
Qed.

(** The loss that the engine returns, written out: the summed divergence
    divided by the number of selected rows, times the squared
    temperature. *)
Lemma calc_ce_loss_explicit `{Torch} (temperature : F32.float) (mask : option (tensor bool))
    (s t : tensor F32.float) (loss : F32.float) (ss ts : tensor F32.float) :
  LossEngine.calc_ce_loss temperature mask s t = Some (loss, ss, ts) ->
  exists rows v : nat,
    shape ss = [rows; v] /\ shape ts = [rows; v] /\
    loss = F32.mul
             (F32.div (kl_div_sum (log_softmax (T.div_scalar ss temperature))
                                  (softmax (T.div_scalar ts temperature)))
                      (F32.of_Z (Z.of_nat rows)))
             (F32.mul temperature temperature).
Proof.
  intros Hrun.
  destruct (calc_ce_loss_Some _ _ _ _ _ _ _ Hrun) as (Hshape & kl & Hkl & ->).
  assert (Hrows : exists x v, T.view_rows x v = Some ss).
  { unfold LossEngine.calc_ce_loss in Hrun. destruct mask; simplify_option_eq; eauto. }
  destruct Hrows as (x & v & Hview). apply view_rows_Some in Hview.
  destruct Hview as [_ Hss].
  exists (length (data x) / v)%nat, v.
  assert (Hs : shape ss = [(length (data x) / v)%nat; v]) by (rewrite Hss; reflexivity).
  split; [exact Hs|]. split; [rewrite Hshape; exact Hs|].
  unfold KLDivLoss_batchmean, T.size_first in Hkl. rewrite log_softmax_shape in Hkl.
  cbn [T.div_scalar shape] in Hkl. rewrite Hs in Hkl. injection Hkl as <-. reflexivity.
Qed.

(** C3: the soft-target loss is [T^2] times the batch-averaged
    Kullback-Leibler divergence with [softmax(teacher / T)] as target and
    [log_softmax(student / T)] as the distribution under optimization, for
    every temperature and every pair of selected logit tensors: the
    divergence summed over the selection is divided by the number of
    selected rows and multiplied by the squared temperature, which is the
    loss in the words of the specification.  The engine has no parameter
    that could turn the direction around.  On logits of one (batch x
    sequence x vocabulary) shape, with or without a mask of the matching
    shape, the loss is computed. *)
Theorem soft_target_loss_formula `{Torch} (temperature : F32.float)
    (mask : option (tensor bool)) (s t : tensor F32.float) :
  (forall loss ss ts,
      LossEngine.calc_ce_loss temperature mask s t = Some (loss, ss, ts) ->
      exists rows v : nat,
        shape ss = [rows; v] /\ shape ts = [rows; v] /\
        loss = F32.mul
                 (F32.div (kl_div_sum (log_softmax (T.div_scalar ss temperature))
                                      (softmax (T.div_scalar ts temperature)))
                          (F32.of_Z (Z.of_nat rows)))
                 (F32.mul temperature temperature) /\
        LossEngine.spec_soft_target_loss temperature ss ts = Some loss) /\
  (forall b sq v : nat,
      v <> 0%nat -> shape s = [b; sq; v] -> shape t = [b; sq; v] -> T.wf s -> T.wf t ->
      match mask with
      | Some m => shape m = [b; sq] /\ T.wf m
      | None => True
      end ->
      exists loss ss ts,
        LossEngine.calc_ce_loss temperature mask s t = Some (loss, ss, ts)).
Proof.
  split.
  - intros loss ss ts Hrun. apply calc_ce_loss_explicit in Hrun.
    destruct Hrun as (rows & v & Hss & Hts & ->).
    exists rows, v. split; [exact Hss|]. split; [exact Hts|]. split; [reflexivity|].
    unfold LossEngine.spec_soft_target_loss. rewrite Hss.
    rewrite F32_mul_comm. reflexivity.
  - intros b sq v. apply calc_ce_loss_total.
Qed.

Lemma soft_target_loss_formula_witness :
  @LossEngine.calc_ce_loss Toy.torch F32.two (Some Toy.padding_mask) Toy.s_logits Toy.t_logits
  = Some (Toy.f 13631488 (-20),
          Tensor [1%nat; 2%nat] [Toy.four; F32.one],
          Tensor [1%nat; 2%nat] [Toy.three; F32.one]) /\
  @LossEngine.spec_soft_target_loss Toy.torch F32.two
     (Tensor [1%nat; 2%nat] [Toy.four; F32.one])
     (Tensor [1%nat; 2%nat] [Toy.three; F32.one])
  = Some (Toy.f 13631488 (-20)) /\
  exists loss ss ts,
    @LossEngine.calc_ce_loss Toy.torch F32.two (Some Toy.padding_mask) Toy.s_logits Toy.t_logits
    = Some (loss, ss, ts).
Proof.
  assert (Hrun : @LossEngine.calc_ce_loss Toy.torch F32.two (Some Toy.padding_mask)
                   Toy.s_logits Toy.t_logits
                 = Some (Toy.f 13631488 (-20),
                         Tensor [1%nat; 2%nat] [Toy.four; F32.one],
                         Tensor [1%nat; 2%nat] [Toy.three; F32.one]))
    by (vm_compute; reflexivity).
  destruct (@soft_target_loss_formula Toy.torch F32.two (Some Toy.padding_mask)
              Toy.s_logits Toy.t_logits) as [Hformula Htotal].
  split; [exact Hrun|]. split.
  - destruct (Hformula _ _ _ Hrun) as (rows & v & _ & _ & _ & Hspec). exact Hspec.
  - apply (Htotal 1%nat 2%nat 2%nat); try reflexivity; [discriminate|].
    split; reflexivity.
Defined.

(** ** C4: padded positions *)

(** C4: the mask, true at padding, is inverted once, repeated along the
    vocabulary dimension and used to select from both logit tensors, so
    that exactly the entries at real-token positions are kept; two pairs of
    logit tensors that agree at every real-token position therefore have
    the same soft-target loss, whatever stands at the padded positions. *)
Theorem padded_positions_have_no_influence `{Torch} (temperature : F32.float)
    (mask : tensor bool) (s t s' t' : tensor F32.float) (b sq v : nat) :
  shape mask = [b; sq] -> T.wf mask ->
  shape s = [b; sq; v] -> shape s' = [b; sq; v] ->
  shape t = [b; sq; v] -> shape t' = [b; sq; v] ->
  T.wf s -> T.wf t -> v <> 0%nat ->
  (forall p k : nat, data mask !! p = Some false -> (k < v)%nat ->
      data s !! (p * v + k)%nat = data s' !! (p * v + k)%nat /\
      data t !! (p * v + k)%nat = data t' !! (p * v + k)%nat) ->
  LossEngine.calc_ce_loss temperature (Some mask) s t
  = LossEngine.calc_ce_loss temperature (Some mask) s' t' /\
  exists loss ss ts,
    LossEngine.calc_ce_loss temperature (Some mask) s t = Some (loss, ss, ts) /\
    data ss = LossEngine.real_token_entries v (data mask) (data s) /\
    data ts = LossEngine.real_token_entries v (data mask) (data t).
Proof.
  intros Hm Hwm Hs Hs' Ht Ht' Hws Hwt Hv Hagree.
  unfold T.wf in *. rewrite ?Hm, ?Hs, ?Ht in *. cbn [T.numel fold_right] in *.
  assert (Hlen : length (data mask) = (b * sq)%nat) by lia.
  rewrite (calc_ce_loss_masked temperature mask s t b sq v) by assumption.
  rewrite (calc_ce_loss_masked temperature mask s' t' b sq v) by assumption.
  rewrite <- (real_token_entries_agree v (data mask) (data s) (data s'))
    by (intros p k Hp Hk; apply (Hagree p k Hp Hk)).
  rewrite <- (real_token_entries_agree v (data mask) (data t) (data t'))
    by (intros p k Hp Hk; apply (Hagree p k Hp Hk)).
  split; [reflexivity|].
  eexists _, _, _. split.
  - apply (calc_ce_loss_unmasked temperature _ _ (length (List.filter negb (data mask))) v);
      cbn [data]; try exact Hv; try reflexivity;
      apply length_real_token_entries; lia.
  - split; reflexivity.
Qed.

Lemma padded_positions_have_no_influence_witness :
  @LossEngine.calc_ce_loss Toy.torch F32.two (Some Toy.padding_mask) Toy.s_logits Toy.t_logits
  = @LossEngine.calc_ce_loss Toy.torch F32.two (Some Toy.padding_mask) Toy.s_logits' Toy.t_logits'.
Proof.
  apply (@padded_positions_have_no_influence Toy.torch F32.two Toy.padding_mask
           Toy.s_logits Toy.t_logits Toy.s_logits' Toy.t_logits' 1%nat 2%nat 2%nat);
    try reflexivity; try discriminate.
  intros [|[|p]] k Hp Hk; try discriminate Hp.
  destruct k as [|[|k]]; [split; reflexivity | split; reflexivity | lia].
Defined.

(** ** C7: decoder inputs and labels *)

Lemma length_drop_last {A : Type} (l : list A) :
  length (Py.drop_last l) = (length l - 1)%nat.
Proof.
  unfold Py.drop_last. rewrite removelast_firstn_len, length_firstn. lia.
Qed.

Lemma nth_error_drop_last {A : Type} (l : list A) (j : nat) :
  (j < length l - 1)%nat -> nth_error (Py.drop_last l) j = nth_error l j.
Proof.
  intros Hj. unfold Py.drop_last. rewrite removelast_firstn_len, nth_error_firstn.
  destruct (Nat.ltb_spec j (Nat.pred (length l))); [reflexivity | lia].
Qed.

Lemma nth_error_drop_first {A : Type} (l : list A) (j : nat) :
  nth_error (Py.drop_first l) j = nth_error l (S j).
Proof. destruct l; [destruct j|]; reflexivity. Qed.

(** The trainer's step hands the same two tensors to the forward pass. *)
Lemma trainer_step_inversion `{BartLib} (self : SummarizationTrainer.self_t)
    (batch : gmap string Labels.ids) (w w' : World) (loss : F32.float) :
  SummarizationTrainer._step self batch w = Ok loss w' ->
  exists source_ids source_mask y outputs,
    batch !! "source_ids"%string = Some source_ids /\
    batch !! "source_mask"%string = Some source_mask /\
    batch !! "target_ids"%string = Some y /\
    Bart.forward Student (SummarizationTrainer.model self)
      {| arg_input_ids := source_ids; arg_attention_mask := source_mask;
         arg_decoder_input_ids := Labels.y_ids y;
         arg_lm_labels := Labels.lm_labels (SummarizationTrainer.pad_token_id self) y |} w
    = Ok outputs w' /\
    loss = out_loss outputs.
Proof.
  unfold SummarizationTrainer._step. intros Hrun. inv_run Hrun.
  repeat match goal with
         | Hx : from_option _ _ _ = Ok _ _ |- _ =>
             apply from_option_Ok in Hx; destruct Hx as [? ?]; subst
         end.
  apply ret_Ok in Hrun. destruct Hrun as [-> ->].
  eexists _, _, _, _. repeat split; eauto.
Qed.

(** C7 (as the code has it): for every row of the target ids the decoder
    input is the row without its last position, entry for entry at the same
    index, and the labels are the row without its first position: label [j]
    is target [j + 1], a shift to the left by one, with every padding token
    replaced by the ignored value [-100]. *)
Theorem decoder_input_and_labels (pad : Z) (y : Labels.ids) (i : nat) (row : list Z) :
  nth_error y i = Some row ->
  exists dec lab,
    nth_error (Labels.y_ids y) i = Some dec /\
    nth_error (Labels.lm_labels pad y) i = Some lab /\
    length dec = (length row - 1)%nat /\
    (forall j : nat, (j < length dec)%nat -> nth_error dec j = nth_error row j) /\
    length lab = (length row - 1)%nat /\
    Labels.shifted_left (Labels.fill_ignore pad row) lab /\
    (forall j : nat, nth_error row (S j) = Some pad ->
                     nth_error lab j = Some Labels.ignore_index).
Proof.
  intros Hrow. unfold Labels.y_ids, Labels.lm_labels.
  exists (Py.drop_last row), (Labels.fill_ignore pad (Py.drop_first row)).
  rewrite !nth_error_map, Hrow. cbn [option_map].
  repeat split.
  - apply length_drop_last.
  - intros j Hj. rewrite length_drop_last in Hj. apply nth_error_drop_last, Hj.
  - unfold Labels.fill_ignore, Py.drop_first. rewrite length_map. apply length_tl.
  - intros j _. unfold Labels.fill_ignore.
    rewrite !nth_error_map, nth_error_drop_first. reflexivity.
  - intros j Hj. unfold Labels.fill_ignore.
    rewrite nth_error_map, nth_error_drop_first, Hj. cbn [option_map].
    rewrite Z.eqb_refl. reflexivity.
Qed.

Lemma decoder_input_and_labels_witness :
  nth_error [[0; 5; 2; 1]] 0 = Some [0; 5; 2; 1] /\
  exists dec lab,
    nth_error (Labels.y_ids [[0; 5; 2; 1]]) 0 = Some dec /\
    nth_error (Labels.lm_labels 1 [[0; 5; 2; 1]]) 0 = Some lab /\
    length dec = 3%nat /\
    (forall j : nat, (j < length dec)%nat -> nth_error dec j = nth_error [0; 5; 2; 1] j) /\
    length lab = 3%nat /\
    Labels.shifted_left (Labels.fill_ignore 1 [0; 5; 2; 1]) lab /\
    (forall j : nat, nth_error [0; 5; 2; 1] (S j) = Some 1 ->
                     nth_error lab j = Some Labels.ignore_index).
Proof.
  split; [reflexivity|].
  exact (decoder_input_and_labels 1 [[0; 5; 2; 1]] 0 [0; 5; 2; 1] eq_refl).
Defined.

Example toy_labels :
  Labels.y_ids [[0; 5; 2; 1]] = [[0; 5; 2]] /\
  Labels.lm_labels 1 [[0; 5; 2; 1]] = [[5; 2; -100]].
Proof. split; reflexivity. Qed.

(** C7, counterexample: for the target row [[0, 5, 6, 2]] the decoder input
    is [[0, 5, 6]], which is not the row shifted left by one position, and
    the labels are [[5, 6, 2]], which are not the row shifted right. *)
Lemma decoder_input_is_not_a_left_shift :
  ~ (forall (pad : Z) (y : Labels.ids), Labels.spec_construction pad y).
Proof.
  intros Hclaim.
  destruct (Hclaim 1 [[0; 5; 6; 2]] 0%nat [0; 5; 6; 2] eq_refl)
    as (dec & lab & Hdec & _ & Hleft & _).
  cbn in Hdec. injection Hdec as <-.
  specialize (Hleft 0%nat). cbn in Hleft.
  assert (Hlt : (0 < 3)%nat) by lia. specialize (Hleft Hlt). discriminate Hleft.
Qed.

(** ** Freezing on the store *)

Lemma freeze_store_app (m1 m2 : module) (st : gmap positive Param) :
  freeze_store (m1 ++ m2) st = freeze_store m2 (freeze_store m1 st).
Proof. unfold freeze_store. apply fold_left_app. Qed.

Lemma freeze_store_not_elem (m : module) (st : gmap positive Param) (id : positive) :
  id ∉ m -> freeze_store m st !! id = st !! id.
Proof.
  revert st. induction m as [|x m IH]; intros st Hid; [reflexivity|].
  apply not_elem_of_cons in Hid. destruct Hid as [Hne Hid].
  change (freeze_store (x :: m) st)
    with (freeze_store m (alter (set_requires_grad false) x st)).
  rewrite IH by exact Hid. apply lookup_alter_ne. congruence.
Qed.

Lemma freeze_store_elem (m : module) (st : gmap positive Param) (id : positive) :
  id ∈ m -> freeze_store m st !! id = set_requires_grad false <$> st !! id.
Proof.
  revert st. induction m as [|x m IH]; intros st Hid; [inversion Hid|].
  change (freeze_store (x :: m) st)
    with (freeze_store m (alter (set_requires_grad false) x st)).
  destruct (decide (id ∈ m)) as [Hin|Hnin].
  - rewrite IH by exact Hin. rewrite lookup_alter. case_decide; [|reflexivity].
    subst x. destruct (st !! id); reflexivity.
  - rewrite freeze_store_not_elem by exact Hnin.
    apply elem_of_cons in Hid. destruct Hid as [->|Hin]; [|contradiction].
    apply lookup_alter_eq.
Qed.

(** [freeze_stuff] freezes the parameters it names, in one pass. *)
Lemma freeze_stuff_run (self : SummarizationDistiller.self_t) (w : World) :
  SummarizationDistiller.freeze_stuff self w
  = Ok tt (with_store (freeze_store (SummarizationDistiller.frozen_parameters self)) w).
Proof.
  unfold SummarizationDistiller.freeze_stuff, SummarizationDistiller.frozen_parameters,
    freeze_part, modify_store.
  cbn [mbind M_bind]. unfold with_store. cbn [store next_id storage grad_enabled trace].
  rewrite !freeze_store_app. reflexivity.
Qed.

(** ** C6: the teacher during a step *)

Lemma read_only_ret {A : Type} (a : A) : read_only (mret a : M A).
Proof. intros w. reflexivity. Qed.

Lemma read_only_raise {A : Type} (e : Error) : read_only (raise e : M A).
Proof. intros w. reflexivity. Qed.

Lemma read_only_get_world : read_only get_world.
Proof. intros w. reflexivity. Qed.

Lemma read_only_from_option {A : Type} (e : Error) (o : option A) :
  read_only (from_option e o).
Proof. intros w. destruct o; reflexivity. Qed.

Lemma read_only_bind {A B : Type} (m : M A) (k : A -> M B) :
  read_only m -> (forall a, read_only (k a)) -> read_only (m ≫= k).
Proof.
  intros Hm Hk w. unfold mbind, M_bind. specialize (Hm w).
  destruct (m w) as [a w1|e w1]; cbn in Hm; subst w1; [apply Hk | reflexivity].
Qed.

Lemma read_only_for_each {A B : Type} (body : A -> M B) (l : list A) :
  (forall x, read_only (body x)) -> read_only (for_each body l).
Proof.
  intros Hbody. induction l as [|x l IH]; cbn [for_each].
  - apply read_only_ret.
  - apply read_only_bind; [apply Hbody|]. intros y.
    apply read_only_bind; [exact IH|]. intros ys. apply read_only_ret.
Qed.

Lemma read_only_read_value (id : positive) : read_only (read_value id).
Proof.
  unfold read_value. apply read_only_bind; [apply read_only_get_world|].
  intros w. apply read_only_from_option.
Qed.

Lemma read_only_read_values (m : module) : read_only (read_values m).
Proof. apply read_only_for_each, read_only_read_value. Qed.

Lemma read_only_state_dict (m : BartModel) : read_only (Bart.state_dict m).
Proof.
  unfold Bart.state_dict.
  repeat (apply read_only_bind;
          [first [apply read_only_read_values
                 | apply read_only_for_each, read_only_read_values] | intros ?]).
  apply read_only_ret.
Qed.

Lemma read_only_Ok {A : Type} (m : M A) (w w' : World) (a : A) :
  read_only m -> m w = Ok a w' -> w' = w.
Proof. intros Hm Hrun. specialize (Hm w). rewrite Hrun in Hm. exact Hm. Qed.

Lemma add_events_nil (w : World) : add_events [] w = w.
Proof. destruct w. unfold add_events. cbn. rewrite app_nil_r. reflexivity. Qed.

Lemma add_events_app (evs1 evs2 : list Event) (w : World) :
  add_events evs2 (add_events evs1 w) = add_events (evs1 ++ evs2) w.
Proof. unfold add_events. cbn. rewrite app_assoc. reflexivity. Qed.

(** A forward pass reads the parameters and leaves one event. *)
Lemma forward_run `{BartLib} (who : Who) (m : BartModel) (args : ForwardArgs) (w : World) :
  (exists e, Bart.forward who m args w = Raise e w) \/
  (exists out, Bart.forward who m args w
               = Ok out (add_events [EvForward who (grad_enabled w)] w)).
Proof.
  unfold Bart.forward, mbind, M_bind.
  pose proof (read_only_state_dict m w) as Hro.
  destruct (Bart.state_dict m w) as [ws w1|e w1]; cbn in Hro; subst w1.
  - right. eexists. reflexivity.
  - left. eexists. reflexivity.
Qed.

Lemma no_grad_forward_run `{BartLib} (who : Who) (m : BartModel) (args : ForwardArgs)
    (w : World) :
  (exists e, no_grad (Bart.forward who m args) w = Raise e w) \/
  (exists out, no_grad (Bart.forward who m args) w
               = Ok out (add_events [EvForward who false] w)).
Proof.
  unfold no_grad.
  destruct (forward_run who m args (with_grad_enabled false w)) as [[e ->]|[out ->]].
  - left. exists e. destruct w; reflexivity.
  - right. exists out. destruct w; reflexivity.
Qed.

(** The world after a step: the world before it and the events of the
    forward passes that were made. *)
Lemma step_world `{Torch} `{BartLib} (self : SummarizationDistiller.self_t)
    (batch : gmap string Labels.ids) (w : World) :
  exists evs,
    world_of (SummarizationDistiller._step self batch w) = add_events evs w /\
    (evs = [] \/ evs = [EvForward Student (grad_enabled w)]
     \/ evs = [EvForward Student (grad_enabled w); EvForward Teacher false]) /\
    (forall res w', SummarizationDistiller._step self batch w = Ok res w' ->
                    evs = [EvForward Student (grad_enabled w); EvForward Teacher false]).
Proof.
  unfold SummarizationDistiller._step, mbind, M_bind.
  destruct (batch !! "input_ids"%string) as [source_ids|]; cbn [from_option mret M_ret raise];
    [|exists []; rewrite add_events_nil; split; [reflexivity|split; [auto|discriminate]]].
  destruct (batch !! "attention_mask"%string) as [source_mask|]; cbn [from_option mret M_ret raise];
    [|exists []; rewrite add_events_nil; split; [reflexivity|split; [auto|discriminate]]].
  destruct (batch !! "decoder_input_ids"%string) as [y|]; cbn [from_option mret M_ret raise];
    [|exists []; rewrite add_events_nil; split; [reflexivity|split; [auto|discriminate]]].
  match goal with
  | |- context [Bart.forward Student ?m ?args w] =>
      destruct (forward_run Student m args w) as [[e ->]|[s_out ->]]
  end;
    [exists []; rewrite add_events_nil; split; [reflexivity|split; [auto|discriminate]]|].
  match goal with
  | |- context [no_grad (Bart.forward Teacher ?m ?args) ?w1] =>
      destruct (no_grad_forward_run Teacher m args w1) as [[e ->]|[t_out ->]]
  end.
  { eexists. split; [reflexivity|]. split; [auto|discriminate]. }
  rewrite add_events_app. cbn [app].
  destruct (LossEngine.calc_ce_loss _ _ _ _) as [[[loss_ce ss] ts]|];
    cbn [from_option mret M_ret raise world_of];
    eexists; (split; [reflexivity|]); split; auto.
Qed.

(** C6: a step does not write to any parameter, so the teacher's parameters
    are after the step what they were before it; gradient tracking is back
    in the mode it was in; and every forward pass of the teacher that the
    step makes is made with gradient tracking switched off.  A step that
    completes has made such a pass. *)
Theorem teacher_is_never_mutated `{Torch} `{BartLib} (self : SummarizationDistiller.self_t)
    (batch : gmap string Labels.ids) (w : World) :
  let w' := world_of (SummarizationDistiller._step self batch w) in
  store w' = store w /\
  (forall id : positive, id ∈ parameters (SummarizationDistiller.teacher self) ->
                         store w' !! id = store w !! id) /\
  grad_enabled w' = grad_enabled w /\
  exists evs,
    trace w' = trace w ++ evs /\
    (forall g : bool, EvForward Teacher g ∈ evs -> g = false) /\
    (forall res w'', SummarizationDistiller._step self batch w = Ok res w'' ->
                     EvForward Teacher false ∈ evs).
Proof.
  destruct (step_world self batch w) as (evs & Hw & Hevs & Hok).
  cbn zeta. rewrite Hw. cbn [add_events store grad_enabled trace].
  split; [reflexivity|]. split; [reflexivity|]. split; [reflexivity|].
  exists evs. split; [reflexivity|]. split.
  - intros g Hin. destruct Hevs as [-> | [-> | ->]].
    + inversion Hin.
    + apply list_elem_of_singleton in Hin. discriminate Hin.
    + apply elem_of_cons in Hin. destruct Hin as [Hin|Hin]; [discriminate Hin|].
      apply list_elem_of_singleton in Hin. congruence.
  - intros res w'' Hrun. rewrite (Hok res w'' Hrun).
    apply elem_of_cons. right. apply elem_of_cons. left. reflexivity.
Qed.

Lemma teacher_is_never_mutated_witness :
  store (world_of (Toy.step Toy.three F32.one F32.zero)) = store Toy.world1 /\
  trace (world_of (Toy.step Toy.three F32.one F32.zero))
  = trace Toy.world1 ++ [EvForward Student true; EvForward Teacher false] /\
  exists evs,
    trace (world_of (Toy.step Toy.three F32.one F32.zero)) = trace Toy.world1 ++ evs /\
    EvForward Teacher false ∈ evs.
Proof.
  destruct (@teacher_is_never_mutated Toy.torch (Toy.lib Toy.three)
              (Toy.self1 F32.one F32.zero) Toy.batch Toy.world1)
    as (Hstore & _ & _ & evs & Htrace & _ & Hok).
  split; [exact Hstore|]. split; [vm_compute; reflexivity|].
  exists evs. split; [exact Htrace|].
  apply (Hok (Toy.f 8912896 (-19), Toy.f 8912896 (-19), Toy.three)
             (world_of (Toy.step Toy.three F32.one F32.zero))).
  vm_compute. reflexivity.
Defined.

(** ** Initialization: the effects of the operations *)

Lemma read_only_store_only {A : Type} (m : M A) : read_only m -> store_only m.
Proof. intros Hm w. rewrite (Hm w). auto. Qed.

Lemma store_only_bind {A B : Type} (m : M A) (k : A -> M B) :
  store_only m -> (forall a, store_only (k a)) -> store_only (m ≫= k).
Proof.
  intros Hm Hk w. unfold mbind, M_bind. specialize (Hm w).
  destruct (m w) as [a w1|e w1]; cbn [world_of] in *; [|exact Hm].
  destruct Hm as (Hs & Hg & Ht), (Hk a w1) as (Hs' & Hg' & Ht').
  rewrite Hs', Hg', Ht'. auto.
Qed.

Lemma store_only_for_each {A B : Type} (body : A -> M B) (l : list A) :
  (forall x, store_only (body x)) -> store_only (for_each body l).
Proof.
  intros Hbody. induction l as [|x l IH]; cbn [for_each].
  - apply read_only_store_only, read_only_ret.
  - apply store_only_bind; [apply Hbody|]. intros y.
    apply store_only_bind; [exact IH|]. intros ys.
    apply read_only_store_only, read_only_ret.
Qed.

Lemma store_only_alloc (t : tensor F32.float) : store_only (alloc t).
Proof. intros w. cbn. auto. Qed.

Lemma store_only_modify_store (f : gmap positive Param -> gmap positive Param) :
  store_only (modify_store f).
Proof. intros w. cbn. auto. Qed.

Lemma store_only_load_param (id : positive) (v : tensor F32.float) :
  store_only (Bart.load_param id v).
Proof.
  unfold Bart.load_param.
  apply store_only_bind; [apply read_only_store_only, read_only_get_world|]. intros w.
  apply store_only_bind; [apply read_only_store_only, read_only_from_option|]. intros p.
  case_decide; [apply store_only_modify_store | apply read_only_store_only, read_only_raise].
Qed.

Lemma store_only_load_module (vs : list (tensor F32.float)) (m : module) :
  store_only (Bart.load_module vs m).
Proof.
  revert m. induction vs as [|v vs IH]; intros [|id m]; cbn [Bart.load_module];
    try (apply read_only_store_only; first [apply read_only_ret | apply read_only_raise]).
  apply store_only_bind; [apply store_only_load_param|]. intros _. apply IH.
Qed.

Lemma store_only_load_layers (vss : list (list (tensor F32.float)))
    (ls : list module) :
  store_only (Bart.load_layers vss ls).
Proof.
  revert ls. induction vss as [|vs vss IH]; intros [|l ls]; cbn [Bart.load_layers];
    try (apply read_only_store_only; first [apply read_only_ret | apply read_only_raise]).
  apply store_only_bind; [apply store_only_load_module|]. intros _. apply IH.
Qed.

Lemma store_only_copy_module (src dst : module) :
  store_only (Bart.copy_module src dst).
Proof.
  unfold Bart.copy_module.
  apply store_only_bind; [apply read_only_store_only, read_only_read_values|].
  intros vs. apply store_only_load_module.
Qed.

Lemma store_only_load_state_dict (ws : Weights) (m : BartModel) :
  store_only (Bart.load_state_dict ws m).
Proof.
  unfold Bart.load_state_dict.
  repeat (apply store_only_bind;
          [first [apply store_only_load_module | apply store_only_load_layers] | intros _]).
  apply store_only_load_module.
Qed.

Lemma store_only_Ok {A : Type} (m : M A) (w w' : World) (a : A) :
  store_only m -> m w = Ok a w' ->
  storage w' = storage w /\ grad_enabled w' = grad_enabled w /\ trace w' = trace w.
Proof. intros Hm Hrun. specialize (Hm w). rewrite Hrun in Hm. exact Hm. Qed.

Lemma for_each_length {A B : Type} (body : A -> M B) (l : list A) (w w' : World)
    (ys : list B) :
  for_each body l w = Ok ys w' -> length ys = length l.
Proof.
  revert w w' ys. induction l as [|x l IH]; intros w w' ys Hrun; cbn [for_each] in Hrun.
  - apply ret_Ok in Hrun. destruct Hrun as [-> _]. reflexivity.
  - inv_run Hrun. apply ret_Ok in Hrun. destruct Hrun as [-> _].
    cbn [length]. f_equal. eapply IH. eassumption.
Qed.

(** The constructor: the configuration is kept, the decoder has
    [decoder_layers] layers, one event is left. *)
Lemma construct_Ok `{BartLib} (cfg : BartConfig) (w w' : World) (m : BartModel) :
  Bart.construct cfg w = Ok m w' ->
  config m = cfg /\
  length (layers (decoder m)) = Z.to_nat (decoder_layers cfg) /\
  storage w' = storage w /\ grad_enabled w' = grad_enabled w /\
  trace w' = trace w ++ [EvConstruct cfg].
Proof.
  unfold Bart.construct. intros Hrun. inv_run Hrun.
  apply ret_Ok in Hrun. destruct Hrun as [-> ->].
  cbn [config decoder layers].
  assert (Hallocs : forall ts, store_only (for_each alloc ts))
    by (intros ts; apply store_only_for_each, store_only_alloc).
  repeat match goal with
         | Hx : for_each alloc _ _ = Ok _ _ |- _ =>
             apply (store_only_Ok _ _ _ _ (Hallocs _)) in Hx; destruct Hx as (? & ? & ?)
         end.
  match goal with
  | Hx : for_each (fun i => for_each alloc _) _ _ = Ok _ _ |- _ =>
      pose proof (for_each_length _ _ _ _ _ Hx) as Hlen;
      apply (store_only_Ok _ _ _ _
               (store_only_for_each _ _ (fun i => Hallocs _))) in Hx;
      destruct Hx as (? & ? & ?)
  end.
  rewrite length_seq in Hlen.
  match goal with
  | Hx : emit _ _ = Ok _ _ |- _ => injection Hx as _ <-
  end.
  cbn [add_events storage grad_enabled trace] in *.
  repeat split; congruence.
Qed.

Lemma read_value_run (id : positive) (w : World) :
  read_value id w = from_option RuntimeError (value <$> store w !! id) w.
Proof. reflexivity. Qed.

Lemma read_values_run (m : module) (w : World) :
  read_values m w = from_option RuntimeError (values_of (store w) m) w.
Proof.
  unfold read_values, values_of. induction m as [|id m IH]; [reflexivity|].
  cbn [for_each mapM]. unfold mbind at 1, M_bind at 1. rewrite read_value_run.
  destruct (store w !! id) as [p|]; cbn [fmap option_fmap option_map from_option mret M_ret raise
                                         mbind option_bind]; [|reflexivity].
  unfold mbind at 1, M_bind at 1. rewrite IH.
  destruct (mapM _ m); reflexivity.
Qed.

Lemma for_each_read_values_run (ls : list module) (w : World) :
  for_each read_values ls w = from_option RuntimeError (mapM (values_of (store w)) ls) w.
Proof.
  induction ls as [|l ls IH]; [reflexivity|].
  cbn [for_each mapM]. unfold mbind at 1, M_bind at 1. rewrite read_values_run.
  destruct (values_of (store w) l); cbn [from_option mret M_ret raise mbind option_bind];
    [|reflexivity].
  unfold mbind at 1, M_bind at 1. rewrite IH.
  destruct (mapM _ ls); reflexivity.
Qed.

(** [state_dict] returns what the store holds for the model. *)
Lemma state_dict_run (m : BartModel) (w : World) :
  Bart.state_dict m w = from_option RuntimeError (weights_of (store w) m) w.
Proof.
  unfold Bart.state_dict, weights_of.
  unfold mbind at 1, M_bind at 1. rewrite read_values_run.
  destruct (values_of (store w) (shared m)); cbn [from_option mret M_ret raise mbind option_bind];
    [|reflexivity].
  unfold mbind at 1, M_bind at 1. rewrite read_values_run.
  destruct (values_of (store w) (encoder m)); cbn [from_option mret M_ret raise mbind option_bind];
    [|reflexivity].
  unfold mbind at 1, M_bind at 1. rewrite read_values_run.
  destruct (values_of (store w) (embed_positions (decoder m)));
    cbn [from_option mret M_ret raise mbind option_bind]; [|reflexivity].
  unfold mbind at 1, M_bind at 1. rewrite for_each_read_values_run.
  destruct (mapM (values_of (store w)) (layers (decoder m)));
    cbn [from_option mret M_ret raise mbind option_bind]; [|reflexivity].
  unfold mbind at 1, M_bind at 1. rewrite read_values_run.
  destruct (values_of (store w) (decoder_other (decoder m))); reflexivity.
Qed.

Lemma mapM_ext_fun {A B : Type} (f g : A -> option B) (l : list A) :
  (forall x, f x = g x) -> mapM f l = mapM g l.
Proof.
  intros Hfg. induction l as [|x l IH]; [reflexivity|].
  cbn [mapM]. rewrite Hfg, IH. reflexivity.
Qed.

(** Freezing changes no value. *)
Lemma freeze_store_value (m : module) (st : gmap positive Param) (id : positive) :
  value <$> freeze_store m st !! id = value <$> st !! id.
Proof.
  destruct (decide (id ∈ m)) as [Hin|Hnin].
  - rewrite freeze_store_elem by exact Hin. destruct (st !! id); reflexivity.
  - rewrite freeze_store_not_elem by exact Hnin. reflexivity.
Qed.

Lemma weights_of_freeze (f : module) (st : gmap positive Param) (m : BartModel) :
  weights_of (freeze_store f st) m = weights_of st m.
Proof.
  assert (Hv : forall l, values_of (freeze_store f st) l = values_of st l).
  { intros l. apply mapM_ext_fun. intros id. apply freeze_store_value. }
  unfold weights_of. rewrite !Hv.
  rewrite (mapM_ext_fun _ _ (layers (decoder m)) Hv). reflexivity.
Qed.

Lemma emit_Ok (e : Event) (w w' : World) (u : unit) :
  emit e w = Ok u w' -> w' = add_events [e] w.
Proof. unfold emit. intros Heq. injection Heq as _ <-. reflexivity. Qed.

Lemma from_pretrained_Ok `{BartLib} (path : string) (w w' : World) (m : BartModel) :
  Bart.from_pretrained path w = Ok m w' ->
  (exists ck, storage w !! path = Some ck /\ config m = ck_config ck) /\
  length (layers (decoder m)) = Z.to_nat (decoder_layers (config m)) /\
  storage w' = storage w /\ grad_enabled w' = grad_enabled w /\
  trace w' = trace w ++ [EvConstruct (config m); EvFromPretrained path].
Proof.
  unfold Bart.from_pretrained. intros Hrun. inv_run Hrun.
  apply ret_Ok in Hrun. destruct Hrun as [-> ->].
  injection Hrun0 as <- <-.
  apply from_option_Ok in Hrun1. destruct Hrun1 as [Hck ->].
  apply construct_Ok in Hrun2. destruct Hrun2 as (Hcfg & Hlen & Hs & Hg & Ht).
  apply (store_only_Ok _ _ _ _ (store_only_load_state_dict _ _)) in Hrun3.
  destruct Hrun3 as (Hs3 & Hg3 & Ht3).
  apply emit_Ok in Hrun4. subst w4. cbn [add_events storage grad_enabled trace].
  rewrite Hs3, Hg3, Ht3, Hs, Hg, Ht, Hcfg, <- app_assoc. cbn [app].
  split; [eauto|]. split; [congruence|]. auto.
Qed.

Lemma init_student_Ok (student teacher student' : BartModel) (w w' : World) :
  Bart.init_student student teacher w = Ok student' w' ->
  student' = student /\
  storage w' = storage w /\ grad_enabled w' = grad_enabled w /\
  trace w' = trace w ++ [EvInitStudent].
Proof.
  unfold Bart.init_student. intros Hrun. inv_run Hrun.
  apply ret_Ok in Hrun. destruct Hrun as [-> ->].
  apply emit_Ok in Hrun0. subst.
  repeat match goal with
         | Hx : Bart.copy_module _ _ _ = Ok _ _ |- _ =>
             apply (store_only_Ok _ _ _ _ (store_only_copy_module _ _)) in Hx;
             destruct Hx as (? & ? & ?)
         end.
  cbn [add_events storage grad_enabled trace] in *.
  repeat split; congruence.
Qed.

Lemma copy_decoder_layers_Ok (teacher student : BartModel) (l2copy : list Z)
    (w w' : World) (u : unit) :
  Bart.copy_decoder_layers teacher student l2copy w = Ok u w' ->
  storage w' = storage w /\ grad_enabled w' = grad_enabled w /\
  trace w' = trace w ++ [EvCopyDecoderLayers l2copy].
Proof.
  unfold Bart.copy_decoder_layers. intros Hrun. inv_run Hrun.
  apply ret_Ok in Hrun. destruct Hrun as [_ ->].
  apply emit_Ok in Hrun0. subst.
  match goal with
  | Hx : for_each _ _ _ = Ok _ _ |- _ =>
      eapply store_only_Ok in Hx;
      [destruct Hx as (? & ? & ?)|]
  end.
  - cbn [add_events storage grad_enabled trace] in *. repeat split; congruence.
  - apply store_only_for_each. intros [i student_layer].
    apply store_only_bind; [apply read_only_store_only, read_only_from_option|]. intros idx.
    apply store_only_bind; [apply read_only_store_only, read_only_from_option|]. intros tl.
    apply store_only_copy_module.
Qed.

Lemma save_pretrained_Ok (m : BartModel) (path : string) (w w' : World) (u : unit) :
  Bart.save_pretrained m path w = Ok u w' ->
  exists ws,
    weights_of (store w) m = Some ws /\
    store w' = store w /\
    storage w' = <[path := {| ck_config := config m; ck_weights := ws |}]> (storage w) /\
    grad_enabled w' = grad_enabled w /\
    trace w' = trace w ++ [EvSavePretrained path].
Proof.
  unfold Bart.save_pretrained. intros Hrun. inv_run Hrun.
  rewrite state_dict_run in Hrun0. apply from_option_Ok in Hrun0.
  destruct Hrun0 as [Hws ->].
  injection Hrun1 as _ <-. apply emit_Ok in Hrun. subst w'.
  exists a. cbn [add_events store storage grad_enabled trace]. auto.
Qed.

(** ** Initialization as a whole *)

(** When the operations before the assertion succeed, the assertion decides
    the outcome. *)
Lemma init_run `{BartLib} (hparams : SummarizationDistiller.hparams_t)
    (w w1 w2 w3 w4 w5 : World) (teacher student student' : BartModel) :
  let n := decoder_layers (config teacher) in
  let path := SummarizationDistiller.hp_model_name_or_path hparams in
  Bart.from_pretrained (SummarizationDistiller.hp_teacher hparams) w = Ok teacher w1 ->
  Bart.construct (with_decoder_layers (config teacher)
                    (LayerSelector.student_decoder_layers n)) w1 = Ok student w2 ->
  Bart.init_student student teacher w2 = Ok student' w3 ->
  Bart.copy_decoder_layers teacher student' (LayerSelector.layers_to_copy n) w3 = Ok tt w4 ->
  Bart.save_pretrained student' path (add_events [EvMkdir path] w4) = Ok tt w5 ->
  SummarizationDistiller.__init__ hparams w
  = if decide (length (layers (decoder student')) = length (LayerSelector.layers_to_copy n))
    then Ok (built_self hparams teacher student')
            (with_store (freeze_store (SummarizationDistiller.frozen_parameters
                                         (built_self hparams teacher student'))) w5)
    else Raise AssertionError w5.
Proof.
  intros n path H1 H2 H3 H4 H5.
  unfold SummarizationDistiller.__init__.
  unfold mbind at 1, M_bind at 1. rewrite H1.
  unfold mbind at 1, M_bind at 1. fold n. rewrite H2.
  unfold mbind at 1, M_bind at 1. rewrite H3.
  unfold mbind at 1, M_bind at 1. rewrite H4.
  unfold mbind at 1, M_bind at 1. unfold emit at 1.
  unfold mbind at 1, M_bind at 1. fold path. rewrite H5.
  unfold mbind at 1, M_bind at 1.
  case_decide; cbn [mret M_ret raise]; [|reflexivity].
  unfold mbind at 1, M_bind at 1.
  fold (built_self hparams teacher student'). rewrite freeze_stuff_run. reflexivity.
Qed.

(** What a completed initialization has done. *)
Lemma init_inversion `{BartLib} (hparams : SummarizationDistiller.hparams_t)
    (w w' : World) (self : SummarizationDistiller.self_t) :
  SummarizationDistiller.__init__ hparams w = Ok self w' ->
  let teacher := SummarizationDistiller.teacher self in
  let student := SummarizationDistiller.model self in
  let n := decoder_layers (config teacher) in
  let path := SummarizationDistiller.hp_model_name_or_path hparams in
  self = built_self hparams teacher student /\
  config student = with_decoder_layers (config teacher) (n / 2) /\
  length (layers (decoder teacher)) = Z.to_nat n /\
  length (layers (decoder student)) = Z.to_nat (n / 2) /\
  length (layers (decoder student)) = length (LayerSelector.layers_to_copy n) /\
  trace w' = trace w ++ [EvConstruct (config teacher);
                         EvFromPretrained (SummarizationDistiller.hp_teacher hparams);
                         EvConstruct (config student);
                         EvInitStudent;
                         EvCopyDecoderLayers (LayerSelector.layers_to_copy n);
                         EvMkdir path;
                         EvSavePretrained path] /\
  exists ws,
    storage w' = <[path := {| ck_config := config student; ck_weights := ws |}]> (storage w) /\
    weights_of (store w') student = Some ws.
Proof.
  unfold SummarizationDistiller.__init__. intros Hrun. inv_run Hrun.
  apply ret_Ok in Hrun. destruct Hrun as [-> ->].
  cbn [SummarizationDistiller.model SummarizationDistiller.teacher].
  apply from_pretrained_Ok in Hrun0. destruct Hrun0 as (_ & Hlt & Hs0 & _ & Ht0).
  apply construct_Ok in Hrun1. destruct Hrun1 as (Hcfg & Hls & Hs1 & _ & Ht1).
  apply init_student_Ok in Hrun2. destruct Hrun2 as (-> & Hs2 & _ & Ht2).
  apply copy_decoder_layers_Ok in Hrun3. destruct Hrun3 as (Hs3 & _ & Ht3).
  apply emit_Ok in Hrun4. subst w4.
  apply save_pretrained_Ok in Hrun5. destruct Hrun5 as (ws & Hws & Hst5 & Hs5 & _ & Ht5).
  case_decide as Hassert; [|discriminate Hrun6].
  apply ret_Ok in Hrun6. destruct Hrun6 as [_ ->].
  rewrite freeze_stuff_run in Hrun7. injection Hrun7 as _ <-.
  cbn [with_store add_events store storage trace] in *.
  rewrite Hcfg in *. cbn [with_decoder_layers decoder_layers] in Hls.
  unfold LayerSelector.student_decoder_layers, Py.floordiv in *.
  split; [reflexivity|]. split; [reflexivity|]. split; [exact Hlt|].
  split; [exact Hls|]. split; [exact Hassert|]. split.
  - rewrite Ht5, Ht3, Ht2, Ht1, Ht0, <- !app_assoc. reflexivity.
  - exists ws. split.
    + rewrite Hs5, Hs3, Hs2, Hs1, Hs0. reflexivity.
    + rewrite weights_of_freeze, Hst5. exact Hws.
Qed.

(** ** C8: the order of saving and copying *)

Example toy_trace :
  trace Toy.world1
  = [EvConstruct Toy.teacher_config; EvFromPretrained "teacher";
     EvConstruct (with_decoder_layers Toy.teacher_config 1);
     EvInitStudent; EvCopyDecoderLayers [0]; EvMkdir "student";
     EvSavePretrained "student"].
Proof. vm_compute. reflexivity. Qed.

(** The checkpoint the toy initialization saved holds the teacher's decoder
    layer 0, not the fresh weights of the constructor. *)
Example toy_saved_student :
  w_layers <$> (ck_weights <$> storage Toy.world1 !! "student"%string)
  = Some [[Toy.scalar Toy.four]] /\
  @init_layer (Toy.lib F32.one) (with_decoder_layers Toy.teacher_config 1) 0
  = [Toy.scalar F32.zero].
Proof. split; vm_compute; reflexivity. Qed.

(** The events of a completed initialization, in order: the student is
    saved after [init_student] and [copy_decoder_layers], and the
    checkpoint holds the weights the student has by then. *)
Lemma initializer_event_order `{BartLib}
    (hparams : SummarizationDistiller.hparams_t) (w w' : World)
    (self : SummarizationDistiller.self_t) :
  SummarizationDistiller.__init__ hparams w = Ok self w' ->
  let teacher := SummarizationDistiller.teacher self in
  let student := SummarizationDistiller.model self in
  let l2copy := LayerSelector.layers_to_copy (decoder_layers (config teacher)) in
  let path := SummarizationDistiller.hp_model_name_or_path hparams in
  trace w' = trace w ++ [EvConstruct (config teacher);
                         EvFromPretrained (SummarizationDistiller.hp_teacher hparams);
                         EvConstruct (config student);
                         EvInitStudent;
                         EvCopyDecoderLayers l2copy;
                         EvMkdir path;
                         EvSavePretrained path] /\
  occurs_before EvInitStudent (EvSavePretrained path) (trace w') /\
  occurs_before (EvCopyDecoderLayers l2copy) (EvSavePretrained path) (trace w') /\
  exists ws,
    storage w' !! path = Some {| ck_config := config student; ck_weights := ws |} /\
    weights_of (store w') student = Some ws.
Proof.
  intros Hrun. apply init_inversion in Hrun. cbn zeta in Hrun.
  destruct Hrun as (_ & _ & _ & _ & _ & Htrace & ws & Hstorage & Hws).
  cbn zeta. split; [exact Htrace|]. rewrite Htrace. split; [|split].
  - exists (length (trace w) + 3)%nat, (length (trace w) + 6)%nat.
    split; [lia|]. rewrite !lookup_app_r by lia.
    replace (length (trace w) + 3 - length (trace w))%nat with 3%nat by lia.
    replace (length (trace w) + 6 - length (trace w))%nat with 6%nat by lia.
    split; reflexivity.
  - exists (length (trace w) + 4)%nat, (length (trace w) + 6)%nat.
    split; [lia|]. rewrite !lookup_app_r by lia.
    replace (length (trace w) + 4 - length (trace w))%nat with 4%nat by lia.
    replace (length (trace w) + 6 - length (trace w))%nat with 6%nat by lia.
    split; reflexivity.
  - exists ws. split; [|exact Hws]. rewrite Hstorage. apply lookup_insert_eq.
Qed.

(** C8: the claim has the still-empty student saved before any teacher
    weight is copied into it, as the comment on line 210 has it ("Dump
    empty student model at a path, then call from_pretrained on it").  The
    code saves on line 224, after the copies of lines 221 and 222.  On a
    teacher of two decoder layers whose layer 0 holds 4.0, with a
    constructor that fills every tensor with 0.0, the initializer
    completes, the save is the last of its events and precedes neither
    copy, and the checkpoint under "student" holds the teacher's 4.0 in
    its decoder layer, not the constructor's 0.0. *)
Theorem student_is_saved_with_copied_weights :
  @SummarizationDistiller.__init__ (Toy.lib F32.one) (Toy.hparams F32.one F32.zero) Toy.world0
  = Ok (Toy.self1 F32.one F32.zero) Toy.world1 /\
  trace Toy.world1
  = [EvConstruct Toy.teacher_config; EvFromPretrained "teacher";
     EvConstruct (with_decoder_layers Toy.teacher_config 1);
     EvInitStudent; EvCopyDecoderLayers [0]; EvMkdir "student";
     EvSavePretrained "student"] /\
  occurs_before EvInitStudent (EvSavePretrained "student") (trace Toy.world1) /\
  occurs_before (EvCopyDecoderLayers [0]) (EvSavePretrained "student") (trace Toy.world1) /\
  ~ save_precedes_weight_copy "student"
      (LayerSelector.layers_to_copy (decoder_layers Toy.teacher_config))
      (trace Toy.world1) /\
  w_layers <$> (ck_weights <$> storage Toy.world1 !! "student"%string)
  = Some [[Toy.scalar Toy.four]] /\
  w_layers <$> (ck_weights <$> storage Toy.world0 !! "teacher"%string)
  = Some [[Toy.scalar Toy.four]; [Toy.scalar Toy.five]] /\
  @init_layer (Toy.lib F32.one) (with_decoder_layers Toy.teacher_config 1) 0
  = [Toy.scalar F32.zero].
Proof.
  split; [exact toy_init_result|]. split; [exact toy_trace|].
  rewrite toy_trace.
  split; [exists 3%nat, 6%nat; split; [lia | split; reflexivity]|].
  split; [exists 4%nat, 6%nat; split; [lia | split; reflexivity]|].
  split.
  - intros [(i & j & Hlt & Hi & Hj) _].
    do 7 (destruct i as [|i]; [try discriminate Hi|]); [|discriminate Hi].
    do 7 (destruct j as [|j]; [lia|]). discriminate Hj.
  - split; [|split]; vm_compute; reflexivity.
Qed.

(** ** The length of the selection *)

Lemma layers_to_copy_length (n : Z) :
  length (LayerSelector.layers_to_copy n)
  = if n / 2 =? 6 then 6%nat else Z.to_nat ((n + 1) / 2).
Proof.
  unfold LayerSelector.layers_to_copy, LayerSelector.student_decoder_layers, Py.floordiv.
  destruct (n / 2 =? 6); [reflexivity|].
  rewrite stride2_range. unfold LayerSelector.even_indices_below.
  rewrite length_map, length_seq. reflexivity.
Qed.

Lemma half_of_even (n : Z) : Z.even n = true -> (n + 1) / 2 = n / 2.
Proof.
  intros He. apply Z.even_spec in He. destruct He as [m ->].
  Z.to_euclidean_division_equations. lia.
Qed.

Lemma half_of_odd (n : Z) : Z.odd n = true -> (n + 1) / 2 = n / 2 + 1.
Proof.
  intros Ho. apply Z.odd_spec in Ho. destruct Ho as [m ->].
  Z.to_euclidean_division_equations. lia.
Qed.

(** For a depth that is not negative, the selection has as many entries as
    the student has layers exactly when the depth is even or is 13. *)
Lemma selection_matches_iff (n : Z) :
  0 <= n ->
  Z.of_nat (length (LayerSelector.layers_to_copy n)) = LayerSelector.student_decoder_layers n
  <-> Z.even n = true \/ n = 13.
Proof.
  intros Hn. rewrite layers_to_copy_length.
  unfold LayerSelector.student_decoder_layers, Py.floordiv.
  assert (Hhalf : 0 <= n / 2) by (apply Z.div_pos; lia).
  destruct (Z.eqb_spec (n / 2) 6) as [H6|H6].
  - rewrite H6. split; [intros _|reflexivity].
    destruct (Z.even n) eqn:He; [left; reflexivity|right].
    rewrite <- Z.negb_odd in He. apply negb_false_iff, Z.odd_spec in He.
    destruct He as [m ->]. Z.to_euclidean_division_equations. lia.
  - rewrite Z2Nat.id by (apply Z.div_pos; lia).
    destruct (Z.even n) eqn:He.
    + rewrite half_of_even by exact He. split; [auto|reflexivity].
    + rewrite <- Z.negb_odd in He. apply negb_false_iff in He.
      rewrite half_of_odd by exact He. split; [lia|].
      intros [Hf | ->]; [discriminate Hf|]. exfalso. apply H6. reflexivity.
Qed.

Lemma layers_to_copy_in_range (n : Z) :
  12 <= n -> Forall (fun i => 0 <= i < n) (LayerSelector.layers_to_copy n).
Proof.
  intros Hn. unfold LayerSelector.layers_to_copy.
  destruct (_ =? 6).
  - unfold LayerSelector.six_layer_indices. repeat constructor; lia.
  - rewrite stride2_range. unfold LayerSelector.even_indices_below.
    apply Forall_forall. intros i Hi. apply list_elem_of_In, in_map_iff in Hi.
    destruct Hi as (k & <- & Hk). apply in_seq in Hk.
    assert (Z.of_nat k < (n + 1) / 2) by lia.
    Z.to_euclidean_division_equations. lia.
Qed.

(** ** C9: the layer count after initialization *)

(** C9 (as the code has it): after a completed initialization the student
    has as many decoder layers as the layer-index list has entries; the
    assertion of the initializer enforces it: once the operations before it
    have succeeded, the initializer returns if the two lengths agree and
    raises an [AssertionError] if they do not.  The success branch is the
    only one that can be reached for a teacher depth that is even or 13;
    for the teacher depths 12 and 16 the list has [depth // 2] entries, all
    below the depth.  It is not the only one for every teacher that the
    initializer loads. *)
Theorem student_layer_count_postcondition `{BartLib}
    (hparams : SummarizationDistiller.hparams_t) (w : World) :
  (forall (self : SummarizationDistiller.self_t) (w' : World),
      SummarizationDistiller.__init__ hparams w = Ok self w' ->
      length (layers (decoder (SummarizationDistiller.model self)))
      = length (LayerSelector.layers_to_copy
                  (decoder_layers (config (SummarizationDistiller.teacher self))))) /\
  (forall (w1 w2 w3 w4 w5 : World) (teacher student student' : BartModel),
      let n := decoder_layers (config teacher) in
      let path := SummarizationDistiller.hp_model_name_or_path hparams in
      Bart.from_pretrained (SummarizationDistiller.hp_teacher hparams) w = Ok teacher w1 ->
      Bart.construct (with_decoder_layers (config teacher)
                        (LayerSelector.student_decoder_layers n)) w1 = Ok student w2 ->
      Bart.init_student student teacher w2 = Ok student' w3 ->
      Bart.copy_decoder_layers teacher student' (LayerSelector.layers_to_copy n) w3
      = Ok tt w4 ->
      Bart.save_pretrained student' path (add_events [EvMkdir path] w4) = Ok tt w5 ->
      (length (layers (decoder student')) = length (LayerSelector.layers_to_copy n) /\
       exists w', SummarizationDistiller.__init__ hparams w
                  = Ok (built_self hparams teacher student') w')
      \/ (length (layers (decoder student')) <> length (LayerSelector.layers_to_copy n) /\
          SummarizationDistiller.__init__ hparams w = Raise AssertionError w5)) /\
  (forall (w1 w2 w3 w4 w5 : World) (teacher student student' : BartModel),
      let n := decoder_layers (config teacher) in
      let path := SummarizationDistiller.hp_model_name_or_path hparams in
      0 <= n -> Z.even n = true \/ n = 13 ->
      Bart.from_pretrained (SummarizationDistiller.hp_teacher hparams) w = Ok teacher w1 ->
      Bart.construct (with_decoder_layers (config teacher)
                        (LayerSelector.student_decoder_layers n)) w1 = Ok student w2 ->
      Bart.init_student student teacher w2 = Ok student' w3 ->
      Bart.copy_decoder_layers teacher student' (LayerSelector.layers_to_copy n) w3
      = Ok tt w4 ->
      Bart.save_pretrained student' path (add_events [EvMkdir path] w4) = Ok tt w5 ->
      exists w', SummarizationDistiller.__init__ hparams w
                 = Ok (built_self hparams teacher student') w') /\
  (forall n : Z, n = 12 \/ n = 16 ->
      Z.of_nat (length (LayerSelector.layers_to_copy n)) = n / 2 /\
      Forall (fun i => 0 <= i < n) (LayerSelector.layers_to_copy n)).
Proof.
  split; [|split; [|split]].
  - intros self w' Hrun. apply init_inversion in Hrun. cbn zeta in Hrun.
    destruct Hrun as (_ & _ & _ & _ & Hassert & _). exact Hassert.
  - intros w1 w2 w3 w4 w5 teacher student student' n path H1 H2 H3 H4 H5.
    rewrite (init_run hparams w w1 w2 w3 w4 w5 teacher student student' H1 H2 H3 H4 H5).
    fold n. case_decide as Hlen; [left|right]; split; eauto.
  - intros w1 w2 w3 w4 w5 teacher student student' n path Hn Heven H1 H2 H3 H4 H5.
    rewrite (init_run hparams w w1 w2 w3 w4 w5 teacher student student' H1 H2 H3 H4 H5).
    fold n. rewrite decide_True; [eauto|].
    apply init_student_Ok in H3. destruct H3 as (-> & _).
    apply construct_Ok in H2. destruct H2 as (_ & Hls & _).
    cbn [with_decoder_layers decoder_layers] in Hls. rewrite Hls.
    apply (selection_matches_iff n Hn) in Heven. fold n in Heven.
    rewrite <- Heven. rewrite Nat2Z.id. reflexivity.
  - intros n [-> | ->]; split; try reflexivity; apply layers_to_copy_in_range; lia.
Qed.

Lemma student_layer_count_postcondition_witness :
  @SummarizationDistiller.__init__ (Toy.lib F32.one) (Toy.hparams F32.one F32.zero) Toy.world0
  = Ok (Toy.self1 F32.one F32.zero) Toy.world1 /\
  length (layers (decoder Toy.student_model))
  = length (LayerSelector.layers_to_copy (decoder_layers Toy.teacher_config)) /\
  Z.of_nat (length (LayerSelector.layers_to_copy 12)) = 12 / 2.
Proof.
  destruct (@student_layer_count_postcondition (Toy.lib F32.one)
              (Toy.hparams F32.one F32.zero) Toy.world0) as (Hpost & _ & Hspec).
  split; [exact toy_init_result|]. split.
  - exact (Hpost _ _ toy_init_result).
  - apply Hspec. left. reflexivity.
Defined.

(** C9, counterexample: the initializer loads a teacher of three decoder
    layers, builds, fills and saves a student of one layer, and then fails
    its assertion, the selection [[0, 2]] having two entries: the failure
    branch is reached for a teacher the initializer has accepted. *)
Lemma assertion_failure_is_reachable :
  ~ (forall (L : BartLib) (hparams : SummarizationDistiller.hparams_t) (w w1 : World)
       (teacher : BartModel),
       Bart.from_pretrained (SummarizationDistiller.hp_teacher hparams) w = Ok teacher w1 ->
       forall w', SummarizationDistiller.__init__ hparams w <> Raise AssertionError w').
Proof.
  intros Hclaim.
  apply (Hclaim (Toy.lib F32.one) (Toy.hparams F32.one F32.zero) Toy.odd_world0 Toy.odd_w1
           Toy.odd_teacher_model) with (w' := Toy.odd_w5); vm_compute; reflexivity.
Qed.

(** ** C10: odd teacher depths *)

(** C10 (as the code has it): for an odd teacher depth [n] with
    [n // 2 <> 6] the stride-2 selection has [n // 2 + 1] entries while the
    student is configured with [n // 2] decoder layers, and once the
    operations before it have succeeded the assertion of the initializer
    fails; the selection has as many entries as the student has layers
    exactly when [n] is even or [n = 13]. *)
Theorem odd_depth_fails_the_assertion `{BartLib} :
  (forall n : Z, 0 <= n -> Z.odd n = true -> n / 2 <> 6 ->
      LayerSelector.student_decoder_layers n = n / 2 /\
      Z.of_nat (length (LayerSelector.layers_to_copy n)) = n / 2 + 1) /\
  (forall (hparams : SummarizationDistiller.hparams_t) (w w1 w2 w3 w4 w5 : World)
      (teacher student student' : BartModel),
      let n := decoder_layers (config teacher) in
      let path := SummarizationDistiller.hp_model_name_or_path hparams in
      0 <= n -> Z.odd n = true -> n / 2 <> 6 ->
      Bart.from_pretrained (SummarizationDistiller.hp_teacher hparams) w = Ok teacher w1 ->
      Bart.construct (with_decoder_layers (config teacher)
                        (LayerSelector.student_decoder_layers n)) w1 = Ok student w2 ->
      Bart.init_student student teacher w2 = Ok student' w3 ->
      Bart.copy_decoder_layers teacher student' (LayerSelector.layers_to_copy n) w3
      = Ok tt w4 ->
      Bart.save_pretrained student' path (add_events [EvMkdir path] w4) = Ok tt w5 ->
      length (LayerSelector.layers_to_copy n) = S (length (layers (decoder student'))) /\
      SummarizationDistiller.__init__ hparams w = Raise AssertionError w5) /\
  (forall n : Z, 0 <= n ->
      Z.of_nat (length (LayerSelector.layers_to_copy n))
      = LayerSelector.student_decoder_layers n
      <-> Z.even n = true \/ n = 13).
Proof.
  assert (Hodd : forall n : Z, 0 <= n -> Z.odd n = true -> n / 2 <> 6 ->
                 LayerSelector.student_decoder_layers n = n / 2 /\
                 Z.of_nat (length (LayerSelector.layers_to_copy n)) = n / 2 + 1).
  { intros n Hn Ho H6. split; [reflexivity|].
    rewrite layers_to_copy_length. apply Z.eqb_neq in H6. rewrite H6.
    rewrite half_of_odd by exact Ho.
    assert (0 <= n / 2) by (apply Z.div_pos; lia). lia. }
  split; [exact Hodd|]. split; [|exact selection_matches_iff].
  intros hparams w w1 w2 w3 w4 w5 teacher student student' n path Hn Ho H6 H1 H2 H3 H4 H5.
  destruct (Hodd n Hn Ho H6) as [_ Hlen].
  assert (Hstudent : length (layers (decoder student')) = Z.to_nat (n / 2)).
  { apply init_student_Ok in H3. destruct H3 as (-> & _).
    apply construct_Ok in H2. destruct H2 as (_ & Hls & _).
    exact Hls. }
  assert (0 <= n / 2) by (apply Z.div_pos; lia).
  assert (Hsucc : length (LayerSelector.layers_to_copy n)
                  = S (length (layers (decoder student')))) by lia.
  split; [exact Hsucc|].
  rewrite (init_run hparams w w1 w2 w3 w4 w5 teacher student student' H1 H2 H3 H4 H5).
  fold n. rewrite decide_False by lia. reflexivity.
Qed.

Lemma odd_depth_fails_the_assertion_witness :
  @SummarizationDistiller.__init__ (Toy.lib F32.one) (Toy.hparams F32.one F32.zero)
    Toy.odd_world0
  = Raise AssertionError Toy.odd_w5 /\
  Z.of_nat (length (LayerSelector.layers_to_copy 3)) = 3 / 2 + 1 /\
  (Z.of_nat (length (LayerSelector.layers_to_copy 13)) = LayerSelector.student_decoder_layers 13
   <-> Z.even 13 = true \/ 13 = 13).
Proof.
  destruct (@odd_depth_fails_the_assertion (Toy.lib F32.one)) as (Hlen & Hfail & Hiff).
  split; [|split].
  - apply (Hfail (Toy.hparams F32.one F32.zero) Toy.odd_world0 Toy.odd_w1 Toy.odd_w2
             Toy.odd_w3 Toy.odd_w4 Toy.odd_w5
             Toy.odd_teacher_model Toy.odd_student_model Toy.odd_student_model);
      try (vm_compute; reflexivity); try discriminate.
  - apply (Hlen 3); [lia | reflexivity | discriminate].
  - apply (Hiff 13). lia.
Defined.

(** C10, counterexample: a teacher of 13 decoder layers is odd, and its
    selection [[0, 2, 4, 7, 9, 11]] has the six entries of the student's
    depth [13 // 2]. *)
Lemma thirteen_layers_match :
  ~ (forall n : Z, 0 <= n ->
       Z.of_nat (length (LayerSelector.layers_to_copy n))
       = LayerSelector.student_decoder_layers n
       <-> Z.even n = true).
Proof.
  intros Hclaim. destruct (Hclaim 13) as [Hmatch _]; [lia|].
  discriminate (Hmatch eq_refl).
Qed.

(** ** Allocation and the flags of the parameters *)

Lemma alloc_allocated (ts : list (tensor F32.float)) (w w' : World) (ids : list positive) :
  for_each alloc ts w = Ok ids w' -> allocated w w' ids.
Proof.
  revert w w' ids. induction ts as [|t ts IH]; intros w w' ids Hrun; cbn [for_each] in Hrun.
  - apply ret_Ok in Hrun. destruct Hrun as [-> ->]. unfold allocated.
    split; [lia|]. split; [constructor|]. split; [intros id Hin; inversion Hin | reflexivity].
  - inv_run Hrun. apply ret_Ok in Hrun. destruct Hrun as [-> ->].
    unfold alloc in Hrun0. injection Hrun0 as <- <-.
    apply IH in Hrun1. destruct Hrun1 as (Hle & Hrange & Hnew & Hold).
    cbn [next_id store] in *. unfold allocated.
    split; [|split; [|split]].
    + lia.
    + constructor; [lia|]. eapply Forall_impl; [exact Hrange|]. cbn. intros; lia.
    + intros id Hin. apply elem_of_cons in Hin. destruct Hin as [->|Hin]; [|auto].
      rewrite Hold by lia. rewrite lookup_insert_eq. reflexivity.
    + intros id Hid. rewrite Hold by lia. apply lookup_insert_ne. lia.
Qed.

Lemma alloc_layers_allocated (tss : list (list (tensor F32.float))) (w w' : World)
    (idss : list (list positive)) :
  for_each (for_each alloc) tss w = Ok idss w' -> allocated w w' (concat idss).
Proof.
  revert w w' idss. induction tss as [|ts tss IH]; intros w w' idss Hrun;
    cbn [for_each] in Hrun.
  - apply ret_Ok in Hrun. destruct Hrun as [-> ->]. unfold allocated. cbn [concat].
    split; [lia|]. split; [constructor|]. split; [intros id Hin; inversion Hin | reflexivity].
  - inv_run Hrun. apply ret_Ok in Hrun. destruct Hrun as [-> ->].
    apply alloc_allocated in Hrun0. destruct Hrun0 as (Hle0 & Hrange0 & Hnew0 & Hold0).
    apply IH in Hrun1. destruct Hrun1 as (Hle & Hrange & Hnew & Hold).
    cbn [concat]. unfold allocated. split; [|split; [|split]].
    + lia.
    + apply Forall_app. split; (eapply Forall_impl; [eassumption|]); cbn; intros; lia.
    + intros id Hin. apply elem_of_app in Hin. destruct Hin as [Hin|Hin]; [|auto].
      rewrite Hold; [auto|]. rewrite Forall_forall in Hrange0. apply Hrange0 in Hin. lia.
    + intros id Hid. rewrite Hold by lia. apply Hold0, Hid.
Qed.

Lemma for_each_map {A B C : Type} (f : A -> B) (body : B -> M C) (l : list A) :
  for_each (fun x => body (f x)) l = for_each body (map f l).
Proof. induction l as [|x l IH]; cbn [for_each map]; [reflexivity|]. rewrite IH. reflexivity. Qed.

Lemma Forall_range_weaken (lo lo' hi hi' : positive) (ids : list positive) :
  (lo' <= lo)%positive -> (hi <= hi')%positive ->
  Forall (fun id => (lo <= id < hi)%positive) ids ->
  Forall (fun id => (lo' <= id < hi')%positive) ids.
Proof.
  intros Hlo Hhi Hrange. eapply Forall_impl; [exact Hrange|]. cbn. intros id. lia.
Qed.

Lemma not_elem_of_range (lo hi id : positive) (ids : list positive) :
  Forall (fun x => (lo <= x < hi)%positive) ids ->
  (id < lo)%positive \/ (hi <= id)%positive -> id ∉ ids.
Proof.
  intros Hrange Hid Hin. rewrite Forall_forall in Hrange. apply Hrange in Hin. lia.
Qed.

(** The constructor allocates every parameter of the model; the parameters
    of the decoder layers are trainable and belong to no other module. *)
Lemma construct_allocated `{BartLib} (cfg : BartConfig) (w w' : World) (m : BartModel) :
  Bart.construct cfg w = Ok m w' ->
  (next_id w <= next_id w')%positive /\
  Forall (fun id => (next_id w <= id < next_id w')%positive) (parameters m) /\
  (forall id, (id < next_id w)%positive -> store w' !! id = store w !! id) /\
  (forall id, id ∈ concat (layers (decoder m)) ->
      requires_grad <$> store w' !! id = Some true /\
      (id ∉ shared m) /\ (id ∉ encoder m) /\
      (id ∉ embed_positions (decoder m)) /\ (id ∉ embed_tokens (decoder m))).
Proof.
  unfold Bart.construct. intros Hrun. inv_run Hrun.
  apply ret_Ok in Hrun. destruct Hrun as [-> ->].
  apply emit_Ok in Hrun0. subst w0.
  rewrite for_each_map in Hrun4.
  apply alloc_allocated in Hrun1, Hrun2, Hrun3, Hrun5.
  apply alloc_layers_allocated in Hrun4.
  destruct Hrun1 as (Hle1 & Hr1 & Hn1 & Ho1), Hrun2 as (Hle2 & Hr2 & Hn2 & Ho2),
    Hrun3 as (Hle3 & Hr3 & Hn3 & Ho3), Hrun4 as (Hle4 & Hr4 & Hn4 & Ho4),
    Hrun5 as (Hle5 & Hr5 & Hn5 & Ho5).
  cbn [add_events next_id store] in *.
  unfold parameters, decoder_parameters. cbn [shared encoder decoder embed_positions
    embed_tokens layers decoder_other].
  split; [lia|]. split; [|split].
  - rewrite !Forall_app. repeat split;
      (eapply Forall_range_weaken; [| |eassumption]; lia).
  - intros id Hid. rewrite Ho5, Ho4, Ho3, Ho2, Ho1 by lia. reflexivity.
  - intros id Hin.
    assert (Hid : (next_id w3 <= id < next_id w4)%positive).
    { rewrite Forall_forall in Hr4. apply Hr4, Hin. }
    split; [rewrite Ho5 by lia; apply Hn4, Hin|].
    rewrite !not_elem_of_app.
    repeat split; (eapply not_elem_of_range; [eassumption|lia]).
Qed.

Lemma read_only_keeps_flags {A : Type} (m : M A) : read_only m -> keeps_flags m.
Proof. intros Hm w. rewrite (Hm w). auto. Qed.

Lemma keeps_flags_bind {A B : Type} (m : M A) (k : A -> M B) :
  keeps_flags m -> (forall a, keeps_flags (k a)) -> keeps_flags (m ≫= k).
Proof.
  intros Hm Hk w. unfold mbind, M_bind. specialize (Hm w).
  destruct (m w) as [a w1|e w1]; cbn [world_of] in *; [|exact Hm].
  destruct Hm as (Hn & Hf), (Hk a w1) as (Hn' & Hf').
  split; [congruence|]. intros id. rewrite Hf', Hf. reflexivity.
Qed.

Lemma keeps_flags_for_each {A B : Type} (body : A -> M B) (l : list A) :
  (forall x, keeps_flags (body x)) -> keeps_flags (for_each body l).
Proof.
  intros Hbody. induction l as [|x l IH]; cbn [for_each].
  - apply read_only_keeps_flags, read_only_ret.
  - apply keeps_flags_bind; [apply Hbody|]. intros y.
    apply keeps_flags_bind; [exact IH|]. intros ys.
    apply read_only_keeps_flags, read_only_ret.
Qed.

Lemma keeps_flags_emit (e : Event) : keeps_flags (emit e).
Proof. intros w. cbn. auto. Qed.

Lemma keeps_flags_load_param (id : positive) (v : tensor F32.float) :
  keeps_flags (Bart.load_param id v).
Proof.
  intros w. unfold Bart.load_param, mbind, M_bind, get_world.
  destruct (store w !! id) as [p|] eqn:Hp; cbn [from_option mret M_ret raise world_of];
    [|auto].
  case_decide; cbn [modify_store raise world_of with_store next_id store]; [|auto].
  split; [reflexivity|]. intros id'. rewrite lookup_insert. case_decide; [|reflexivity].
  subst id'. rewrite Hp. reflexivity.
Qed.

Lemma keeps_flags_load_module (vs : list (tensor F32.float)) (m : module) :
  keeps_flags (Bart.load_module vs m).
Proof.
  revert m. induction vs as [|v vs IH]; intros [|id m]; cbn [Bart.load_module];
    try (apply read_only_keeps_flags; first [apply read_only_ret | apply read_only_raise]).
  apply keeps_flags_bind; [apply keeps_flags_load_param|]. intros _. apply IH.
Qed.

Lemma keeps_flags_copy_module (src dst : module) :
  keeps_flags (Bart.copy_module src dst).
Proof.
  unfold Bart.copy_module.
  apply keeps_flags_bind; [apply read_only_keeps_flags, read_only_read_values|].
  intros vs. apply keeps_flags_load_module.
Qed.

Lemma keeps_flags_load_layers (vss : list (list (tensor F32.float))) (ls : list module) :
  keeps_flags (Bart.load_layers vss ls).
Proof.
  revert ls. induction vss as [|vs vss IH]; intros [|l ls]; cbn [Bart.load_layers];
    try (apply read_only_keeps_flags; first [apply read_only_ret | apply read_only_raise]).
  apply keeps_flags_bind; [apply keeps_flags_load_module|]. intros _. apply IH.
Qed.

Lemma keeps_flags_load_state_dict (ws : Weights) (m : BartModel) :
  keeps_flags (Bart.load_state_dict ws m).
Proof.
  unfold Bart.load_state_dict.
  repeat (apply keeps_flags_bind;
          [first [apply keeps_flags_load_module | apply keeps_flags_load_layers] | intros _]).
  apply keeps_flags_load_module.
Qed.

Lemma keeps_flags_init_student (student teacher : BartModel) :
  keeps_flags (Bart.init_student student teacher).
Proof.
  unfold Bart.init_student.
  apply keeps_flags_bind; [apply keeps_flags_emit|]. intros _.
  repeat (apply keeps_flags_bind; [apply keeps_flags_copy_module | intros _]).
  apply read_only_keeps_flags, read_only_ret.
Qed.

Lemma keeps_flags_copy_decoder_layers (teacher student : BartModel) (l2copy : list Z) :
  keeps_flags (Bart.copy_decoder_layers teacher student l2copy).
Proof.
  unfold Bart.copy_decoder_layers.
  apply keeps_flags_bind; [apply keeps_flags_emit|]. intros _.
  apply keeps_flags_bind; [|intros _; apply read_only_keeps_flags, read_only_ret].
  apply keeps_flags_for_each. intros [i student_layer].
  apply keeps_flags_bind; [apply read_only_keeps_flags, read_only_from_option|]. intros idx.
  apply keeps_flags_bind; [apply read_only_keeps_flags, read_only_from_option|]. intros tl.
  apply keeps_flags_copy_module.
Qed.

Lemma keeps_flags_Ok {A : Type} (m : M A) (w w' : World) (a : A) :
  keeps_flags m -> m w = Ok a w' ->
  next_id w' = next_id w /\
  forall id, requires_grad <$> store w' !! id = requires_grad <$> store w !! id.
Proof. intros Hm Hrun. specialize (Hm w). rewrite Hrun in Hm. exact Hm. Qed.

Lemma from_pretrained_allocated `{BartLib} (path : string) (w w' : World) (m : BartModel) :
  Bart.from_pretrained path w = Ok m w' ->
  Forall (fun id => (id < next_id w')%positive) (parameters m).
Proof.
  unfold Bart.from_pretrained. intros Hrun. inv_run Hrun.
  apply ret_Ok in Hrun. destruct Hrun as [-> ->].
  injection Hrun0 as <- <-.
  apply from_option_Ok in Hrun1. destruct Hrun1 as [_ ->].
  apply construct_allocated in Hrun2. destruct Hrun2 as (_ & Hrange & _).
  apply (keeps_flags_Ok _ _ _ _ (keeps_flags_load_state_dict _ _)) in Hrun3.
  destruct Hrun3 as [Hnext _].
  apply emit_Ok in Hrun4. subst w4. cbn [add_events next_id]. rewrite Hnext.
  eapply Forall_impl; [exact Hrange|]. cbn. intros id. lia.
Qed.

(** After a completed initialization the parameters of the student's
    decoder layers are trainable and are none of the frozen ones. *)
Lemma init_decoder_layers_trainable `{BartLib} (hparams : SummarizationDistiller.hparams_t)
    (w w' : World) (self : SummarizationDistiller.self_t) (id : positive) :
  SummarizationDistiller.__init__ hparams w = Ok self w' ->
  id ∈ concat (layers (decoder (SummarizationDistiller.model self))) ->
  (id ∉ SummarizationDistiller.frozen_parameters self) /\
  requires_grad <$> store w' !! id = Some true.
Proof.
  unfold SummarizationDistiller.__init__. intros Hrun Hin. inv_run Hrun.
  apply ret_Ok in Hrun. destruct Hrun as [-> ->].
  cbn [SummarizationDistiller.model] in Hin.
  apply from_pretrained_allocated in Hrun0.
  apply init_student_Ok in Hrun2 as Hsame. destruct Hsame as (-> & _).
  apply construct_allocated in Hrun1. destruct Hrun1 as (_ & Hrange & _ & Hlayers).
  destruct (Hlayers id Hin) as (Hflag & Hsh & Henc & Hpos & Htok).
  assert (Hid : (next_id w0 <= id)%positive).
  { rewrite Forall_forall in Hrange. apply Hrange.
    unfold parameters, decoder_parameters. rewrite !elem_of_app. auto 10. }
  apply (keeps_flags_Ok _ _ _ _ (keeps_flags_init_student _ _)) in Hrun2.
  apply (keeps_flags_Ok _ _ _ _ (keeps_flags_copy_decoder_layers _ _ _)) in Hrun3.
  apply emit_Ok in Hrun4. subst w4.
  apply save_pretrained_Ok in Hrun5. destruct Hrun5 as (ws & _ & Hst5 & _).
  case_decide as Hassert; [|discriminate Hrun6].
  apply ret_Ok in Hrun6. destruct Hrun6 as [_ ->].
  rewrite freeze_stuff_run in Hrun7. injection Hrun7 as _ <-.
  destruct Hrun2 as [_ Hf2], Hrun3 as [_ Hf3].
  assert (Hnot : id ∉ SummarizationDistiller.frozen_parameters
                        {| SummarizationDistiller.model := a0;
                           SummarizationDistiller.teacher := a;
                           SummarizationDistiller.pad_token_id := tokenizer_pad_token_id;
                           SummarizationDistiller.temperature := F32.two;
                           SummarizationDistiller.alpha_mlm :=
                             SummarizationDistiller.hp_alpha_mlm hparams;
                           SummarizationDistiller.alpha_ce :=
                             SummarizationDistiller.hp_alpha_ce hparams |}).
  { unfold SummarizationDistiller.frozen_parameters.
    cbn [SummarizationDistiller.model SummarizationDistiller.teacher].
    rewrite !not_elem_of_app. repeat split; try assumption.
    intros Hteacher. rewrite Forall_forall in Hrun0. apply Hrun0 in Hteacher. lia. }
  split; [exact Hnot|].
  cbn [with_store store]. rewrite freeze_store_not_elem by exact Hnot.
  rewrite Hst5. cbn [add_events store]. rewrite Hf3, Hf2. exact Hflag.
Qed.

Lemma init_store_frozen `{BartLib} (hparams : SummarizationDistiller.hparams_t)
    (w w' : World) (self : SummarizationDistiller.self_t) :
  SummarizationDistiller.__init__ hparams w = Ok self w' ->
  exists st, store w' = freeze_store (SummarizationDistiller.frozen_parameters self) st.
Proof.
  unfold SummarizationDistiller.__init__. intros Hrun. inv_run Hrun.
  apply ret_Ok in Hrun. destruct Hrun as [-> ->].
  rewrite freeze_stuff_run in Hrun7. injection Hrun7 as _ <-.
  eexists. reflexivity.
Qed.

(** ** C5: the freeze policy *)

(** C5: after the freeze policy every parameter of the teacher, of the
    student encoder, of the student's shared embedding table and of the
    positional and token embeddings of the student decoder has
    [requires_grad] false (its value is kept), and every other parameter is
    left as it was.  In the distiller that the initializer builds, the
    parameters of the student's decoder layers are none of the frozen ones
    and remain trainable. *)
Theorem freeze_policy `{BartLib} :
  (forall (self : SummarizationDistiller.self_t) (w : World),
    exists w',
      SummarizationDistiller.freeze_stuff self w = Ok tt w' /\
      (forall id : positive,
          id ∈ parameters (SummarizationDistiller.teacher self)
          \/ id ∈ encoder (SummarizationDistiller.model self)
          \/ id ∈ shared (SummarizationDistiller.model self)
          \/ id ∈ embed_positions (decoder (SummarizationDistiller.model self))
          \/ id ∈ embed_tokens (decoder (SummarizationDistiller.model self)) ->
          store w' !! id = set_requires_grad false <$> store w !! id /\
          forall p, store w' !! id = Some p -> requires_grad p = false) /\
      (forall id : positive,
          id ∉ SummarizationDistiller.frozen_parameters self ->
          store w' !! id = store w !! id)) /\
  (forall (hparams : SummarizationDistiller.hparams_t) (w w' : World)
      (self : SummarizationDistiller.self_t),
      SummarizationDistiller.__init__ hparams w = Ok self w' ->
      (forall (id : positive) (p : Param),
          id ∈ parameters (SummarizationDistiller.teacher self)
          \/ id ∈ encoder (SummarizationDistiller.model self)
          \/ id ∈ shared (SummarizationDistiller.model self)
          \/ id ∈ embed_positions (decoder (SummarizationDistiller.model self))
          \/ id ∈ embed_tokens (decoder (SummarizationDistiller.model self)) ->
          store w' !! id = Some p -> requires_grad p = false) /\
      (forall (layer : module) (id : positive),
          layer ∈ layers (decoder (SummarizationDistiller.model self)) ->
          id ∈ layer ->
          (id ∉ SummarizationDistiller.frozen_parameters self) /\
          requires_grad <$> store w' !! id = Some true)).
Proof.
  assert (Hfrozen : forall (self : SummarizationDistiller.self_t) (id : positive),
             id ∈ parameters (SummarizationDistiller.teacher self)
             \/ id ∈ encoder (SummarizationDistiller.model self)
             \/ id ∈ shared (SummarizationDistiller.model self)
             \/ id ∈ embed_positions (decoder (SummarizationDistiller.model self))
             \/ id ∈ embed_tokens (decoder (SummarizationDistiller.model self)) ->
             id ∈ SummarizationDistiller.frozen_parameters self).
  { intros self id Hid. unfold SummarizationDistiller.frozen_parameters.
    rewrite !elem_of_app. tauto. }
  split.
  - intros self w. eexists. split; [apply freeze_stuff_run|]. cbn [with_store store].
    split.
    + intros id Hid. apply Hfrozen in Hid.
      rewrite freeze_store_elem by exact Hid. split; [reflexivity|].
      intros p Hp. destruct (store w !! id) as [q|]; [|discriminate Hp].
      cbn in Hp. injection Hp as <-. reflexivity.
    + intros id Hid. apply freeze_store_not_elem, Hid.
  - intros hparams w w' self Hrun. split.
    + intros id p Hid Hp. apply Hfrozen in Hid.
      destruct (init_store_frozen hparams w w' self Hrun) as [st Hst].
      rewrite Hst, freeze_store_elem in Hp by exact Hid.
      destruct (st !! id) as [q|]; [|discriminate Hp].
      cbn in Hp. injection Hp as <-. reflexivity.
    + intros layer id Hlayer Hid.
      apply (init_decoder_layers_trainable hparams w w' self id Hrun).
      apply list_elem_of_In, in_concat. exists layer.
      split; apply list_elem_of_In; assumption.
Qed.

Lemma freeze_policy_witness :
  @SummarizationDistiller.__init__ (Toy.lib F32.one) (Toy.hparams F32.one F32.zero) Toy.world0
  = Ok (Toy.self1 F32.one F32.zero) Toy.world1 /\
  requires_grad <$> store Toy.world1 !! 10%positive = Some true /\
  (forall p, store Toy.world1 !! 4%positive = Some p -> requires_grad p = false) /\
  exists w',
    SummarizationDistiller.freeze_stuff (Toy.self1 F32.one F32.zero) Toy.world_unfrozen
    = Ok tt w' /\
    requires_grad <$> store Toy.world_unfrozen !! 7%positive = Some true /\
    requires_grad <$> store w' !! 7%positive = Some false /\
    store w' !! 10%positive = store Toy.world_unfrozen !! 10%positive.
Proof.
  destruct (@freeze_policy (Toy.lib F32.one)) as [Hpolicy Hinit].
  destruct (Hinit _ _ _ _ toy_init_result) as [Hfrozen Hlayers].
  split; [exact toy_init_result|]. split; [|split].
  - apply (Hlayers [10%positive] 10%positive);
      apply (bool_decide_unpack _); vm_compute; exact I.
  - intros p. apply Hfrozen. left. apply (bool_decide_unpack _). vm_compute. exact I.
  - destruct (Hpolicy (Toy.self1 F32.one F32.zero) Toy.world_unfrozen)
      as (w' & Hrun & Hset & Hother).
    exists w'. split; [exact Hrun|]. split; [vm_compute; reflexivity|]. split.
    + destruct (Hset 7%positive) as [-> _]; [|vm_compute; reflexivity].
      right; right; left. apply (bool_decide_unpack _). vm_compute. exact I.
    + apply Hother. apply (bool_decide_unpack _). vm_compute. exact I.
Defined.

(* ===================================================================== *)
(** * Further properties of the code                                     *)
(* ===================================================================== *)

(** ** The selected indices *)

Lemma even_indices_nth (n : Z) (i : nat) (a : Z) :
  nth_error (LayerSelector.even_indices_below n) i = Some a ->
  a = 2 * Z.of_nat i /\ 2 * Z.of_nat i < n.
Proof.
  unfold LayerSelector.even_indices_below. rewrite nth_error_map.
  destruct (nth_error (seq 0 _) i) as [k|] eqn:Hk; [|discriminate].
  cbn [option_map]. intros Ha. injection Ha as <-.
  apply nth_error_In in Hk as Hin. apply in_seq in Hin.
  assert (k = i).
  { assert (Hi : (i < length (seq 0 (Z.to_nat ((n + 1) / 2))))%nat)
      by (apply nth_error_Some; congruence).
    rewrite length_seq in Hi.
    rewrite (nth_error_nth' _ 0%nat) in Hk by (rewrite length_seq; exact Hi).
    rewrite seq_nth in Hk by exact Hi. injection Hk as <-. reflexivity. }
  subst k. split; [reflexivity|].
  assert (Z.of_nat i < (n + 1) / 2) by lia.
  Z.to_euclidean_division_equations. lia.
Qed.

(** X1: whatever the teacher depth, the indices chosen for copying are not
    negative, lie below the depth and are strictly increasing, so that no
    layer outside the teacher is asked for and none is taken twice. *)
Theorem layers_to_copy_increasing_in_range (n : Z) :
  Forall (fun i => 0 <= i < n) (LayerSelector.layers_to_copy n) /\
  (forall (i j : nat) (a b : Z),
      (i < j)%nat ->
      nth_error (LayerSelector.layers_to_copy n) i = Some a ->
      nth_error (LayerSelector.layers_to_copy n) j = Some b ->
      a < b).
Proof.
  unfold LayerSelector.layers_to_copy, LayerSelector.student_decoder_layers, Py.floordiv.
  destruct (Z.eqb_spec (n / 2) 6) as [H6|H6].
  - assert (Hn : 12 <= n) by (Z.to_euclidean_division_equations; lia).
    unfold LayerSelector.six_layer_indices. split.
    + repeat constructor; lia.
    + intros i j a b Hij Ha Hb.
      do 6 (destruct i as [|i]; [injection Ha as <-;
            do 6 (destruct j as [|j]; [first [lia | injection Hb as <-; lia]|]);
            destruct j; discriminate Hb|]).
      destruct i; discriminate Ha.
  - rewrite stride2_range. split.
    + apply Forall_forall. intros a Ha. apply list_elem_of_In, In_nth_error in Ha.
      destruct Ha as [i Hi]. apply even_indices_nth in Hi. lia.
    + intros i j a b Hij Ha Hb.
      apply even_indices_nth in Ha, Hb. lia.
Qed.

(** ** Labels and the padding token *)

(** X2: unless the padding token is itself [-100], no label equals the
    padding token; a label is [-100] exactly where the target it comes from
    is the padding token or is already [-100], and every other label is
    the target token unchanged. *)
Theorem labels_hold_no_padding_token (pad : Z) (y : Labels.ids) (i j : nat)
    (lab : list Z) (tok : Z) :
  pad <> Labels.ignore_index ->
  nth_error (Labels.lm_labels pad y) i = Some lab ->
  nth_error lab j = Some tok ->
  tok <> pad /\
  exists row target,
    nth_error y i = Some row /\ nth_error row (S j) = Some target /\
    (tok = Labels.ignore_index <-> target = pad \/ target = Labels.ignore_index) /\
    (target <> pad -> tok = target).
Proof.
  intros Hpad Hlab Htok. unfold Labels.lm_labels in Hlab.
  rewrite !nth_error_map in Hlab.
  destruct (nth_error y i) as [row|] eqn:Hrow; [|discriminate Hlab].
  cbn [option_map] in Hlab. injection Hlab as <-.
  unfold Labels.fill_ignore in Htok.
  rewrite nth_error_map, nth_error_drop_first in Htok.
  destruct (nth_error row (S j)) as [target|] eqn:Htarget; [|discriminate Htok].
  cbn [option_map] in Htok. injection Htok as <-.
  destruct (Z.eqb_spec target pad) as [->|Hne].
  - split; [congruence|]. exists row, pad.
    split; [reflexivity|]. split; [exact Htarget|]. split.
    + split; [intros _; left; reflexivity | reflexivity].
    + intros Hne. contradiction.
  - split; [exact Hne|]. exists row, target.
    split; [reflexivity|]. split; [exact Htarget|]. split.
    + split; [intros Heq; right; exact Heq|].
      intros [Heq|Heq]; [contradiction | exact Heq].
    + intros _. reflexivity.
Qed.

Lemma labels_hold_no_padding_token_witness :
  1 <> Labels.ignore_index /\
  nth_error (Labels.lm_labels 1 [[0; 5; 2; 1]]) 0 = Some [5; 2; -100] /\
  nth_error [5; 2; -100] 2 = Some (-100) /\
  -100 <> 1.
Proof.
  assert (Hpad : 1 <> Labels.ignore_index) by discriminate.
  split; [exact Hpad|]. split; [reflexivity|]. split; [reflexivity|].
  exact (proj1 (labels_hold_no_padding_token 1 [[0; 5; 2; 1]] 0 2 [5; 2; -100] (-100)
                  Hpad eq_refl eq_refl)).
Defined.

(** ** Freezing *)

Lemma set_requires_grad_false_idemp (p : Param) :
  set_requires_grad false (set_requires_grad false p) = set_requires_grad false p.
Proof. reflexivity. Qed.

Lemma freeze_store_lookup (m : module) (st : gmap positive Param) (id : positive) :
  freeze_store m st !! id
  = if decide (id ∈ m) then set_requires_grad false <$> st !! id else st !! id.
Proof.
  case_decide; [apply freeze_store_elem | apply freeze_store_not_elem]; assumption.
Qed.

(** X3: [freeze_part] only ever switches gradients off.  It keeps the set
    of parameters and every value, a parameter that is trainable afterwards
    was trainable before and is not one of the module, and freezing a
    module a second time changes nothing. *)
Theorem freeze_part_only_switches_off (m : module) (w : World) :
  exists w',
    freeze_part m w = Ok tt w' /\
    (forall id, is_Some (store w' !! id) <-> is_Some (store w !! id)) /\
    (forall id, value <$> store w' !! id = value <$> store w !! id) /\
    (forall id p', store w' !! id = Some p' -> requires_grad p' = true ->
                   (id ∉ m) /\ store w !! id = Some p') /\
    freeze_part m w' = Ok tt w' /\
    storage w' = storage w /\ grad_enabled w' = grad_enabled w /\ trace w' = trace w.
Proof.
  exists (with_store (freeze_store m) w). split; [reflexivity|].
  cbn [with_store store storage grad_enabled trace].
  split; [|split; [|split; [|split]]].
  - intros id. rewrite freeze_store_lookup. case_decide; [|reflexivity].
    rewrite fmap_is_Some. reflexivity.
  - intros id. apply freeze_store_value.
  - intros id p' Hp' Htrue. rewrite freeze_store_lookup in Hp'.
    case_decide as Hin; [|auto].
    destruct (store w !! id) as [p|]; [|discriminate Hp'].
    cbn in Hp'. injection Hp' as <-. discriminate Htrue.
  - unfold freeze_part, modify_store. f_equal.
    destruct w as [st nx sg ge tr]. unfold with_store. cbn. f_equal.
    apply map_eq. intros id. rewrite !freeze_store_lookup.
    case_decide; [|reflexivity]. destruct (st !! id); reflexivity.
  - auto.
Qed.

(** X4: the outcome of [freeze_stuff] does not depend on the order of its
    five calls, and running it again leaves the world as it is: the frozen
    parameters stay frozen and nothing else is touched. *)
Theorem freeze_stuff_idempotent (self : SummarizationDistiller.self_t) (w : World) :
  exists w',
    SummarizationDistiller.freeze_stuff self w = Ok tt w' /\
    SummarizationDistiller.freeze_stuff self w' = Ok tt w' /\
    (forall m1 m2 : module,
        freeze_store m1 (freeze_store m2 (store w))
        = freeze_store m2 (freeze_store m1 (store w))) /\
    (forall frozen : module,
        (forall id, id ∈ frozen <-> id ∈ SummarizationDistiller.frozen_parameters self) ->
        store w' = freeze_store frozen (store w)).
Proof.
  exists (with_store (freeze_store (SummarizationDistiller.frozen_parameters self)) w).
  split; [apply freeze_stuff_run|]. split; [|split].
  - rewrite freeze_stuff_run. f_equal.
    destruct w as [st nx sg ge tr]. unfold with_store. cbn. f_equal.
    apply map_eq. intros id. rewrite !freeze_store_lookup.
    case_decide; [|reflexivity]. destruct (st !! id); reflexivity.
  - intros m1 m2. apply map_eq. intros id. rewrite !freeze_store_lookup.
    repeat case_decide; try reflexivity; destruct (store w !! id); reflexivity.
  - intros frozen Hsame. cbn [with_store store]. apply map_eq. intros id.
    rewrite !freeze_store_lookup.
    destruct (decide (id ∈ frozen)) as [Hin|Hnin];
      destruct (decide (id ∈ SummarizationDistiller.frozen_parameters self)) as [Hin'|Hnin'];
      try reflexivity; exfalso; apply Hsame in Hin || apply Hsame in Hin'; contradiction.
Qed.

(** ** Edge cases of the loss engine *)

Lemma real_token_entries_all_padding {A : Type} (v : nat) (padding : list bool)
    (xs : list A) :
  (forall p x, padding !! p = Some x -> x = true) ->
  LossEngine.real_token_entries v padding xs = [].
Proof.
  revert xs. induction padding as [|b padding IH]; intros xs Hall; [reflexivity|].
  cbn [LossEngine.real_token_entries].
  rewrite (Hall 0%nat b eq_refl). cbn [app].
  apply IH. intros p x Hp. apply (Hall (S p) x Hp).
Qed.

Lemma real_token_entries_no_padding {A : Type} (v : nat) (padding : list bool)
    (xs : list A) :
  (forall p x, padding !! p = Some x -> x = false) ->
  length xs = (length padding * v)%nat ->
  LossEngine.real_token_entries v padding xs = xs.
Proof.
  revert xs. induction padding as [|b padding IH]; intros xs Hall Hlen.
  - destruct xs; [reflexivity | discriminate Hlen].
  - cbn [LossEngine.real_token_entries].
    rewrite (Hall 0%nat b eq_refl). rewrite IH.
    + apply firstn_skipn.
    + intros p x Hp. apply (Hall (S p) x Hp).
    + rewrite length_skipn, Hlen. cbn [length]. lia.
Qed.

Lemma F32_div_zero_not_finite (x : F32.float) :
  F32.is_finite (F32.div x (F32.of_Z 0)) = false.
Proof. destruct x as [s|s| |s m e]; reflexivity. Qed.

Lemma F32_mul_not_finite (x y : F32.float) :
  F32.is_finite x = false -> F32.is_finite (F32.mul x y) = false.
Proof.
  destruct x as [sx|sx| |sx mx ex]; try discriminate; intros _;
    destruct y as [sy|sy| |sy my ey]; reflexivity.
Qed.

(** X5: when the mask marks every position as padding, nothing is selected
    and the batch mean divides by zero rows: the engine returns, with empty
    selections, a loss that is infinite or not a number, whatever the
    temperature and the logits are. *)
Theorem all_padding_gives_no_finite_loss `{Torch} (temperature : F32.float)
    (mask : tensor bool) (s t : tensor F32.float) (b sq v : nat) :
  v <> 0%nat ->
  shape mask = [b; sq] -> T.wf mask ->
  shape s = [b; sq; v] -> shape t = [b; sq; v] ->
  (forall p x, data mask !! p = Some x -> x = true) ->
  exists loss,
    LossEngine.calc_ce_loss temperature (Some mask) s t
    = Some (loss, Tensor [0%nat; v] [], Tensor [0%nat; v] []) /\
    F32.is_finite loss = false.
Proof.
  intros Hv Hm Hwm Hs Ht Hall.
  unfold T.wf in Hwm. rewrite Hm in Hwm. cbn [T.numel fold_right] in Hwm.
  rewrite (calc_ce_loss_masked temperature mask s t b sq v) by (assumption || lia).
  rewrite !real_token_entries_all_padding by exact Hall. cbn [length].
  rewrite (calc_ce_loss_unmasked temperature _ _ 0%nat v);
    [|reflexivity | exact Hv | reflexivity | reflexivity].
  cbn [data]. eexists. split; [reflexivity|].
  apply F32_mul_not_finite, F32_div_zero_not_finite.
Qed.

Lemma all_padding_gives_no_finite_loss_witness :
  exists loss,
    @LossEngine.calc_ce_loss Toy.torch F32.two
      (Some (Tensor [1%nat; 2%nat] [true; true])) Toy.s_logits Toy.t_logits
    = Some (loss, Tensor [0%nat; 2%nat] [], Tensor [0%nat; 2%nat] []) /\
    F32.is_finite loss = false.
Proof.
  apply (@all_padding_gives_no_finite_loss Toy.torch F32.two
           (Tensor [1%nat; 2%nat] [true; true]) Toy.s_logits Toy.t_logits 1%nat 2%nat 2%nat);
    try reflexivity; try discriminate.
  intros [|[|p]] x Hp; try discriminate Hp; injection Hp as <-; reflexivity.
Defined.

(** X6: a mask that marks no position as padding changes nothing: the
    engine returns what it returns without a mask. *)
Theorem mask_without_padding_is_no_mask `{Torch} (temperature : F32.float)
    (mask : tensor bool) (s t : tensor F32.float) (b sq v : nat) :
  v <> 0%nat ->
  shape mask = [b; sq] -> T.wf mask ->
  shape s = [b; sq; v] -> shape t = [b; sq; v] -> T.wf s -> T.wf t ->
  (forall p x, data mask !! p = Some x -> x = false) ->
  LossEngine.calc_ce_loss temperature (Some mask) s t
  = LossEngine.calc_ce_loss temperature None s t /\
  exists loss, LossEngine.calc_ce_loss temperature None s t
               = Some (loss, Tensor [(b * sq)%nat; v] (data s),
                             Tensor [(b * sq)%nat; v] (data t)).
Proof.
  intros Hv Hm Hwm Hs Ht Hws Hwt Hnone.
  unfold T.wf in *. rewrite ?Hm, ?Hs, ?Ht in *. cbn [T.numel fold_right] in *.
  rewrite (calc_ce_loss_masked temperature mask s t b sq v) by (assumption || lia).
  rewrite !real_token_entries_no_padding by (exact Hnone || lia).
  assert (Hlast : T.size_last s = Some v) by (unfold T.size_last; rewrite Hs; reflexivity).
  rewrite (calc_ce_loss_unmasked temperature s t (b * sq) v) by (assumption || lia).
  rewrite (calc_ce_loss_unmasked temperature _ _ (b * sq) v);
    [| reflexivity | exact Hv | cbn [data]; lia | cbn [data]; lia].
  cbn [data]. split; [reflexivity|]. eexists. reflexivity.
Qed.

Lemma mask_without_padding_is_no_mask_witness :
  @LossEngine.calc_ce_loss Toy.torch F32.two
    (Some (Tensor [1%nat; 2%nat] [false; false])) Toy.s_logits Toy.t_logits
  = @LossEngine.calc_ce_loss Toy.torch F32.two None Toy.s_logits Toy.t_logits.
Proof.
  apply (@mask_without_padding_is_no_mask Toy.torch F32.two
           (Tensor [1%nat; 2%nat] [false; false]) Toy.s_logits Toy.t_logits
           1%nat 2%nat 2%nat);
    try reflexivity; try discriminate.
  intros [|[|p]] x Hp; try discriminate Hp; injection Hp as <-; reflexivity.
Defined.

(** X7: without a mask, student and teacher logits with different numbers
    of elements are never accepted: either a [view] fails or the assertion
    on the two sizes does. *)
Theorem logits_of_different_size_are_rejected `{Torch} (temperature : F32.float)
    (s t : tensor F32.float) :
  length (data s) <> length (data t) ->
  LossEngine.calc_ce_loss temperature None s t = None.
Proof.
  intros Hne. unfold LossEngine.calc_ce_loss. cbn [mbind option_bind].
  destruct (T.size_last s) as [v|]; [|reflexivity]. cbn [mbind option_bind].
  unfold T.view_rows.
  destruct (Nat.eqb_spec v 0) as [Hv|Hv]; [reflexivity|]. cbn [orb].
  destruct (Nat.eqb_spec (length (data s) mod v) 0) as [Hs|Hs]; [|reflexivity].
  cbn [negb mbind option_bind].
  destruct (Nat.eqb_spec (length (data t) mod v) 0) as [Ht|Ht]; [|reflexivity].
  cbn [negb mbind option_bind shape].
  rewrite decide_False; [reflexivity|].
  intros Heq. injection Heq as Heq. apply Hne.
  rewrite (Nat.div_mod_eq (length (data s)) v), (Nat.div_mod_eq (length (data t)) v).
  rewrite Hs, Ht, Heq. reflexivity.
Qed.

Lemma logits_of_different_size_are_rejected_witness :
  @LossEngine.calc_ce_loss Toy.torch F32.two None Toy.s_logits
    (Tensor [1%nat; 1%nat; 2%nat] [Toy.three; F32.one])
  = None.
Proof.
  apply (@logits_of_different_size_are_rejected Toy.torch). discriminate.
Defined.

(** X8: a mask fits three-dimensional logits only if it has two dimensions,
    each equal to the corresponding dimension of the logits or one; any
    other mask makes the engine raise. *)
Theorem mask_of_wrong_shape_is_rejected `{Torch} (temperature : F32.float)
    (mask : tensor bool) (s t : tensor F32.float) (b sq v : nat) :
  shape s = [b; sq; v] ->
  (forall b' sq' : nat, shape mask = [b'; sq'] ->
      (b' <> b /\ b' <> 1%nat) \/ (sq' <> sq /\ sq' <> 1%nat)) ->
  LossEngine.calc_ce_loss temperature (Some mask) s t = None.
Proof.
  intros Hs Hbad. unfold LossEngine.calc_ce_loss, T.unsqueeze_expand_as, invert_mask.
  cbn [shape]. rewrite Hs.
  destruct (shape mask) as [|b' [|sq' [|x rest]]] eqn:Hm; try reflexivity.
  destruct (Hbad b' sq' eq_refl) as [[H1 H2]|[H1 H2]].
  - destruct (Nat.eqb_spec b' b); [contradiction|].
    destruct (Nat.eqb_spec b' 1); [contradiction|]. reflexivity.
  - destruct (Nat.eqb_spec sq' sq); [contradiction|].
    destruct (Nat.eqb_spec sq' 1); [contradiction|].
    rewrite andb_false_r. reflexivity.
Qed.

Lemma mask_of_wrong_shape_is_rejected_witness :
  @LossEngine.calc_ce_loss Toy.torch F32.two
    (Some (Tensor [1%nat; 3%nat] [false; true; true])) Toy.s_logits Toy.t_logits
  = None.
Proof.
  apply (@mask_of_wrong_shape_is_rejected Toy.torch F32.two _ _ _ 1%nat 2%nat 2%nat);
    [reflexivity|].
  intros b' sq' Hshape. injection Hshape as <- <-. right. split; discriminate.
Defined.



(** ** Missing keys and the effects of a step *)

(** A forward pass either raises a [RuntimeError] (a parameter is missing)
    and leaves the world as it is, or returns the model's output for the
    stored weights and leaves one event. *)
Lemma forward_cases `{BartLib} (who : Who) (m : BartModel) (args : ForwardArgs) (w : World) :
  (weights_of (store w) m = None /\ Bart.forward who m args w = Raise RuntimeError w) \/
  (exists ws, weights_of (store w) m = Some ws /\
              Bart.forward who m args w
              = Ok (bart_forward (config m) ws args)
                   (add_events [EvForward who (grad_enabled w)] w)).
Proof.
  unfold Bart.forward, mbind, M_bind. rewrite state_dict_run.
  destruct (weights_of (store w) m) as [ws|]; cbn [from_option mret M_ret raise].
  - right. exists ws. split; reflexivity.
  - left. split; reflexivity.
Qed.







(** X12: the trainer's step is one forward pass of its model in the
    gradient mode it is called in: when it returns, the loss is the one
    the model reports for the stored weights on the decoder input and the
    labels built from "target_ids", and the world differs in the trace
    only; when it raises, either a key is missing from the batch, the
    error is a [KeyError] and the world is as before, or all three keys
    are there and the error and the world are those of the forward pass
    on these arguments. *)
Theorem trainer_step_is_one_forward_pass `{BartLib} (self : SummarizationTrainer.self_t)
    (batch : gmap string Labels.ids) (w : World) :
  (forall (loss : F32.float) (w' : World),
      SummarizationTrainer._step self batch w = Ok loss w' ->
      exists source_ids source_mask y ws,
        batch !! "source_ids"%string = Some source_ids /\
        batch !! "source_mask"%string = Some source_mask /\
        batch !! "target_ids"%string = Some y /\
        weights_of (store w) (SummarizationTrainer.model self) = Some ws /\
        loss = out_loss
                 (bart_forward (config (SummarizationTrainer.model self)) ws
                    {| arg_input_ids := source_ids; arg_attention_mask := source_mask;
                       arg_decoder_input_ids := Labels.y_ids y;
                       arg_lm_labels :=
                         Labels.lm_labels (SummarizationTrainer.pad_token_id self) y |}) /\
        w' = add_events [EvForward Student (grad_enabled w)] w) /\
  (forall (e : Error) (w' : World),
      SummarizationTrainer._step self batch w = Raise e w' ->
      (e = KeyError /\ w' = w /\
       (batch !! "source_ids"%string = None \/ batch !! "source_mask"%string = None
        \/ batch !! "target_ids"%string = None))
      \/ exists source_ids source_mask y,
           batch !! "source_ids"%string = Some source_ids /\
           batch !! "source_mask"%string = Some source_mask /\
           batch !! "target_ids"%string = Some y /\
           Bart.forward Student (SummarizationTrainer.model self)
             {| arg_input_ids := source_ids; arg_attention_mask := source_mask;
                arg_decoder_input_ids := Labels.y_ids y;
                arg_lm_labels :=
                  Labels.lm_labels (SummarizationTrainer.pad_token_id self) y |} w
           = Raise e w').
Proof.
  split.
  - intros loss w' Hrun. apply trainer_step_inversion in Hrun.
    destruct Hrun as (source_ids & source_mask & y & outputs & H1 & H2 & H3 & Hfwd & ->).
    exists source_ids, source_mask, y.
    match type of Hfwd with
    | Bart.forward Student ?m ?args w = _ =>
        destruct (forward_cases Student m args w) as [[_ Heq]|(ws & Hws & Heq)]
    end; rewrite Heq in Hfwd; [discriminate Hfwd|].
    injection Hfwd as <- <-. exists ws. auto 10.
  - unfold SummarizationTrainer._step. intros e w'.
    destruct (batch !! "source_ids"%string) as [source_ids|];
      [|intros Heq; injection Heq as <- <-; left; auto].
    destruct (batch !! "source_mask"%string) as [source_mask|];
      [|intros Heq; injection Heq as <- <-; left; auto].
    destruct (batch !! "target_ids"%string) as [y|];
      [|intros Heq; injection Heq as <- <-; left; auto].
    cbn [from_option]. unfold mbind, M_bind. cbn [mret M_ret].
    intros Hrun. right. exists source_ids, source_mask, y.
    split; [reflexivity|]. split; [reflexivity|]. split; [reflexivity|].
    destruct (Bart.forward Student _ _ w) as [outputs w1|e1 w1];
      [discriminate Hrun | injection Hrun as <- <-; reflexivity].
Qed.

Lemma trainer_step_is_one_forward_pass_witness :
  Samples.trainer_step = Ok Toy.three (world_of Samples.trainer_step) /\
  world_of Samples.trainer_step = add_events [EvForward Student true] Toy.world1.
Proof.
  assert (Hrun : Samples.trainer_step = Ok Toy.three (world_of Samples.trainer_step))
    by (vm_compute; reflexivity).
  destruct (@trainer_step_is_one_forward_pass (Toy.lib Toy.three) Samples.trainer_self
              Samples.trainer_batch Toy.world1) as [Hok _].
  destruct (Hok _ _ Hrun) as (_ & _ & _ & _ & _ & _ & _ & _ & _ & Hw).
  split; [exact Hrun | exact Hw].
Defined.

(** ** What a training step reports *)

Lemma training_output_of_run (l : F32.float) (ls : list F32.float) (w : World) :
  training_output_of (l :: ls) w
  = Ok {| to_loss := l; to_log := named_losses (l :: ls) |} w.
Proof. reflexivity. Qed.

Lemma named_losses_three (a b c : F32.float) :
  named_losses [a; b; c]
  = {[ "loss"%string := a; "ce_loss"%string := b; "mlm_loss"%string := c ]}.
Proof.
  unfold named_losses, dict_of_pairs, loss_names. cbn [zip zip_with fold_left fst snd].
  rewrite <- (insert_empty (M := gmap string) "mlm_loss"%string c).
  rewrite (insert_insert_ne _ "ce_loss"%string "loss"%string) by discriminate.
  rewrite (insert_insert_ne _ "mlm_loss"%string "loss"%string) by discriminate.
  rewrite (insert_insert_ne _ "mlm_loss"%string "ce_loss"%string) by discriminate.
  reflexivity.
Qed.

Lemma named_losses_one (a : F32.float) :
  named_losses [a] = {[ "loss"%string := a ]}.
Proof. apply (insert_empty (M := gmap string)). Qed.

(** X13: a training step raises exactly when the step under it does and
    never fails on [loss_tensors[0]].  The distiller logs its three losses
    under "loss", "ce_loss" and "mlm_loss" and trains on the blended one;
    the plain trainer, whose step returns one loss, logs "loss" alone:
    "ce_loss" and "mlm_loss" are not in its log although [loss_names] lists
    them. *)
Theorem training_step_logs `{Torch} `{BartLib} (batch : gmap string Labels.ids) (w : World) :
  (forall (self : SummarizationDistiller.self_t) (out : training_output) (w' : World),
      DistillerMethods.training_step self batch w = Ok out w' <->
      exists loss_ce sloss,
        SummarizationDistiller._step self batch w = Ok (to_loss out, loss_ce, sloss) w' /\
        to_log out = {[ "loss"%string := to_loss out; "ce_loss"%string := loss_ce;
                        "mlm_loss"%string := sloss ]}) /\
  (forall (self : SummarizationTrainer.self_t) (out : training_output) (w' : World),
      TrainerMethods.training_step self batch w = Ok out w' <->
      SummarizationTrainer._step self batch w = Ok (to_loss out) w' /\
      to_log out = {[ "loss"%string := to_loss out ]}) /\
  (forall (self : SummarizationTrainer.self_t) (out : training_output) (w' : World),
      TrainerMethods.training_step self batch w = Ok out w' ->
      to_log out !! "ce_loss"%string = None /\ to_log out !! "mlm_loss"%string = None) /\
  (forall (self : SummarizationDistiller.self_t) (e : Error) (w' : World),
      DistillerMethods.training_step self batch w = Raise e w' <->
      SummarizationDistiller._step self batch w = Raise e w') /\
  (forall (self : SummarizationTrainer.self_t) (e : Error) (w' : World),
      TrainerMethods.training_step self batch w = Raise e w' <->
      SummarizationTrainer._step self batch w = Raise e w').
Proof.
  assert (Htrainer :
    forall (self : SummarizationTrainer.self_t) (out : training_output) (w' : World),
      TrainerMethods.training_step self batch w = Ok out w' <->
      SummarizationTrainer._step self batch w = Ok (to_loss out) w' /\
      to_log out = {[ "loss"%string := to_loss out ]}).
  { intros self out w'. unfold TrainerMethods.training_step, mbind, M_bind.
    destruct (SummarizationTrainer._step self batch w) as [loss w1|e w1].
    - rewrite training_output_of_run, named_losses_one. split.
      + intros Heq. injection Heq as <- <-. split; reflexivity.
      + intros [Heq Hlog]. injection Heq as -> ->. destruct out as [l lg].
        cbn in Hlog. subst lg. reflexivity.
    - split; [discriminate | intros [Heq _]; discriminate Heq]. }
  split; [|split; [exact Htrainer|split; [|split]]].
  - intros self out w'. unfold DistillerMethods.training_step, mbind, M_bind.
    destruct (SummarizationDistiller._step self batch w) as [[[blended loss_ce] sloss] w1|e w1].
    + rewrite training_output_of_run, named_losses_three. split.
      * intros Heq. injection Heq as <- <-. exists loss_ce, sloss. split; reflexivity.
      * intros (ce & s & Heq & Hlog). injection Heq as -> -> -> ->.
        destruct out as [l lg]. cbn in Hlog. subst lg. reflexivity.
    + split; [discriminate | intros (ce & s & Heq & _); discriminate Heq].
  - intros self out w' Hrun. apply Htrainer in Hrun. destruct Hrun as [_ ->].
    split; reflexivity.
  - intros self e w'. unfold DistillerMethods.training_step, mbind, M_bind.
    destruct (SummarizationDistiller._step self batch w) as [[[blended loss_ce] sloss] w1|e1 w1].
    + rewrite training_output_of_run. split; discriminate.
    + split; intros Heq; injection Heq as <- <-; reflexivity.
  - intros self e w'. unfold TrainerMethods.training_step, mbind, M_bind.
    destruct (SummarizationTrainer._step self batch w) as [loss w1|e1 w1].
    + rewrite training_output_of_run. split; discriminate.
    + split; intros Heq; injection Heq as <- <-; reflexivity.
Qed.

Lemma Ok_value_inj {A : Type} (a b : A) (w w' : World) : Ok a w = Ok b w' -> a = b.
Proof. intros Heq. injection Heq as Hab _. exact Hab. Qed.

Lemma training_step_logs_witness :
  (to_log <$> Samples.value_of Samples.distiller_training)
  = Some {[ "loss"%string := Toy.f 8912896 (-19); "ce_loss"%string := Toy.f 8912896 (-19);
            "mlm_loss"%string := Toy.three ]} /\
  (to_log <$> Samples.value_of Samples.trainer_training)
  = Some {[ "loss"%string := Toy.three ]}.
Proof.
  destruct (@training_step_logs Toy.torch (Toy.lib Toy.three) Toy.batch Toy.world1)
    as (Hd & _).
  destruct (@training_step_logs Toy.torch (Toy.lib Toy.three) Samples.trainer_batch Toy.world1)
    as (_ & Ht & _).
  assert (Hsd : Toy.step Toy.three F32.one F32.zero
                = Ok (Toy.f 8912896 (-19), Toy.f 8912896 (-19), Toy.three)
                     (world_of (Toy.step Toy.three F32.one F32.zero)))
    by (vm_compute; reflexivity).
  assert (Hst : Samples.trainer_step = Ok Toy.three (world_of Samples.trainer_step))
    by (vm_compute; reflexivity).
  unfold Toy.step in Hsd. unfold Samples.trainer_step in Hst.
  unfold Samples.distiller_training, Samples.trainer_training.
  split.
  - destruct (DistillerMethods.training_step _ _ _) as [out w'|e w'] eqn:Hrun;
      [|vm_compute in Hrun; discriminate Hrun].
    apply (proj1 (Hd _ _ _)) in Hrun. destruct Hrun as (ce & s & Hstep & Hlog).
    cbn [Samples.value_of fmap option_fmap option_map]. rewrite Hlog.
    rewrite Hsd in Hstep. apply Ok_value_inj in Hstep.
    injection Hstep as <- <- <-. reflexivity.
  - destruct (TrainerMethods.training_step _ _ _) as [out w'|e w'] eqn:Hrun;
      [|vm_compute in Hrun; discriminate Hrun].
    apply (proj1 (Ht _ _ _)) in Hrun. destruct Hrun as (Hstep & Hlog).
    cbn [Samples.value_of fmap option_fmap option_map]. rewrite Hlog.
    rewrite Hst in Hstep. apply Ok_value_inj in Hstep. rewrite <- Hstep. reflexivity.
Defined.

(** ** The number of training steps *)

(** X14: the integer factor of [t_total].  The division raises exactly when
    the batch size or the number of accumulation steps is zero; for
    positive values the two floor divisions amount to one: the result is
    the number of whole groups of [batch size * max(1, n_gpu) *
    accumulation steps] examples in the dataset, so that a last partial
    group is not counted, and any [n_gpu] up to one counts as one. *)
Theorem steps_per_epoch_counts_full_groups (dataset_len : nat)
    (train_batch_size n_gpu gradient_accumulation_steps : Z) :
  (Schedule.steps_per_epoch dataset_len train_batch_size n_gpu gradient_accumulation_steps
   = Raises ZeroDivisionErr
   <-> train_batch_size = 0 \/ gradient_accumulation_steps = 0) /\
  (forall e,
      Schedule.steps_per_epoch dataset_len train_batch_size n_gpu gradient_accumulation_steps
      = Raises e -> e = ZeroDivisionErr) /\
  (0 < train_batch_size -> 0 < gradient_accumulation_steps ->
   let group := train_batch_size * Z.max 1 n_gpu * gradient_accumulation_steps in
   exists steps,
     Schedule.steps_per_epoch dataset_len train_batch_size n_gpu gradient_accumulation_steps
     = Returns steps /\
     steps = Z.of_nat dataset_len / group /\
     0 <= steps /\
     steps * group <= Z.of_nat dataset_len < (steps + 1) * group) /\
  (n_gpu <= 1 ->
   Schedule.steps_per_epoch dataset_len train_batch_size n_gpu gradient_accumulation_steps
   = Schedule.steps_per_epoch dataset_len train_batch_size 1 gradient_accumulation_steps).
Proof.
  unfold Schedule.steps_per_epoch, Py.floordiv.
  split; [|split; [|split]].
  - destruct (Z.eqb_spec (train_batch_size * Z.max 1 n_gpu) 0) as [H0|H0].
    + split; [intros _; left; nia | reflexivity].
    + destruct (Z.eqb_spec gradient_accumulation_steps 0) as [Hg|Hg].
      * split; [intros _; right; exact Hg | reflexivity].
      * split; [discriminate | intros [Hb|Hb]; [subst; lia | contradiction]].
  - intros e.
    destruct (Z.eqb_spec (train_batch_size * Z.max 1 n_gpu) 0);
      [intros Heq; injection Heq as <-; reflexivity|].
    destruct (Z.eqb_spec gradient_accumulation_steps 0);
      [intros Heq; injection Heq as <-; reflexivity | discriminate].
  - intros Hb Hg.
    set (group := train_batch_size * Z.max 1 n_gpu * gradient_accumulation_steps).
    assert (Heff : 0 < train_batch_size * Z.max 1 n_gpu) by nia.
    destruct (Z.eqb_spec (train_batch_size * Z.max 1 n_gpu) 0); [lia|].
    destruct (Z.eqb_spec gradient_accumulation_steps 0); [lia|].
    eexists. split; [reflexivity|].
    assert (Hgroup : 0 < group) by (unfold group; nia).
    assert (Hdiv : Z.of_nat dataset_len / (train_batch_size * Z.max 1 n_gpu)
                   / gradient_accumulation_steps = Z.of_nat dataset_len / group).
    { unfold group. apply Z.div_div; lia. }
    rewrite Hdiv. split; [reflexivity|]. split; [apply Z.div_pos; lia|].
    pose proof (Z.mul_div_le (Z.of_nat dataset_len) group Hgroup).
    pose proof (Z.mul_succ_div_gt (Z.of_nat dataset_len) group Hgroup).
    lia.
  - intros Hn. replace (Z.max 1 n_gpu) with (Z.max 1 1) by lia. reflexivity.
Qed.

Lemma steps_per_epoch_counts_full_groups_witness :
  Schedule.steps_per_epoch 103 8 2 3 = Returns 2 /\ 2 * (8 * Z.max 1 2 * 3) <= 103.
Proof.
  destruct (steps_per_epoch_counts_full_groups 103 8 2 3) as (_ & _ & Hpos & _).
  assert (H8 : 0 < 8) by lia. assert (H3 : 0 < 3) by lia.
  destruct (Hpos H8 H3) as (steps & Hrun & Hsteps & _ & Hle & _).
  assert (Heq : steps = 2) by (rewrite Hsteps; reflexivity).
  rewrite Heq in Hrun, Hle. split; [exact Hrun | exact Hle].
Defined.

(** X15: when the dataset holds fewer examples than one such group,
    [t_total] is zero times the number of epochs: the scheduler is given
    zero training steps for every finite number of epochs, and not a number
    for an infinite one. *)
Theorem small_dataset_gives_zero_steps (dataset_len : nat)
    (train_batch_size n_gpu gradient_accumulation_steps : Z) (epochs : F64.float) :
  0 < train_batch_size -> 0 < gradient_accumulation_steps ->
  Z.of_nat dataset_len
  < train_batch_size * Z.max 1 n_gpu * gradient_accumulation_steps ->
  exists total,
    Schedule.t_total dataset_len train_batch_size n_gpu gradient_accumulation_steps epochs
    = Returns total /\
    match epochs with
    | S754_zero s | S754_finite s _ _ => total = S754_zero s
    | S754_infinity _ | S754_nan => total = S754_nan
    end.
Proof.
  intros Hb Hg Hsmall. unfold Schedule.t_total.
  destruct (steps_per_epoch_counts_full_groups dataset_len train_batch_size n_gpu
              gradient_accumulation_steps) as (_ & _ & Hpos & _).
  destruct (Hpos Hb Hg) as (steps & -> & Hsteps & _).
  rewrite Z.div_small in Hsteps by lia. subst steps.
  cbn [outcome_bind]. eexists. split; [reflexivity|].
  destruct epochs as [s|s| |s m e]; try reflexivity; destruct s; reflexivity.
Qed.

Lemma small_dataset_gives_zero_steps_witness :
  Schedule.t_total 40 8 2 3 (F64.of_Z 3) = Returns (S754_zero false).
Proof.
  assert (H8 : 0 < 8) by lia. assert (H3 : 0 < 3) by lia.
  assert (Hs : Z.of_nat 40 < 8 * Z.max 1 2 * 3) by (vm_compute; reflexivity).
  destruct (small_dataset_gives_zero_steps 40 8 2 3 (F64.of_Z 3) H8 H3 Hs)
    as (total & Hrun & Htotal).
  rewrite Hrun. f_equal. exact Htotal.
Defined.

(** ** Scoring *)

Lemma map_zip_score {A B C : Type} (f : A -> B -> C) (xs : list A) (ys : list B) :
  map (fun '(x, y) => f x y) (zip xs ys) = zip_with f xs ys.
Proof.
  revert ys. induction xs as [|x xs IH]; intros [|y ys]; cbn; try reflexivity.
  rewrite IH. reflexivity.
Qed.

Lemma zip_with_take_lengths {A B C : Type} (f : A -> B -> C) (xs : list A) (ys : list B) :
  zip_with f (take (length ys) xs) (take (length xs) ys) = zip_with f xs ys.
Proof.
  revert ys. induction xs as [|x xs IH]; intros [|y ys]; cbn; try reflexivity.
  rewrite IH. reflexivity.
Qed.

(** X17: [calculate_rouge] scores the lines pairwise, reference first, in
    the order given, and only as many pairs as the shorter of the two
    lists has: lines without a partner are ignored without an error.  It
    reports no key outside [ROUGE_KEYS]. *)
Theorem calculate_rouge_ignores_unpaired_lines `{EvalLib}
    (output_lns reference_lns : list string) :
  Report.calculate_rouge output_lns reference_lns
  = aggregate_fmeasure (zip_with rouge_score reference_lns output_lns) /\
  length (zip_with rouge_score reference_lns output_lns)
  = Nat.min (length reference_lns) (length output_lns) /\
  Report.calculate_rouge output_lns reference_lns
  = Report.calculate_rouge (take (length reference_lns) output_lns)
                           (take (length output_lns) reference_lns) /\
  (forall k, is_Some (Report.calculate_rouge output_lns reference_lns !! k) ->
             k ∈ ROUGE_KEYS).
Proof.
  unfold Report.calculate_rouge. rewrite !map_zip_score.
  split; [reflexivity|]. split; [apply length_zip_with|]. split.
  - rewrite zip_with_take_lengths. reflexivity.
  - intros k. apply aggregate_keys.
Qed.

(** ** Dicts built entry by entry *)

Lemma dict_of_pairs_snoc {V : Type} (l : list (string * V)) (k : string) (v : V) :
  dict_of_pairs (l ++ [(k, v)]) = <[k := v]> (dict_of_pairs l).
Proof. unfold dict_of_pairs. rewrite fold_left_app. reflexivity. Qed.

Lemma dict_of_pairs_keys {V : Type} (l : list (string * V)) (k : string) :
  is_Some (dict_of_pairs l !! k) -> In k (map fst l).
Proof.
  induction l as [|[k0 v0] l IH] using rev_ind.
  - intros [v Hv]. discriminate Hv.
  - rewrite dict_of_pairs_snoc, map_app, in_app_iff. cbn [map fst In].
    destruct (decide (k0 = k)) as [->|Hne]; [auto|].
    rewrite lookup_insert_ne by exact Hne. auto.
Qed.

Lemma dict_of_pairs_renamed {V : Type} (f : string -> string) `{!Inj (=) (=) f}
    (l : list (string * V)) (k : string) :
  dict_of_pairs (map (fun kx => (f kx.1, kx.2)) l) !! f k = dict_of_pairs l !! k.
Proof.
  induction l as [|[k0 v0] l IH] using rev_ind; [reflexivity|].
  rewrite map_app. cbn [map fst snd]. rewrite !dict_of_pairs_snoc.
  destruct (decide (k0 = k)) as [->|Hne].
  - rewrite !lookup_insert_eq. reflexivity.
  - rewrite !lookup_insert_ne; [exact IH | exact Hne |].
    intros Heq. apply Hne. eapply inj; [exact _ | exact Heq].
Qed.

Lemma dict_of_pairs_renamed_keys {V : Type} (f : string -> string)
    (l : list (string * V)) (k' : string) :
  is_Some (dict_of_pairs (map (fun kx => (f kx.1, kx.2)) l) !! k') ->
  exists k, k' = f k /\ In k (map fst l).
Proof.
  intros Hk. apply dict_of_pairs_keys in Hk. rewrite map_map in Hk. cbn [fst] in Hk.
  apply in_map_iff in Hk. destruct Hk as ([k v] & <- & Hin).
  exists k. split; [reflexivity|]. apply in_map_iff. exists (k, v). auto.
Qed.

Lemma prefixed_inj (prefix : string) : Inj (=) (=) (prefixed prefix).
Proof.
  intros k1 k2 Heq. unfold prefixed in Heq.
  apply String.app_inj in Heq. apply String.app_inj in Heq. exact Heq.
Qed.

(** ** Gathering and averaging *)

Lemma outcome_for_map_Returns {A B : Type} (f : B -> A) (g : A -> outcome B) (ys : list B) :
  (forall y, g (f y) = Returns y) -> outcome_for g (map f ys) = Returns ys.
Proof.
  intros Hg. induction ys as [|y ys IH]; [reflexivity|].
  cbn [map outcome_for]. rewrite Hg, IH. reflexivity.
Qed.

Lemma gather_Raises `{EvalLib} (k : string) (outputs : list (gmap string metric)) :
  Exists (fun x => x !! k = None) outputs ->
  Report.gather k outputs = Raises (KeyErr k).
Proof.
  unfold Report.gather. induction outputs as [|x outputs IH]; intros Hex.
  - inversion Hex.
  - cbn [outcome_for]. destruct (x !! k) as [v|] eqn:Hx; [|reflexivity].
    cbn [outcome_bind]. rewrite IH; [reflexivity|].
    inversion Hex as [? ? Hnone|? ? Hrest]; subst; [congruence | exact Hrest].
Qed.

Lemma gather_tensors_at `{EvalLib} (k : string) (outputs : list (gmap string metric)) :
  Forall (Report.has_tensor k) outputs ->
  Report.gather k outputs = Returns (map MTensor (Report.tensors_at k outputs)) /\
  length (Report.tensors_at k outputs) = length outputs.
Proof.
  unfold Report.gather, Report.tensors_at.
  induction 1 as [|x outputs [t Hx] _ [IHg IHl]]; [split; reflexivity|].
  cbn [outcome_for flat_map]. rewrite Hx. cbn [outcome_bind app map length].
  rewrite IHg, IHl. split; reflexivity.
Qed.

Lemma gather_floats_at `{EvalLib} (k : string) (outputs : list (gmap string metric)) :
  Forall (Report.has_float k) outputs ->
  Report.gather k outputs = Returns (map MFloat (Report.floats_at k outputs)).
Proof.
  unfold Report.gather, Report.floats_at.
  induction 1 as [|x outputs [t Hx] _ IHg]; [reflexivity|].
  cbn [outcome_for flat_map]. rewrite Hx. cbn [outcome_bind app map].
  rewrite IHg. reflexivity.
Qed.

Lemma torch_stack_mean_tensors `{EvalLib} (ts : list F32.float) :
  ts <> [] -> Report.torch_stack_mean (map MTensor ts) = Returns (tensor_mean ts).
Proof.
  intros Hne. unfold Report.torch_stack_mean.
  rewrite (outcome_for_map_Returns MTensor) by reflexivity.
  destruct ts; [contradiction | reflexivity].
Qed.

(** The mean of one loss name, and of one score key, over outputs that
    hold it. *)
Lemma mean_of_loss `{EvalLib} (k : string) (outputs : list (gmap string metric)) :
  outputs <> [] -> Forall (Report.has_tensor k) outputs ->
  outcome_bind (Report.gather k outputs) (fun vs =>
    outcome_bind (Report.torch_stack_mean vs) (fun m => Returns (k, m)))
  = Returns (k, tensor_mean (Report.tensors_at k outputs)).
Proof.
  intros Hne Hall. destruct (gather_tensors_at k outputs Hall) as [-> Hlen].
  cbn [outcome_bind]. rewrite torch_stack_mean_tensors; [reflexivity|].
  intros Hnil. rewrite Hnil in Hlen. destruct outputs; [contradiction | discriminate Hlen].
Qed.

Lemma mean_of_score `{EvalLib} (k : string) (outputs : list (gmap string metric)) :
  Forall (Report.has_float k) outputs ->
  outcome_bind (Report.gather k outputs) (fun vs =>
    outcome_bind (np_mean vs) (fun m => Returns (k, m)))
  = Returns (k, float_mean (Report.floats_at k outputs)).
Proof.
  intros Hall. rewrite (gather_floats_at k outputs Hall). cbn [outcome_bind].
  rewrite np_mean_floats. reflexivity.
Qed.

Lemma missing_key `{EvalLib} {A : Type} (k : string) (outputs : list (gmap string metric))
    (rest : list metric -> outcome A) :
  Exists (fun x => x !! k = None) outputs ->
  outcome_bind (Report.gather k outputs) rest = Raises (KeyErr k).
Proof. intros Hex. rewrite gather_Raises by exact Hex. reflexivity. Qed.

Lemma elem_of_loss_names (k : string) :
  k ∈ loss_names <-> k = "loss"%string \/ k = "ce_loss"%string \/ k = "mlm_loss"%string.
Proof.
  unfold loss_names. rewrite !elem_of_cons, elem_of_nil. tauto.
Qed.

Lemma elem_of_score_keys (k : string) :
  k ∈ ROUGE_KEYS ++ ["gen_time"%string]
  <-> k = "rouge1"%string \/ k = "rouge2"%string \/ k = "rougeL"%string
      \/ k = "gen_time"%string.
Proof.
  unfold ROUGE_KEYS. cbn [app]. rewrite !elem_of_cons, elem_of_nil. tauto.
Qed.

Lemma complete_Forall `{EvalLib} (outputs : list (gmap string metric)) :
  Forall Report.complete outputs ->
  (forall k, k ∈ loss_names -> Forall (Report.has_tensor k) outputs) /\
  (forall k, k ∈ ROUGE_KEYS ++ ["gen_time"%string] -> Forall (Report.has_float k) outputs).
Proof.
  intros Hall. split; intros k Hk; eapply Forall_impl; try exact Hall;
    intros x [Hl Hr]; auto.
Qed.

Lemma means_of_complete `{EvalLib} (outputs : list (gmap string metric)) :
  outputs <> [] -> Forall Report.complete outputs ->
  Report.mean_losses outputs
  = Returns (map (fun k => (k, tensor_mean (Report.tensors_at k outputs))) loss_names) /\
  Report.mean_rouges outputs
  = Returns (map (fun k => (k, float_mean (Report.floats_at k outputs)))
                 (ROUGE_KEYS ++ ["gen_time"%string])).
Proof.
  intros Hne Hall. apply complete_Forall in Hall. destruct Hall as [Hl Hr].
  unfold Report.mean_losses, Report.mean_rouges. split.
  - cbn [loss_names outcome_for map].
    rewrite !mean_of_loss by (exact Hne || (apply Hl; apply elem_of_loss_names; auto)).
    reflexivity.
  - cbn [ROUGE_KEYS app outcome_for map].
    rewrite !mean_of_score by (apply Hr; apply elem_of_score_keys; auto 6).
    reflexivity.
Qed.

Lemma validation_end_complete `{EvalLib} (outputs : list (gmap string metric))
    (prefix : string) (self : Reports) :
  outputs <> [] -> Forall Report.complete outputs ->
  Report.validation_end outputs prefix self
  = let log := dict_of_pairs (map (fun kx => (prefixed prefix kx.1, kx.2))
                                  (Report.mean_entries outputs)) in
    match metrics self !! prefix with
    | None => Raises (KeyErr prefix)
    | Some history =>
        let metrics' := <[prefix := history ++ [log]]> (metrics self) in
        Returns ({| vr_log := log; vr_losses := dict_of_pairs (Report.mean_entries outputs) |},
                 {| metrics := metrics'; metrics_file := Some metrics' |})
    end.
Proof.
  intros Hne Hall. unfold Report.validation_end.
  destruct (means_of_complete outputs Hne Hall) as [-> ->].
  reflexivity.
Qed.

Lemma mean_entries_lookup `{EvalLib} (outputs : list (gmap string metric)) (k : string) :
  (k ∈ loss_names ->
   dict_of_pairs (Report.mean_entries outputs) !! k
   = Some (tensor_mean (Report.tensors_at k outputs))) /\
  (k ∈ ROUGE_KEYS ++ ["gen_time"%string] ->
   dict_of_pairs (Report.mean_entries outputs) !! k
   = Some (float_mean (Report.floats_at k outputs))).
Proof.
  unfold Report.mean_entries, dict_of_pairs.
  cbn [loss_names ROUGE_KEYS app map fold_left fst snd]. split.
  - intros Hk. apply elem_of_loss_names in Hk. destruct Hk as [-> | [-> | ->]];
      repeat (rewrite lookup_insert_ne by discriminate); apply lookup_insert_eq.
  - intros Hk. apply elem_of_score_keys in Hk. destruct Hk as [-> | [-> | [-> | ->]]];
      repeat (rewrite lookup_insert_ne by discriminate); apply lookup_insert_eq.
Qed.

Lemma mean_entries_keys `{EvalLib} (outputs : list (gmap string metric)) :
  map fst (Report.mean_entries outputs) = loss_names ++ ROUGE_KEYS ++ ["gen_time"%string].
Proof. reflexivity. Qed.

(** ** The report of an evaluation *)

(** X18: on a non-empty list of outputs that each hold a tensor under
    every loss name and a Python float under every score key and under
    "gen_time", [validation_end] returns when the prefix is one of the
    keys of [self.metrics]: the means of the seven entries are reported
    under their names and, in the log, under the prefixed names, with no
    other key; the log is appended to the history of the prefix, the
    histories of the other prefixes are kept, and the metrics file holds
    the metrics as they are afterwards. *)
Theorem validation_end_appends_report `{EvalLib} (outputs : list (gmap string metric))
    (prefix : string) (self : Reports) (history : list (gmap string F64.float)) :
  outputs <> [] -> Forall Report.complete outputs ->
  metrics self !! prefix = Some history ->
  exists res self',
    Report.validation_end outputs prefix self = Returns (res, self') /\
    metrics self' !! prefix = Some (history ++ [vr_log res]) /\
    (forall other, other <> prefix -> metrics self' !! other = metrics self !! other) /\
    metrics_file self' = Some (metrics self') /\
    (forall k, k ∈ loss_names ->
       vr_losses res !! k = Some (tensor_mean (Report.tensors_at k outputs)) /\
       vr_log res !! prefixed prefix k = vr_losses res !! k) /\
    (forall k, k ∈ ROUGE_KEYS ++ ["gen_time"%string] ->
       vr_losses res !! k = Some (float_mean (Report.floats_at k outputs)) /\
       vr_log res !! prefixed prefix k = vr_losses res !! k) /\
    (forall k, is_Some (vr_losses res !! k) ->
       k ∈ loss_names ++ ROUGE_KEYS ++ ["gen_time"%string]) /\
    (forall k', is_Some (vr_log res !! k') ->
       exists k, k' = prefixed prefix k /\
                 k ∈ loss_names ++ ROUGE_KEYS ++ ["gen_time"%string]).
Proof.
  intros Hne Hall Hprefix.
  rewrite (validation_end_complete outputs prefix self Hne Hall). cbn zeta.
  rewrite Hprefix. eexists _, _. split; [reflexivity|].
  cbn [metrics metrics_file vr_log vr_losses].
  split; [apply lookup_insert_eq|].
  split; [intros other Hother; apply lookup_insert_ne; congruence|].
  split; [reflexivity|].
  split; [|split; [|split]].
  - intros k Hk. split; [apply mean_entries_lookup; exact Hk|].
    apply (@dict_of_pairs_renamed _ (prefixed prefix) (prefixed_inj prefix)).
  - intros k Hk. split; [apply mean_entries_lookup; exact Hk|].
    apply (@dict_of_pairs_renamed _ (prefixed prefix) (prefixed_inj prefix)).
  - intros k Hk. apply dict_of_pairs_keys in Hk. rewrite mean_entries_keys in Hk.
    apply list_elem_of_In. exact Hk.
  - intros k' Hk'. apply dict_of_pairs_renamed_keys in Hk'.
    destruct Hk' as (k & -> & Hin). exists k. split; [reflexivity|].
    rewrite mean_entries_keys in Hin. apply list_elem_of_In. exact Hin.
Qed.

Lemma validation_end_appends_report_witness :
  exists res self',
    @Report.validation_end Samples.eval [Samples.complete_output; Samples.complete_output]
      "val" initial_reports = Returns (res, self') /\
    metrics self' !! "val"%string = Some ([] ++ [vr_log res]) /\
    vr_log res !! "val_loss"%string = Some Toy.three.
Proof.
  assert (Hc : @Report.complete Samples.complete_output).
  { split; intros k Hk;
      [apply elem_of_loss_names in Hk; destruct Hk as [-> | [-> | ->]]
      |apply elem_of_score_keys in Hk; destruct Hk as [-> | [-> | [-> | ->]]]];
      eexists; vm_compute; reflexivity. }
  assert (Hne : [Samples.complete_output; Samples.complete_output] <> []) by discriminate.
  assert (Hall : Forall (@Report.complete)
                   [Samples.complete_output; Samples.complete_output])
    by (constructor; [exact Hc | constructor; [exact Hc | constructor]]).
  destruct (@validation_end_appends_report Samples.eval
              [Samples.complete_output; Samples.complete_output] "val" initial_reports []
              Hne Hall eq_refl)
    as (res & self' & Hrun & Hhist & _ & _ & Hloss & _).
  exists res, self'. split; [exact Hrun|]. split; [exact Hhist|].
  destruct (Hloss "loss"%string) as [Hv Hlog].
  { apply elem_of_loss_names. left. reflexivity. }
  exact (eq_trans Hlog Hv).
Defined.

(** Peel the keys that the outputs hold and stop at the one that is
    missing. *)
Ltac run_means Hne Hten Hflo Hex :=
  unfold Report.validation_end, Report.mean_losses, Report.mean_rouges,
    loss_names, ROUGE_KEYS;
  cbn [app outcome_for];
  repeat (first
    [ rewrite mean_of_loss
        by (first [ exact Hne
                  | apply Hten; [cbn [In]; tauto | apply elem_of_loss_names; tauto] ])
    | rewrite mean_of_score
        by (apply Hflo; [cbn [In]; tauto | apply elem_of_score_keys; tauto] ) ];
    cbn [outcome_bind]);
  rewrite missing_key by exact Hex; reflexivity.

Lemma validation_end_missing_key `{EvalLib} (outputs : list (gmap string metric))
    (prefix : string) (self : Reports) (before after : list string) (k : string) :
  loss_names ++ ROUGE_KEYS ++ ["gen_time"%string] = before ++ k :: after ->
  outputs <> [] ->
  Forall (fun x => forall k', In k' before ->
                     (k' ∈ loss_names -> Report.has_tensor k' x) /\
                     (k' ∈ ROUGE_KEYS ++ ["gen_time"%string] -> Report.has_float k' x))
         outputs ->
  Exists (fun x => x !! k = None) outputs ->
  Report.validation_end outputs prefix self = Raises (KeyErr k).
Proof.
  intros Heq Hne Hall Hex.
  assert (Hten : forall k', In k' before -> k' ∈ loss_names ->
                            Forall (Report.has_tensor k') outputs).
  { intros k' Hin Hk'. eapply Forall_impl; [exact Hall|].
    intros x Hx. apply (Hx k' Hin). exact Hk'. }
  assert (Hflo : forall k', In k' before -> k' ∈ ROUGE_KEYS ++ ["gen_time"%string] ->
                            Forall (Report.has_float k') outputs).
  { intros k' Hin Hk'. eapply Forall_impl; [exact Hall|].
    intros x Hx. apply (Hx k' Hin). exact Hk'. }
  clear Hall.
  unfold loss_names, ROUGE_KEYS in Heq. cbn [app] in Heq.
  do 7 (destruct before as [|? before];
        [ cbn [app] in Heq; injection Heq as <- <-; run_means Hne Hten Hflo Hex
        | cbn [app] in Heq; injection Heq as <- Heq ]).
  destruct before; discriminate Heq.
Qed.

(** X19: what [validation_end] refuses.  An empty list of outputs gives a
    [RuntimeError] from [torch.stack].  For the keys in the order "loss",
    "ce_loss", "mlm_loss", "rouge1", "rouge2", "rougeL", "gen_time": when
    all outputs hold the keys before [k] (tensors under the loss names,
    floats under the others) and one output lacks [k], the result is
    [KeyError k].  With complete outputs and a prefix that is no key of
    [self.metrics] the result is a [KeyError] for the prefix. *)
Theorem validation_end_rejects `{EvalLib} (outputs : list (gmap string metric))
    (prefix : string) (self : Reports) :
  (outputs = [] -> Report.validation_end outputs prefix self = Raises RuntimeErr) /\
  (forall (before after : list string) (k : string),
      loss_names ++ ROUGE_KEYS ++ ["gen_time"%string] = before ++ k :: after ->
      outputs <> [] ->
      Forall (fun x => forall k', In k' before ->
                         (k' ∈ loss_names -> Report.has_tensor k' x) /\
                         (k' ∈ ROUGE_KEYS ++ ["gen_time"%string] -> Report.has_float k' x))
             outputs ->
      Exists (fun x => x !! k = None) outputs ->
      Report.validation_end outputs prefix self = Raises (KeyErr k)) /\
  (outputs <> [] -> Forall Report.complete outputs -> metrics self !! prefix = None ->
   Report.validation_end outputs prefix self = Raises (KeyErr prefix)).
Proof.
  split; [|split].
  - intros ->. reflexivity.
  - intros before after k. apply validation_end_missing_key.
  - intros Hne Hall Hprefix.
    rewrite (validation_end_complete outputs prefix self Hne Hall). cbn zeta.
    rewrite Hprefix. reflexivity.
Qed.

Lemma validation_end_rejects_witness :
  @Report.validation_end Samples.eval [Samples.loss_only_output] "val" initial_reports
  = Raises (KeyErr "ce_loss") /\
  @Report.validation_end Samples.eval [Samples.complete_output] "dev" initial_reports
  = Raises (KeyErr "dev").
Proof.
  destruct (@validation_end_rejects Samples.eval [Samples.loss_only_output] "val"
              initial_reports) as (_ & Hkey & _).
  destruct (@validation_end_rejects Samples.eval [Samples.complete_output] "dev"
              initial_reports) as (_ & _ & Hprefix).
  split.
  - apply (Hkey ["loss"%string]
                ["mlm_loss"; "rouge1"; "rouge2"; "rougeL"; "gen_time"]%string
                "ce_loss"%string).
    + reflexivity.
    + discriminate.
    + constructor; [|constructor]. intros k' [<- | []]. split.
      * intros _. exists Toy.three. reflexivity.
      * intros Hk. apply elem_of_score_keys in Hk.
        destruct Hk as [Hk | [Hk | [Hk | Hk]]]; discriminate Hk.
    + constructor. reflexivity.
  - apply Hprefix.
    + discriminate.
    + constructor; [|constructor].
      split; intros k Hk;
        [apply elem_of_loss_names in Hk; destruct Hk as [-> | [-> | ->]]
        |apply elem_of_score_keys in Hk; destruct Hk as [-> | [-> | [-> | ->]]]];
        eexists; vm_compute; reflexivity.
    + reflexivity.
Defined.

(** ** What a generative step returns *)

Lemma zip_keys {A B : Type} (ks : list A) (vs : list B) (k : A) :
  In k (map fst (zip ks vs)) -> In k ks.
Proof.
  revert vs. induction ks as [|k0 ks IH]; intros [|v vs]; cbn; try tauto.
  intros [Hk | Hk]; [auto | right; exact (IH vs Hk)].
Qed.

Lemma not_score_key `{EvalLib} (scores : list Scores) (k : string) :
  k ∉ ROUGE_KEYS -> (MFloat <$> aggregate_fmeasure scores) !! k = None.
Proof.
  intros Hk. rewrite lookup_fmap.
  destruct (aggregate_fmeasure scores !! k) as [v|] eqn:Hv; [|reflexivity].
  exfalso. apply Hk. apply (aggregate_keys scores). rewrite Hv. eauto.
Qed.

Lemma elem_of_ROUGE_KEYS (k : string) :
  k ∈ ROUGE_KEYS <-> k = "rouge1"%string \/ k = "rouge2"%string \/ k = "rougeL"%string.
Proof. unfold ROUGE_KEYS. rewrite !elem_of_cons, elem_of_nil. tauto. Qed.

(** A generative step returns when the weights are there, the generation
    succeeds and the step returns; its output is the dict of the named
    losses, updated with the generation time and the scores. *)
Lemma generative_step_of_Ok `{EvalLib} `{BartLib} (model : BartModel) (pad_token_id : Z)
    (step : M (list F32.float)) (batch : gmap string Labels.ids) (w w' : World)
    (x : gmap string metric) :
  Report.generative_step_of model pad_token_id step batch w = Ok x w' ->
  exists loss_tensors preds target gen_time,
    step w = Ok loss_tensors w' /\
    x = (MFloat <$> Report.calculate_rouge preds target)
        ∪ <["gen_time"%string := MFloat gen_time]>
            (dict_of_pairs (zip loss_names (map MTensor loss_tensors))).
Proof.
  unfold Report.generative_step_of. intros Hrun. inv_run Hrun.
  rewrite state_dict_run in Hrun0. apply from_option_Ok in Hrun0.
  destruct Hrun0 as [_ ->].
  destruct (generate_summaries _ _ _ _) as [e|[[preds target] gen_time]];
    [discriminate Hrun1|].
  cbn [from_sum] in Hrun1. apply ret_Ok in Hrun1. destruct Hrun1 as [-> ->].
  inv_run Hrun. apply ret_Ok in Hrun. destruct Hrun as [-> ->].
  eexists _, preds, target, gen_time. split; [eassumption | reflexivity].
Qed.

(** The keys of an output: a loss name is present exactly when the step
    returned a loss for it, "gen_time" always, a score key when the
    aggregate has it, and no other key. *)
Lemma generative_output_lookup `{EvalLib} (loss_tensors : list F32.float)
    (preds target : list string) (gen_time : F64.float) (k : string) :
  let x := (MFloat <$> Report.calculate_rouge preds target)
           ∪ <["gen_time"%string := MFloat gen_time]>
               (dict_of_pairs (zip loss_names (map MTensor loss_tensors))) in
  (k ∈ loss_names ->
   x !! k = dict_of_pairs (zip loss_names (map MTensor loss_tensors)) !! k) /\
  (k = "gen_time"%string -> x !! k = Some (MFloat gen_time)) /\
  (k ∈ ROUGE_KEYS -> x !! k = MFloat <$> Report.calculate_rouge preds target !! k) /\
  (k ∉ loss_names ++ ROUGE_KEYS ++ ["gen_time"%string] -> x !! k = None).
Proof.
  cbn zeta. unfold Report.calculate_rouge.
  assert (Hbase : k ∉ loss_names ->
                  dict_of_pairs (zip loss_names (map MTensor loss_tensors)) !! k = None).
  { intros Hk. apply eq_None_not_Some. intros Hsome. apply Hk.
    apply dict_of_pairs_keys, zip_keys in Hsome. apply list_elem_of_In. exact Hsome. }
  split; [|split; [|split]].
  - intros Hk. rewrite lookup_union_r.
    + apply lookup_insert_ne. apply elem_of_loss_names in Hk.
      destruct Hk as [-> | [-> | ->]]; discriminate.
    + apply not_score_key. rewrite elem_of_ROUGE_KEYS.
      apply elem_of_loss_names in Hk.
      destruct Hk as [-> | [-> | ->]]; intros [Hx | [Hx | Hx]]; discriminate Hx.
  - intros ->. rewrite lookup_union_r.
    + apply lookup_insert_eq.
    + apply not_score_key. rewrite elem_of_ROUGE_KEYS.
      intros [Hx | [Hx | Hx]]; discriminate Hx.
  - intros Hk. rewrite lookup_union, lookup_fmap.
    rewrite lookup_insert_ne, Hbase.
    + destruct (aggregate_fmeasure _ !! k); reflexivity.
    + rewrite elem_of_loss_names. apply elem_of_ROUGE_KEYS in Hk.
      destruct Hk as [-> | [-> | ->]]; intros [Hx | [Hx | Hx]]; discriminate Hx.
    + apply elem_of_ROUGE_KEYS in Hk. destruct Hk as [-> | [-> | ->]]; discriminate.
  - intros Hk. rewrite !elem_of_app in Hk. rewrite lookup_union_r.
    + rewrite lookup_insert_ne; [apply Hbase; tauto|].
      intros <-. apply Hk. right. right. apply list_elem_of_here.
    + apply not_score_key. tauto.
Qed.

Lemma trainer_output_entries `{EvalLib} `{BartLib} (self : SummarizationTrainer.self_t)
    (batch : gmap string Labels.ids) (w w' : World) (x : gmap string metric) :
  Report.trainer_generative_step self batch w = Ok x w' ->
  (exists loss, SummarizationTrainer._step self batch w = Ok loss w' /\
                x !! "loss"%string = Some (MTensor loss)) /\
  x !! "ce_loss"%string = None /\ x !! "mlm_loss"%string = None /\
  Report.has_float "gen_time" x /\
  (forall k, k ∉ loss_names ++ ROUGE_KEYS ++ ["gen_time"%string] -> x !! k = None).
Proof.
  unfold Report.trainer_generative_step. intros Hrun.
  apply generative_step_of_Ok in Hrun.
  destruct Hrun as (ls & preds & target & gen_time & Hstep & ->).
  inv_run Hstep. apply ret_Ok in Hstep. destruct Hstep as [-> ->].
  split; [|split; [|split; [|split]]].
  - exists a. split; [exact Hrun|].
    rewrite (proj1 (generative_output_lookup [a] preds target gen_time "loss"))
      by (apply elem_of_loss_names; auto).
    reflexivity.
  - rewrite (proj1 (generative_output_lookup [a] preds target gen_time "ce_loss"))
      by (apply elem_of_loss_names; auto).
    reflexivity.
  - rewrite (proj1 (generative_output_lookup [a] preds target gen_time "mlm_loss"))
      by (apply elem_of_loss_names; auto).
    reflexivity.
  - exists gen_time.
    apply (generative_output_lookup [a] preds target gen_time "gen_time"). reflexivity.
  - intros k. apply (generative_output_lookup [a] preds target gen_time k).
Qed.

Lemma distiller_output_entries `{EvalLib} `{BartLib} `{Torch}
    (self : SummarizationDistiller.self_t)
    (batch : gmap string Labels.ids) (w w' : World) (x : gmap string metric) :
  Report.distiller_generative_step self batch w = Ok x w' ->
  (exists blended loss_ce sloss,
      SummarizationDistiller._step self batch w = Ok (blended, loss_ce, sloss) w' /\
      x !! "loss"%string = Some (MTensor blended) /\
      x !! "ce_loss"%string = Some (MTensor loss_ce) /\
      x !! "mlm_loss"%string = Some (MTensor sloss)) /\
  Report.has_float "gen_time" x /\
  (forall k, k ∈ ROUGE_KEYS -> is_Some (x !! k) -> Report.has_float k x) /\
  (forall k, k ∉ loss_names ++ ROUGE_KEYS ++ ["gen_time"%string] -> x !! k = None).
Proof.
  unfold Report.distiller_generative_step. intros Hrun.
  apply generative_step_of_Ok in Hrun.
  destruct Hrun as (ls & preds & target & gen_time & Hstep & ->).
  inv_run Hstep. destruct a as [[blended loss_ce] sloss].
  apply ret_Ok in Hstep. destruct Hstep as [-> ->].
  split; [|split; [|split]].
  - exists blended, loss_ce, sloss. split; [exact Hrun|].
    rewrite (proj1 (generative_output_lookup [blended; loss_ce; sloss]
                      preds target gen_time "loss"))
      by (apply elem_of_loss_names; auto).
    rewrite (proj1 (generative_output_lookup [blended; loss_ce; sloss]
                      preds target gen_time "ce_loss"))
      by (apply elem_of_loss_names; auto).
    rewrite (proj1 (generative_output_lookup [blended; loss_ce; sloss]
                      preds target gen_time "mlm_loss"))
      by (apply elem_of_loss_names; auto).
    split; [|split]; reflexivity.
  - exists gen_time.
    apply (generative_output_lookup [blended; loss_ce; sloss] preds target gen_time
             "gen_time"). reflexivity.
  - intros k Hk Hsome. unfold Report.has_float.
    pose proof (proj1 (proj2 (proj2 (generative_output_lookup [blended; loss_ce; sloss]
                                       preds target gen_time k))) Hk) as Hlook.
    cbn zeta in Hlook. rewrite Hlook in Hsome. rewrite Hlook.
    destruct (Report.calculate_rouge preds target !! k) as [v|]; [eauto|].
    destruct Hsome as [? Hsome]. discriminate Hsome.
  - intros k. apply (generative_output_lookup [blended; loss_ce; sloss] preds target
                       gen_time k).
Qed.

(** ** Validation of the two classes *)

(** X20: the outputs of the plain trainer's validation steps are never
    accepted by [validation_end].  Each of them holds the loss under
    "loss" and nothing under "ce_loss" and "mlm_loss", so that a non-empty
    list ends in [KeyError] for "ce_loss" and an empty one in the
    [RuntimeError] of [torch.stack]; nothing is added to the metrics. *)
Theorem trainer_outputs_fail_validation `{EvalLib} `{BartLib}
    (outputs : list (gmap string metric)) (prefix : string) (self : Reports) :
  Forall (fun x => exists trainer batch w w',
                     Report.trainer_validation_step trainer batch w = Ok x w') outputs ->
  Forall (fun x => Report.has_tensor "loss" x /\ x !! "ce_loss"%string = None /\
                   x !! "mlm_loss"%string = None) outputs /\
  Report.validation_end outputs prefix self
  = Raises (match outputs with
            | [] => RuntimeErr
            | _ => KeyErr "ce_loss"
            end).
Proof.
  intros Hall.
  assert (Hentries : Forall (fun x => Report.has_tensor "loss" x /\
                                      x !! "ce_loss"%string = None /\
                                      x !! "mlm_loss"%string = None) outputs).
  { eapply Forall_impl; [exact Hall|].
    intros x (trainer & batch & w & w' & Hrun).
    apply trainer_output_entries in Hrun.
    destruct Hrun as ((loss & _ & Hloss) & Hce & Hmlm & _).
    split; [exists loss; exact Hloss | auto]. }
  split; [exact Hentries|].
  destruct outputs as [|x outputs]; [reflexivity|].
  apply (validation_end_missing_key (x :: outputs) prefix self ["loss"%string]
           ["mlm_loss"; "rouge1"; "rouge2"; "rougeL"; "gen_time"]%string "ce_loss"%string).
  - reflexivity.
  - discriminate.
  - eapply Forall_impl; [exact Hentries|].
    intros y (Hloss & _) k' [<- | []]. split; [intros _; exact Hloss|].
    intros Hk. apply elem_of_score_keys in Hk.
    destruct Hk as [Hk | [Hk | [Hk | Hk]]]; discriminate Hk.
  - apply Exists_cons_hd. apply Forall_cons in Hentries. tauto.
Qed.

Lemma trainer_outputs_fail_validation_witness :
  Samples.trainer_output = Ok Samples.trainer_metrics (world_of Samples.trainer_output) /\
  @Report.validation_end Samples.eval [Samples.trainer_metrics] "val" initial_reports
  = Raises (KeyErr "ce_loss").
Proof.
  assert (Hrun : Samples.trainer_output
                 = Ok Samples.trainer_metrics (world_of Samples.trainer_output))
    by (vm_compute; reflexivity).
  split; [exact Hrun|].
  assert (Hall : Forall (fun x => exists trainer batch w w',
                           @Report.trainer_validation_step Samples.eval (Toy.lib Toy.three)
                             trainer batch w = Ok x w') [Samples.trainer_metrics]).
  { constructor; [|constructor].
    exists Samples.trainer_self, Samples.trainer_batch, Toy.world1,
      (world_of Samples.trainer_output). exact Hrun. }
  exact (proj2 (@trainer_outputs_fail_validation Samples.eval (Toy.lib Toy.three)
                  [Samples.trainer_metrics] "val" initial_reports Hall)).
Defined.

(** X21: the outputs of the distiller's validation steps hold all three
    losses and the generation time; when the scorer reported every score
    key for each of them, they are complete and [validation_end] accepts a
    non-empty list of them under a known prefix: it returns the means,
    among them those of "ce_loss" and "mlm_loss", and appends the log to
    the history of the prefix. *)
Theorem distiller_outputs_pass_validation `{EvalLib} `{BartLib} `{Torch}
    (outputs : list (gmap string metric)) (prefix : string) (self : Reports)
    (history : list (gmap string F64.float)) :
  Forall (fun x => exists distiller batch w w',
                     Report.distiller_validation_step distiller batch w = Ok x w') outputs ->
  outputs <> [] ->
  Forall (fun x => forall k, k ∈ ROUGE_KEYS -> is_Some (x !! k)) outputs ->
  metrics self !! prefix = Some history ->
  Forall Report.complete outputs /\
  exists res self',
    Report.validation_end outputs prefix self = Returns (res, self') /\
    metrics self' !! prefix = Some (history ++ [vr_log res]) /\
    metrics_file self' = Some (metrics self') /\
    (forall k, k ∈ loss_names ->
       vr_losses res !! k = Some (tensor_mean (Report.tensors_at k outputs)) /\
       vr_log res !! prefixed prefix k = vr_losses res !! k).
Proof.
  intros Hall Hne Hscores Hprefix.
  assert (Hcomplete : Forall Report.complete outputs).
  { clear Hne. induction Hall as [|x outputs (d & batch & w & w' & Hrun) _ IH];
      [constructor|].
    apply Forall_cons in Hscores. destruct Hscores as [Hx Hrest].
    constructor; [|exact (IH Hrest)].
    apply distiller_output_entries in Hrun.
    destruct Hrun as ((blended & loss_ce & sloss & _ & Hl & Hce & Hmlm) & Hgen & Hsc & _).
    split.
    - intros k Hk. apply elem_of_loss_names in Hk.
      destruct Hk as [-> | [-> | ->]]; eexists; eassumption.
    - intros k Hk. rewrite elem_of_app, list_elem_of_singleton in Hk.
      destruct Hk as [Hk | ->]; [|exact Hgen]. apply (Hsc k Hk). apply (Hx k Hk). }
  split; [exact Hcomplete|].
  rewrite (validation_end_complete outputs prefix self Hne Hcomplete). cbn zeta.
  rewrite Hprefix. eexists _, _. split; [reflexivity|].
  cbn [metrics metrics_file vr_log vr_losses].
  split; [apply lookup_insert_eq|]. split; [reflexivity|].
  intros k Hk. split; [apply mean_entries_lookup; exact Hk|].
  apply (@dict_of_pairs_renamed _ (prefixed prefix) (prefixed_inj prefix)).
Qed.

Lemma distiller_outputs_pass_validation_witness :
  Samples.distiller_output
  = Ok Samples.distiller_metrics (world_of Samples.distiller_output) /\
  exists res self',
    @Report.validation_end Samples.eval
      [Samples.distiller_metrics; Samples.distiller_metrics] "val" initial_reports
    = Returns (res, self') /\
    metrics self' !! "val"%string = Some ([] ++ [vr_log res]).
Proof.
  assert (Hrun : Samples.distiller_output
                 = Ok Samples.distiller_metrics (world_of Samples.distiller_output))
    by (vm_compute; reflexivity).
  split; [exact Hrun|].
  assert (Hx : exists distiller batch w w',
             @Report.distiller_validation_step Samples.eval (Toy.lib Toy.three) Toy.torch
               distiller batch w = Ok Samples.distiller_metrics w').
  { exists (Toy.self1 F32.one F32.zero), Toy.batch, Toy.world1,
      (world_of Samples.distiller_output). exact Hrun. }
  assert (Hk : forall k, k ∈ ROUGE_KEYS -> is_Some (Samples.distiller_metrics !! k)).
  { intros k Hk. apply elem_of_ROUGE_KEYS in Hk.
    destruct Hk as [-> | [-> | ->]]; eexists; vm_compute; reflexivity. }
  assert (Hne : [Samples.distiller_metrics; Samples.distiller_metrics] <> [])
    by discriminate.
  destruct (@distiller_outputs_pass_validation Samples.eval (Toy.lib Toy.three) Toy.torch
              [Samples.distiller_metrics; Samples.distiller_metrics] "val"
              initial_reports []) as (_ & res & self' & Hres & Hhist & _).
  - constructor; [exact Hx | constructor; [exact Hx | constructor]].
  - exact Hne.
  - constructor; [exact Hk | constructor; [exact Hk | constructor]].
  - reflexivity.
  - exists res, self'. split; [exact Hres | exact Hhist].
Defined.

(** ** The files of a test epoch *)

Lemma write_batches_app `{EvalLib} (good rest : list (gmap string metric))
    (lines : list (list string * list string)) (files : TestFiles) :
  Forall2 (fun x pt => x !! "preds"%string = Some (MLines pt.1) /\
                       x !! "target"%string = Some (MLines pt.2)) good lines ->
  Report.write_batches (good ++ rest) files
  = Report.write_batches rest
      {| test_predictions := test_predictions files
                             ++ map (fun s => s +:+ newline) (concat (map fst lines));
         test_targets := test_targets files
                         ++ map (fun s => s +:+ newline) (concat (map snd lines)) |}.
Proof.
  intros Hgood. revert files.
  induction Hgood as [|x [ps ts] good lines [Hp Ht] _ IH]; intros files.
  - cbn [app map concat]. rewrite !app_nil_r. destruct files; reflexivity.
  - cbn [app Report.write_batches]. unfold Report.lines_of.
    cbn [fst snd] in Hp, Ht. rewrite Hp, Ht. rewrite IH.
    cbn [test_predictions test_targets map concat fst snd].
    rewrite !map_app, !app_assoc. reflexivity.
Qed.

Lemma generative_output_has_no_lines `{EvalLib} `{BartLib} (model : BartModel)
    (pad_token_id : Z) (step : M (list F32.float)) (batch : gmap string Labels.ids)
    (w w' : World) (x : gmap string metric) :
  Report.generative_step_of model pad_token_id step batch w = Ok x w' ->
  x !! "preds"%string = None /\ x !! "target"%string = None.
Proof.
  intros Hrun. apply generative_step_of_Ok in Hrun.
  destruct Hrun as (ls & preds & target & gen_time & _ & ->).
  split; apply (generative_output_lookup ls preds target gen_time);
    rewrite !elem_of_app, elem_of_loss_names, elem_of_ROUGE_KEYS, list_elem_of_singleton;
    intros [[Hx | [Hx | Hx]] | [[Hx | [Hx | Hx]] | Hx]]; discriminate Hx.
Qed.

(** X22: [test_epoch_end] never returns on the outputs of [test_step], of
    the trainer or of the distiller: such an output has no "preds" and no
    "target", so that the first batch raises [KeyError] for "preds" (an
    empty list of outputs fails in [test_end] instead).  Both files have
    been opened by then and are left empty. *)
Theorem test_outputs_have_no_predictions `{EvalLib} `{BartLib} `{Torch}
    (outputs : list (gmap string metric)) (self : Reports) :
  Forall (fun x =>
            (exists trainer batch w w',
                Report.trainer_test_step trainer batch w = Ok x w') \/
            (exists distiller batch w w',
                Report.distiller_test_step distiller batch w = Ok x w')) outputs ->
  Forall (fun x => x !! "preds"%string = None /\ x !! "target"%string = None) outputs /\
  Report.test_epoch_end outputs self
  = ({| test_predictions := []; test_targets := [] |},
     Raises (match outputs with
             | [] => RuntimeErr
             | _ => KeyErr "preds"
             end)).
Proof.
  intros Hall.
  assert (Hnone : Forall (fun x => x !! "preds"%string = None /\
                                   x !! "target"%string = None) outputs).
  { eapply Forall_impl; [exact Hall|].
    intros x [(t & batch & w & w' & Hrun) | (d & batch & w & w' & Hrun)];
      eapply generative_output_has_no_lines; exact Hrun. }
  split; [exact Hnone|].
  destruct outputs as [|x outputs]; [reflexivity|].
  apply Forall_cons in Hnone. destruct Hnone as [[Hp _] _].
  unfold Report.test_epoch_end. cbn [Report.write_batches]. unfold Report.lines_of.
  rewrite Hp. reflexivity.
Qed.

Lemma test_outputs_have_no_predictions_witness :
  @Report.test_epoch_end Samples.eval [Samples.trainer_metrics] initial_reports
  = ({| test_predictions := []; test_targets := [] |}, Raises (KeyErr "preds")).
Proof.
  assert (Hrun : Samples.trainer_output
                 = Ok Samples.trainer_metrics (world_of Samples.trainer_output))
    by (vm_compute; reflexivity).
  assert (Hall : Forall (fun x =>
             (exists trainer batch w w',
                 @Report.trainer_test_step Samples.eval (Toy.lib Toy.three)
                   trainer batch w = Ok x w') \/
             (exists distiller batch w w',
                 @Report.distiller_test_step Samples.eval (Toy.lib Toy.three) Toy.torch
                   distiller batch w = Ok x w')) [Samples.trainer_metrics]).
  { constructor; [|constructor]. left.
    exists Samples.trainer_self, Samples.trainer_batch, Toy.world1,
      (world_of Samples.trainer_output). exact Hrun. }
  exact (proj2 (@test_outputs_have_no_predictions Samples.eval (Toy.lib Toy.three)
                  Toy.torch [Samples.trainer_metrics] initial_reports Hall)).
Defined.

(** X23: when every output holds lines of text under "preds" and under
    "target", [test_epoch_end] writes them all, batch after batch and each
    followed by a line feed, the predictions to one file and the targets to
    the other, replacing what the files held, and then gives what
    [validation_end] gives for the prefix "test". *)
Theorem test_epoch_end_writes_every_line `{EvalLib} (outputs : list (gmap string metric))
    (lines : list (list string * list string)) (self : Reports) :
  Forall2 (fun x pt => x !! "preds"%string = Some (MLines pt.1) /\
                       x !! "target"%string = Some (MLines pt.2)) outputs lines ->
  Report.test_epoch_end outputs self
  = ({| test_predictions := map (fun s => s +:+ newline) (concat (map fst lines));
        test_targets := map (fun s => s +:+ newline) (concat (map snd lines)) |},
     Report.validation_end outputs "test" self).
Proof.
  intros Hall. unfold Report.test_epoch_end.
  rewrite <- (app_nil_r outputs) at 1.
  rewrite (write_batches_app outputs [] lines _ Hall). reflexivity.
Qed.

Lemma test_epoch_end_writes_every_line_witness :
  fst (@Report.test_epoch_end Samples.eval Samples.text_outputs initial_reports)
  = {| test_predictions := ["a" +:+ newline; "b" +:+ newline; "e" +:+ newline]%string;
       test_targets := ["c" +:+ newline; "d" +:+ newline; "f" +:+ newline]%string |}.
Proof.
  rewrite (@test_epoch_end_writes_every_line Samples.eval Samples.text_outputs
             [(["a"; "b"], ["c"; "d"]); (["e"], ["f"])]%string initial_reports).
  - reflexivity.
  - constructor; [split; reflexivity|]. constructor; [split; reflexivity|]. constructor.
Defined.

(** X24: the first batch that lacks a key ends the loop of
    [test_epoch_end] with a [KeyError] and [test_end] is not called; the
    files keep what was written.  When the batch lacks "preds", both files
    hold the lines of the batches before it; when it has "preds" and lacks
    "target", its predictions have been written already and the
    predictions file is ahead of the targets file by them. *)
Theorem missing_lines_end_the_test_epoch `{EvalLib} (good rest : list (gmap string metric))
    (bad : gmap string metric) (lines : list (list string * list string))
    (self : Reports) :
  Forall2 (fun x pt => x !! "preds"%string = Some (MLines pt.1) /\
                       x !! "target"%string = Some (MLines pt.2)) good lines ->
  (bad !! "preds"%string = None ->
   Report.test_epoch_end (good ++ bad :: rest) self
   = ({| test_predictions := map (fun s => s +:+ newline) (concat (map fst lines));
         test_targets := map (fun s => s +:+ newline) (concat (map snd lines)) |},
      Raises (KeyErr "preds"))) /\
  (forall preds, bad !! "preds"%string = Some (MLines preds) ->
   bad !! "target"%string = None ->
   Report.test_epoch_end (good ++ bad :: rest) self
   = ({| test_predictions := map (fun s => s +:+ newline)
                                 (concat (map fst lines) ++ preds);
         test_targets := map (fun s => s +:+ newline) (concat (map snd lines)) |},
      Raises (KeyErr "target"))).
Proof.
  intros Hgood. unfold Report.test_epoch_end.
  rewrite (write_batches_app good (bad :: rest) lines _ Hgood).
  cbn [Report.write_batches test_predictions test_targets app]. unfold Report.lines_of.
  split.
  - intros ->. reflexivity.
  - intros preds -> ->. rewrite map_app. reflexivity.
Qed.

Lemma missing_lines_end_the_test_epoch_witness :
  @Report.test_epoch_end Samples.eval
    (Samples.text_outputs ++ [ {[ "preds"%string := MLines ["g"%string] ]} ])
    initial_reports
  = ({| test_predictions := ["a" +:+ newline; "b" +:+ newline; "e" +:+ newline;
                             "g" +:+ newline]%string;
        test_targets := ["c" +:+ newline; "d" +:+ newline; "f" +:+ newline]%string |},
     Raises (KeyErr "target")).
Proof.
  assert (Hgood : Forall2 (fun x pt => x !! "preds"%string = Some (MLines pt.1) /\
                                       x !! "target"%string = Some (MLines pt.2))
                    Samples.text_outputs
                    [(["a"; "b"], ["c"; "d"]); (["e"], ["f"])]%string).
  { constructor; [split; reflexivity|]. constructor; [split; reflexivity|]. constructor. }
  destruct (@missing_lines_end_the_test_epoch Samples.eval Samples.text_outputs []
              {[ "preds"%string := MLines ["g"%string] ]} _ initial_reports Hgood)
    as [_ Htarget].
  exact (Htarget ["g"%string] eq_refl eq_refl).
Defined.
